(** * Year-progress wallpaper: calendar arithmetic, dot grid and request handler

    A shallow embedding of the wallpaper service: the overlay generator
    ([buildDotGridSVG], both layout variants) and the serverless handler
    ([parseDateInTz], [calcDateInfo], [buildTextSvg], [handler], and the
    text-free sibling with [getDayOfYear]).

    JavaScript built-ins the program calls (the [Date] constructor and its
    accessors, [Number], [String], [padStart], [toFixed], [Math.round] ...)
    are written out after ECMA-262 in the module [ES]. *)

From Stdlib Require Import ZArith Lia Bool List Ascii String.
From Stdlib Require Floats.
From Stdlib Require DecimalString DecimalPos.
From stdpp Require Import base gmap strings.

Set Warnings "-inexact-float,-register-all".
Local Open Scope Z_scope.

(* ===================================================================== *)
(** ** ECMAScript built-ins                                               *)
(* ===================================================================== *)

(** Numbers that are integers or NaN: time values, day counts, the results
    of [Number] on digit strings.  Every integer met here is below 2^53 in
    absolute value whenever it is observable (a larger one makes the date
    invalid), so integer arithmetic on [Z] is what the doubles compute. *)
Inductive JSNum : Set :=
| Num (z : Z)
| NaN.

Module ES.

Definition msPerDay : Z := 86400000.

(** ECMA-262 21.4.1.3 *)
Definition Day (t : Z) : Z := t / msPerDay.

Definition DaysInYear (y : Z) : Z :=
  if negb (y mod 4 =? 0) then 365
  else if negb (y mod 100 =? 0) then 366
  else if negb (y mod 400 =? 0) then 365
  else 366.

Definition DayFromYear (y : Z) : Z :=
  365 * (y - 1970) + (y - 1969) / 4 - (y - 1901) / 100 + (y - 1601) / 400.

Definition TimeFromYear (y : Z) : Z := msPerDay * DayFromYear y.

(** The largest [y] with [DayFromYear y <= d]: an estimate from the mean
    year length (146097 days in 400 years), corrected by one either way.
    [yearOfDay_spec] below shows it is that largest [y]. *)
Definition yearOfDay (d : Z) : Z :=
  let c := 1970 + (400 * d) / 146097 in
  if d <? DayFromYear c then c - 1
  else if DayFromYear (c + 1) <=? d then c + 1
  else c.

Definition YearFromTime (t : Z) : Z := yearOfDay (Day t).

Definition InLeapYear (t : Z) : Z :=
  if DaysInYear (YearFromTime t) =? 366 then 1 else 0.

Definition DayWithinYear (t : Z) : Z :=
  Day t - DayFromYear (YearFromTime t).

(** Day number, within its year, of the first day of month [mn] (0..11). *)
Definition monthStart (leap : Z) (mn : Z) : Z :=
  match mn with
  | 0 => 0
  | 1 => 31
  | 2 => 59 + leap
  | 3 => 90 + leap
  | 4 => 120 + leap
  | 5 => 151 + leap
  | 6 => 181 + leap
  | 7 => 212 + leap
  | 8 => 243 + leap
  | 9 => 273 + leap
  | 10 => 304 + leap
  | _ => 334 + leap
  end.

Definition MonthFromTime (t : Z) : Z :=
  let d := DayWithinYear t in
  let l := InLeapYear t in
  if d <? 31 then 0
  else if d <? 59 + l then 1
  else if d <? 90 + l then 2
  else if d <? 120 + l then 3
  else if d <? 151 + l then 4
  else if d <? 181 + l then 5
  else if d <? 212 + l then 6
  else if d <? 243 + l then 7
  else if d <? 273 + l then 8
  else if d <? 304 + l then 9
  else if d <? 334 + l then 10
  else 11.

Definition DateFromTime (t : Z) : Z :=
  DayWithinYear t - monthStart (InLeapYear t) (MonthFromTime t) + 1.

(** ECMA-262 21.4.1.28-31, on integer arguments.  An argument out of range
    gives a day number whose time value [TimeClip] rejects. *)
Definition MakeDay (year month date : Z) : Z :=
  let ym := year + month / 12 in
  let mn := month mod 12 in
  let leap := if DaysInYear ym =? 366 then 1 else 0 in
  DayFromYear ym + monthStart leap mn + date - 1.

Definition MakeDate (day time : Z) : Z := day * msPerDay + time.

Definition maxTime : Z := 8640000000000000.

Definition TimeClip (t : Z) : JSNum :=
  if Z.abs t <=? maxTime then Num t else NaN.

End ES.

(** The zone of the process the code runs in: the offset of local time from
    UTC in milliseconds, asked at a UTC instant ([LocalTime]) and at a local
    time ([UTC]), ECMA-262 21.4.1.25-26. *)
Record HostZone : Type := {
  tzaOfUTC : Z -> Z;
  tzaOfLocal : Z -> Z
}.

Definition fixedOffset (host : HostZone) (c : Z) : Prop :=
  forall t, tzaOfUTC host t = c /\ tzaOfLocal host t = c.

Definition utcHost : HostZone :=
  {| tzaOfUTC := fun _ => 0; tzaOfLocal := fun _ => 0 |}.


(** *** Doubles

    Where the program computes with fractions (the percentage, the text
    geometry) the model computes with binary64 floats, and reads a result
    back exactly from its mantissa and exponent. *)
Module F.
Import PrimFloat.
Abbreviation float := PrimFloat.float.

(** Exact for [|z| < 2^53], which covers every integer the program holds. *)
Definition ofZ (z : Z) : float :=
  match z with
  | Z0 => PrimFloat.zero
  | Zpos _ => PrimFloat.of_uint63 (Uint63.of_Z z)
  | Zneg p => PrimFloat.opp (PrimFloat.of_uint63 (Uint63.of_Z (Zpos p)))
  end.

Definition ofNum (n : JSNum) : float :=
  match n with
  | Num z => ofZ z
  | NaN => PrimFloat.nan
  end.

(** [floor (m * 2^e)], or [floor (m * 2^e + 1/2)] when [half] is set. *)
Definition scaledFloor (m e : Z) (half : bool) : Z :=
  if 0 <=? e then m * 2 ^ e
  else (2 * m + (if half then 2 ^ (- e) else 0)) / 2 ^ (- e + 1).

(** [Math.round]: nearest integer, ties towards +infinity.  The program
    never rounds an infinite value (its divisors are non-zero constants);
    here an infinity is read as NaN. *)
Definition round (x : float) : JSNum :=
  match FloatOps.Prim2SF x with
  | SpecFloat.S754_zero _ => Num 0
  | SpecFloat.S754_finite s m e =>
      Num (scaledFloor (if s then Zneg m else Zpos m) e true)
  | _ => NaN
  end.

(** [Math.ceil], with the same reading of infinities. *)
Definition ceil (x : float) : JSNum :=
  match FloatOps.Prim2SF x with
  | SpecFloat.S754_zero _ => Num 0
  | SpecFloat.S754_finite s m e =>
      Num (- scaledFloor (if s then Zpos m else Zneg m) e false)
  | _ => NaN
  end.

Definition stringOfZ (z : Z) : string :=
  DecimalString.NilZero.string_of_int (Z.to_int z).

(** [Number.prototype.toFixed(1)], ECMA-262 21.1.3.3: the integer [n]
    nearest to ten times the magnitude (the larger of two), printed with a
    point before its last digit.  Magnitudes of 1e21 and more, which
    [toFixed] prints in exponent form, do not arise from day counts. *)
Definition toFixed1 (x : float) : string :=
  match FloatOps.Prim2SF x with
  | SpecFloat.S754_nan => "NaN"
  | SpecFloat.S754_infinity s => if s then "-Infinity" else "Infinity"
  | SpecFloat.S754_zero _ => "0.0"
  | SpecFloat.S754_finite s m e =>
      let n := scaledFloor (10 * Zpos m) e true in
      (if s then "-" else "") +:+ stringOfZ (n / 10) +:+ "." +:+ stringOfZ (n mod 10)
  end.

(** [((a / b) * 100).toFixed(1)] *)
Definition percentFixed1 (a b : JSNum) : string :=
  toFixed1 (ofNum a / ofNum b * 100)%float.

(** [Math.round(k * (w / d))] and [Math.round(w * c)] *)
Definition roundScaled (k : Z) (w : JSNum) (d : Z) : JSNum :=
  round (ofZ k * (ofNum w / ofZ d))%float.

Definition c091 : float := 0.91%float.
Definition c038 : float := 0.38%float.

Definition roundTimes (w : JSNum) (c : float) : JSNum :=
  round (ofNum w * c)%float.

Definition roundQuot (a b : Z) : JSNum := round (ofZ a / ofZ b)%float.
Definition ceilQuot (a b : Z) : JSNum := ceil (ofZ a / ofZ b)%float.
End F.

(** *** Numbers and strings *)

(** [a - b] *)
Definition jsSub (a b : JSNum) : JSNum :=
  match a, b with
  | Num x, Num y => Num (x - y)
  | _, _ => NaN
  end.

(** [a + b] *)
Definition jsAdd (a b : JSNum) : JSNum :=
  match a, b with
  | Num x, Num y => Num (x + y)
  | _, _ => NaN
  end.

(** [a % n]: the remainder takes the sign of the dividend. *)
Definition jsRem (a : JSNum) (n : Z) : JSNum :=
  match a with
  | Num x => Num (Z.rem x n)
  | NaN => NaN
  end.

(** [a === b] on numbers: NaN equals nothing. *)
Definition strictEq (a b : JSNum) : bool :=
  match a, b with
  | Num x, Num y => x =? y
  | _, _ => false
  end.

(** [Math.floor(a / n)] for a positive constant [n].  The double quotient of
    an integer below 2^53 by 86400000 lies within 2^-27 of the exact one and
    an inexact quotient is at least 1/86400000 away from an integer, so the
    floor of the double is the floor of the exact quotient. *)
Definition floorDiv (a : JSNum) (n : Z) : JSNum :=
  match a with
  | Num x => Num (x / n)
  | NaN => NaN
  end.

(** [String(a)] for an integer below 1e21 or NaN. *)
Definition String_ (a : JSNum) : string :=
  match a with
  | Num z => F.stringOfZ z
  | NaN => "NaN"
  end.

Fixpoint repeatChar (n : nat) (c : ascii) : string :=
  match n with
  | O => EmptyString
  | S k => String c (repeatChar k c)
  end.

(** [s.padStart(n, c)] for a one-character filler. *)
Definition padStart (n : nat) (c : ascii) (s : string) : string :=
  repeatChar (n - String.length s) c +:+ s.

(** [s.split(sep)] for a one-character separator. *)
Fixpoint split (sep : ascii) (s : string) : list string :=
  match s with
  | EmptyString => [EmptyString]
  | String c r =>
      if Ascii.eqb c sep then EmptyString :: split sep r
      else match split sep r with
           | h :: t => String c h :: t
           | [] => [String c EmptyString]
           end
  end.

Definition digitValue (c : ascii) : option Z :=
  let n := Z.of_N (Ascii.N_of_ascii c) in
  if (48 <=? n) && (n <=? 57) then Some (n - 48) else None.

Fixpoint digitsValue (s : string) (acc : Z) : option Z :=
  match s with
  | EmptyString => Some acc
  | String c r =>
      match digitValue c with
      | Some d => digitsValue r (10 * acc + d)
      | None => None
      end
  end.

(** [Number(s)] on the strings a date is written with: a run of decimal
    digits is its value, the empty string is 0, and a string with a
    character that no numeric literal contains is NaN.  The other literal
    forms ECMA-262 reads (surrounding white space, a sign, a fraction, an
    exponent, a radix prefix, [Infinity]) are outside this fragment and are
    not told apart from NaN here: the concrete strings evaluated below use
    none of them, and what is proved for every string does not depend on
    how the string is read.  Digit runs beyond 2^53, which a double would
    round, fall outside the date range either way. *)
Definition Number (s : string) : JSNum :=
  match digitsValue s 0 with
  | Some z => Num z
  | None => NaN
  end.

(** [arr[i]] coerced to a number: a missing element is [undefined], NaN. *)
Definition nthNum (l : list JSNum) (i : nat) : JSNum := nth i l NaN.

(** *** Date objects

    A [Date] is its time value: milliseconds since the epoch, or NaN for an
    invalid date. *)
Module Date.

Definition LocalTime (host : HostZone) (t : Z) : Z := t + tzaOfUTC host t.
Definition UTC (host : HostZone) (t : Z) : Z := t - tzaOfLocal host t.

(** Years 0 to 99 given to the constructor or to [Date.UTC] mean 1900 to
    1999 (ECMA-262 21.4.2.1 step 5.k, 21.4.3.4 step 9). *)
Definition fullYear (y : Z) : Z :=
  if (0 <=? y) && (y <=? 99) then 1900 + y else y.

(** [new Date(y, m, d)]: local midnight. *)
Definition new (host : HostZone) (y m d : JSNum) : JSNum :=
  match y, m, d with
  | Num y, Num m, Num d =>
      ES.TimeClip (UTC host (ES.MakeDate (ES.MakeDay (fullYear y) m d) 0))
  | _, _, _ => NaN
  end.

(** [Date.UTC(y, m, d)] *)
Definition UTCMidnight (y m d : JSNum) : JSNum :=
  match y, m, d with
  | Num y, Num m, Num d =>
      ES.TimeClip (ES.MakeDate (ES.MakeDay (fullYear y) m d) 0)
  | _, _, _ => NaN
  end.

(** [new Date(tv)] *)
Definition ofTimeValue (tv : JSNum) : JSNum :=
  match tv with
  | Num t => ES.TimeClip t
  | NaN => NaN
  end.

Definition getFullYear (host : HostZone) (date : JSNum) : JSNum :=
  match date with
  | Num t => Num (ES.YearFromTime (LocalTime host t))
  | NaN => NaN
  end.

Definition getUTCFullYear (date : JSNum) : JSNum :=
  match date with
  | Num t => Num (ES.YearFromTime t)
  | NaN => NaN
  end.

Definition getUTCMonth (date : JSNum) : JSNum :=
  match date with
  | Num t => Num (ES.MonthFromTime t)
  | NaN => NaN
  end.

Definition getUTCDate (date : JSNum) : JSNum :=
  match date with
  | Num t => Num (ES.DateFromTime t)
  | NaN => NaN
  end.

(** Local midnight of the civil date [y]-[m]-[d] ([m] from 1), with no
    two-digit-year reading: what a [Date] holding that day is. *)
Definition civil (host : HostZone) (y m d : Z) : JSNum :=
  ES.TimeClip (UTC host (ES.MakeDate (ES.MakeDay y (m - 1) d) 0)).

End Date.

(** Days of month [m] (1..12) of year [y], for stating which triples are
    civil dates. *)
Definition daysInMonth (y m : Z) : Z :=
  match m with
  | 2 => if ES.DaysInYear y =? 366 then 29 else 28
  | 4 | 6 | 9 | 11 => 30
  | _ => 31
  end.

Definition civilDate (y m d : Z) : Prop :=
  1 <= m <= 12 /\ 1 <= d <= daysInMonth y m.


(* ===================================================================== *)
(** ** Effects: exceptions, the module state and the outside world        *)
(* ===================================================================== *)

Inductive JSError : Set :=
| RangeError (message : string)
| TypeError (message : string)
| SystemError (message : string).

Definition errorMessage (e : JSError) : string :=
  match e with
  | RangeError m | TypeError m | SystemError m => m
  end.

Inductive Completion (A : Type) : Type :=
| Normal (a : A)
| Throw (e : JSError).
Arguments Normal {A} a.
Arguments Throw {A} e.

(** An SVG document as a tree; the layout white space of the template
    strings is not represented. *)
Inductive Xml : Type :=
| Elem (tag : string) (attrs : list (string * string)) (children : list Xml)
| Text (s : string).

Inductive Encoder : Set :=
| Jpeg (quality : Z) (mozjpeg : bool)
| Png (compressionLevel : Z).

(** What the handler asks of sharp: [sharp(input).resize(w, h, {fit:
    'fill'}).composite(layers)] and an encoder.  [None] for a dimension is
    [undefined]. *)
Record Pipeline : Type := {
  input : string;
  resizeWidth : option Z;
  resizeHeight : option Z;
  composite : list Xml;
  encoder : Encoder
}.

(** Calls that leave the process, in the order made. *)
Inductive Event : Type :=
| ReadClock
| FormatToParts (timeZone : string)
| ExistsSync (path : string)
| ReadFont
| SharpToBuffer (p : Pipeline).

(** The module-level [_fontBase64] and the calls made so far. *)
Record World : Type := {
  _fontBase64 : option string;
  events : list Event
}.

Record Env : Type := {
  host : HostZone;
  (** time value of [new Date()] *)
  clock : Z;
  (** [new Intl.DateTimeFormat('en-CA', {timeZone, ...}).formatToParts(now)]:
      the parts as (type, value), or the RangeError of an unknown zone *)
  intlFormatToParts : string -> Z -> Completion (list (string * string));
  OVERLAYS_DIR : string;
  (** what [fs.existsSync] answers for a path *)
  fileExists : string -> bool;
  (** [fs.readFileSync(FONT_PATH).toString('base64')] *)
  fontFile : Completion string;
  (** running a pipeline to its buffer *)
  sharpToBuffer : Pipeline -> Completion string
}.

Definition M (A : Type) : Type := World -> Completion A * World.

Definition ret {A} (a : A) : M A := fun w => (Normal a, w).

Definition bind {A B} (m : M A) (k : A -> M B) : M B :=
  fun w =>
    match m w with
    | (Normal a, w') => k a w'
    | (Throw e, w') => (Throw e, w')
    end.

Definition throw {A} (e : JSError) : M A := fun w => (Throw e, w).

Definition tryCatch {A} (m : M A) (handle : JSError -> M A) : M A :=
  fun w =>
    match m w with
    | (Normal a, w') => (Normal a, w')
    | (Throw e, w') => handle e w'
    end.

Definition liftCompletion {A} (c : Completion A) : M A := fun w => (c, w).

Definition emit (ev : Event) : M unit :=
  fun w => (Normal tt, {| _fontBase64 := _fontBase64 w; events := events w ++ [ev] |}).

Notation "'do' x <- m ; k" := (bind m (fun x => k))
  (at level 10, x name, m at level 100, k at level 200).

Definition initialWorld : World := {| _fontBase64 := None; events := [] |}.

(** [path.join(dir, file)] for a file name without separators. *)
Definition pathJoin (dir file : string) : string := dir +:+ "/" +:+ file.

Definition existsSync (env : Env) (path : string) : M bool :=
  do _ <- emit (ExistsSync path);
  ret (fileExists env path).

(** Truthiness of an optional string: [undefined] and the empty string are
    falsy. *)
Definition truthy (s : option string) : bool :=
  match s with
  | Some (String _ _) => true
  | _ => false
  end.

(* ===================================================================== *)
(** ** Date utilities (the same text in both handler files)               *)
(* ===================================================================== *)

(** [Number(parts.find(p => p.type === type).value)]; a missing part makes
    [find] return [undefined], whose [.value] throws. *)
Definition get (parts : list (string * string)) (type : string) : M JSNum :=
  match List.find (fun p => String.eqb (fst p) type) parts with
  | Some p => ret (Number (snd p))
  | None => throw (TypeError "Cannot read properties of undefined (reading 'value')")
  end.

(** The body of the [try] block. *)
Definition todayInZone (env : Env) (tz : string) (now : Z) : M JSNum :=
  do _ <- emit (FormatToParts tz);
  do parts <- liftCompletion (intlFormatToParts env tz now);
  do y <- get parts "year";
  do m <- get parts "month";
  do d <- get parts "day";
  ret (Date.new (host env) y (jsSub m (Num 1)) d).

(** The UTC fallback:
    [new Date(Date.UTC(now.getUTCFullYear(), now.getUTCMonth(), now.getUTCDate()))] *)
Definition utcToday (now : Z) : JSNum :=
  Date.ofTimeValue
    (Date.UTCMidnight (Date.getUTCFullYear (Num now)) (Date.getUTCMonth (Num now))
       (Date.getUTCDate (Num now))).

Definition parseDateInTz (env : Env) (dateStr tz : option string) : M JSNum :=
  match dateStr with
  | Some (String _ _ as str) =>
      let nums := List.map Number (split "-" str) in
      ret (Date.new (host env) (nthNum nums 0) (jsSub (nthNum nums 1) (Num 1))
             (nthNum nums 2))
  | _ =>
      do _ <- emit ReadClock;
      let now := clock env in
      do early <-
        match tz with
        | Some (String _ _ as zone) =>
            tryCatch (do d <- todayInZone env zone now; ret (Some d))
                     (fun _ => ret None)
        | _ => ret None
        end;
      match early with
      | Some d => ret d
      | None => ret (utcToday now)
      end
  end.

(** The local [isLeap] of [calcDateInfo]. *)
Definition isLeap (year : JSNum) : bool :=
  (strictEq (jsRem year 4) (Num 0) && negb (strictEq (jsRem year 100) (Num 0)))
  || strictEq (jsRem year 400) (Num 0).

Record DateInfo : Type := {
  dayOfYear : JSNum;
  daysLeft : JSNum;
  percent : string;
  daysInYear : Z
}.

(** A [Date] always has [getFullYear], so the conditional takes it. *)
Definition calcDateInfo (host : HostZone) (date : JSNum) : DateInfo :=
  let year := Date.getFullYear host date in
  let daysInYear := if isLeap year then 366 else 365 in
  let jan1 := Date.new host year (Num 0) (Num 1) in
  let dayOfYear := jsAdd (floorDiv (jsSub date jan1) 86400000) (Num 1) in
  let dec31 := Date.new host year (Num 11) (Num 31) in
  let daysLeft := floorDiv (jsSub dec31 date) 86400000 in
  let percent := F.percentFixed1 dayOfYear (Num daysInYear) in
  {| dayOfYear := dayOfYear; daysLeft := daysLeft; percent := percent;
     daysInYear := daysInYear |}.

(** api/wallpaper.js *)
Definition getDayOfYear (host : HostZone) (date : JSNum) : JSNum :=
  let year := Date.getFullYear host date in
  let jan1 := Date.new host year (Num 0) (Num 1) in
  jsAdd (floorDiv (jsSub date jan1) 86400000) (Num 1).

(* ===================================================================== *)
(** ** Resolution table and request                                       *)
(* ===================================================================== *)

Record Resolution : Set := { width : Z; height : Z }.

Definition RESOLUTIONS_entries : list (string * Resolution) :=
  [ ("iphone16pro", {| width := 1290; height := 2796 |});
    ("iphone15",    {| width := 1179; height := 2556 |});
    ("iphone14pro", {| width := 1290; height := 2796 |});
    ("iphone13",    {| width := 1170; height := 2532 |});
    ("default",     {| width := 1290; height := 2796 |}) ].

Definition RESOLUTIONS : gmap string Resolution := list_to_map RESOLUTIONS_entries.

(** [Object.keys(RESOLUTIONS)] *)
Definition RESOLUTIONS_keys : list string := List.map fst RESOLUTIONS_entries.

(** The properties every object literal inherits from [Object.prototype]
    (ECMA-262 20.1.3 and B.2.2): functions, and the prototype object itself
    under [__proto__]. *)
Definition objectPrototypeKeys : list string :=
  [ "constructor"; "hasOwnProperty"; "isPrototypeOf"; "propertyIsEnumerable";
    "toLocaleString"; "toString"; "valueOf"; "__proto__";
    "__defineGetter__"; "__defineSetter__"; "__lookupGetter__"; "__lookupSetter__" ].

Inductive PropertyValue : Set :=
| OwnValue (r : Resolution)
| InheritedValue (key : string)
| Undefined.

(** [RESOLUTIONS[model]]: an own property, else one found on the prototype,
    else [undefined]. *)
Definition getProperty (model : string) : PropertyValue :=
  match RESOLUTIONS !! model with
  | Some r => OwnValue r
  | None =>
      if bool_decide (model ∈ objectPrototypeKeys) then InheritedValue model
      else Undefined
  end.

(** [!resolution]: only [undefined] is falsy here. *)
Definition isFalsy (v : PropertyValue) : bool :=
  match v with
  | Undefined => true
  | _ => false
  end.

(** [const { width, height } = resolution]: the inherited values have
    neither property. *)
Definition dimensions (v : PropertyValue) : option Z * option Z :=
  match v with
  | OwnValue r => (Some (width r), Some (height r))
  | _ => (None, None)
  end.

Record Query : Set := {
  q_model : option string;
  q_date : option string;
  q_format : option string;
  q_tz : option string
}.

Inductive Response : Type :=
| Json (status : Z) (body : list (string * string))
| Image (status : Z) (headers : list (string * string)) (body : string).

Definition statusOf (r : Response) : Z :=
  match r with
  | Json s _ | Image s _ _ => s
  end.

Fixpoint joinWith (sep : string) (l : list string) : string :=
  match l with
  | [] => EmptyString
  | [x] => x
  | x :: r => x +:+ sep +:+ joinWith sep r
  end.

Definition unsupportedModel (model : string) : Response :=
  Json 400
    [("error", "Unsupported model: " +:+ model +:+ ". Valid values: "
               +:+ joinWith ", " RESOLUTIONS_keys)].

Definition internalError (e : JSError) : Response :=
  Json 500 [("error", "Internal server error"); ("message", errorMessage e)].

(** [`day-${String(dayOfYear).padStart(3, '0')}.png`] *)
Definition dayFileName (dayOfYear : JSNum) : string :=
  "day-" +:+ padStart 3 "0" (String_ dayOfYear) +:+ ".png".

(** Step 4 of both handlers: the file of the day if it exists, else
    day-365.png if that exists, else nothing (the 500 response). *)
Definition selectOverlay (env : Env) (dayOfYear : JSNum) : M (option string) :=
  let overlayPath := pathJoin (OVERLAYS_DIR env) (dayFileName dayOfYear) in
  do found <- existsSync env overlayPath;
  let overlayPath :=
    if found then overlayPath else pathJoin (OVERLAYS_DIR env) "day-365.png" in
  do found <- existsSync env overlayPath;
  if found then ret (Some overlayPath) else ret None.

(** [format === 'png' ? ... : ...] *)
Definition isPng (format : string) : bool := String.eqb format "png".

Definition encoderFor (format : string) : Encoder :=
  if isPng format then Png 6 else Jpeg 92 true.

Definition contentTypeFor (format : string) : string :=
  if isPng format then "image/png" else "image/jpeg".

Definition toBuffer (env : Env) (p : Pipeline) : M string :=
  do _ <- emit (SharpToBuffer p);
  liftCompletion (sharpToBuffer env p).


(* ===================================================================== *)
(** ** The handler with the text layer (unnamed/part_001)                 *)
(* ===================================================================== *)

(** [ToNumber] and [String] of a dimension that may be [undefined]. *)
Definition toNumber (v : option Z) : JSNum :=
  match v with
  | Some z => Num z
  | None => NaN
  end.

Definition stringOfDim (v : option Z) : string :=
  match v with
  | Some z => F.stringOfZ z
  | None => "undefined"
  end.

Module WithText.

(** The cached font: read once, kept in [_fontBase64]; an empty cache
    value is falsy and read again. *)
Definition getFontBase64 (env : Env) : M string :=
  fun w =>
    match _fontBase64 w with
    | Some (String _ _ as cached) => (Normal cached, w)
    | _ =>
        let w1 := {| _fontBase64 := _fontBase64 w; events := events w ++ [ReadFont] |} in
        match fontFile env with
        | Normal b => (Normal b, {| _fontBase64 := Some b; events := events w1 |})
        | Throw e => (Throw e, w1)
        end
    end.

Definition labelText (daysLeft : JSNum) (percent : string) : string :=
  String_ daysLeft +:+ " Days Left  •  " +:+ percent +:+ "%".

Definition buildTextSvg (width height : option Z) (daysLeft : JSNum)
    (percent fontBase64 : string) : Xml :=
  let text := labelText daysLeft percent in
  let fontSize := F.roundScaled 52 (toNumber width) 1290 in
  let fontColor := "#FFFFFF" in
  let textY := F.roundTimes (toNumber height) F.c091 in
  let shadowBlur := F.roundScaled 8 (toNumber width) 1290 in
  Elem "svg"
    [("xmlns", "http://www.w3.org/2000/svg");
     ("width", stringOfDim width); ("height", stringOfDim height)]
    [Elem "defs" []
       [Elem "style" []
          [Text ("@font-face { font-family: 'SFPro'; src: url('data:font/otf;base64,"
                 +:+ fontBase64 +:+ "') format('opentype'); } "
                 +:+ ".label { font-family: 'SFPro', -apple-system, 'Helvetica Neue', sans-serif; "
                 +:+ "font-size: " +:+ String_ fontSize +:+ "px; "
                 +:+ "fill: " +:+ fontColor +:+ "; text-anchor: middle; filter: url(#shadow); }")];
        Elem "filter"
          [("id", "shadow"); ("x", "-20%"); ("y", "-20%");
           ("width", "140%"); ("height", "140%")]
          [Elem "feDropShadow"
             [("dx", "0"); ("dy", "2"); ("stdDeviation", String_ shadowBlur);
              ("flood-color", "rgba(0,0,0,0.55)")] []]];
     Elem "text"
       [("class", "label");
        ("x", String_ (F.round (PrimFloat.div (F.ofNum (toNumber width)) (F.ofZ 2))));
        ("y", String_ textY)]
       [Text text]].

Definition handlerBody (env : Env) (query : Query) : M Response :=
  let model := default "default" (q_model query) in
  let dateOverride := q_date query in
  let format := default "jpg" (q_format query) in
  let tz := q_tz query in
  let resolution := getProperty model in
  if isFalsy resolution then ret (unsupportedModel model)
  else
    let '(width, height) := dimensions resolution in
    do today <- parseDateInTz env dateOverride tz;
    let info := calcDateInfo (host env) today in
    do overlay <- selectOverlay env (dayOfYear info);
    match overlay with
    | None =>
        ret (Json 500
               [("error", "No overlay image found for today. Run generate-overlays.js first.")])
    | Some overlayPath =>
        do fontBase64 <- getFontBase64 env;
        let textSvg := buildTextSvg width height (daysLeft info) (percent info) fontBase64 in
        let pipeline :=
          {| input := overlayPath; resizeWidth := width; resizeHeight := height;
             composite := [textSvg]; encoder := encoderFor format |} in
        do imageBuffer <- toBuffer env pipeline;
        ret (Image 200
               [("Content-Type", contentTypeFor format);
                ("Cache-Control", "no-store, no-cache, must-revalidate");
                ("X-Day-Of-Year", String_ (dayOfYear info));
                ("X-Days-Left", String_ (daysLeft info));
                ("X-Year-Percent", percent info)]
               imageBuffer)
    end.

(** The [try] ... [catch] around the body: what was thrown becomes the
    500 response. *)
Definition handler (env : Env) (query : Query) (w : World) : Response * World :=
  match handlerBody env query w with
  | (Normal r, w') => (r, w')
  | (Throw e, w') => (internalError e, w')
  end.

End WithText.

(* ===================================================================== *)
(** ** The handler that serves the overlay as it is (api/wallpaper.js)    *)
(* ===================================================================== *)

Module Plain.

Definition handlerBody (env : Env) (query : Query) : M Response :=
  let model := default "default" (q_model query) in
  let dateOverride := q_date query in
  let format := default "jpg" (q_format query) in
  let tz := q_tz query in
  let resolution := getProperty model in
  if isFalsy resolution then ret (unsupportedModel model)
  else
    let '(width, height) := dimensions resolution in
    do today <- parseDateInTz env dateOverride tz;
    let dayOfYear := getDayOfYear (host env) today in
    do overlay <- selectOverlay env dayOfYear;
    match overlay with
    | None => ret (Json 500 [("error", "No overlay image found for today.")])
    | Some overlayPath =>
        let pipeline :=
          {| input := overlayPath; resizeWidth := width; resizeHeight := height;
             composite := []; encoder := encoderFor format |} in
        do imageBuffer <- toBuffer env pipeline;
        ret (Image 200
               [("Content-Type", contentTypeFor format);
                ("Cache-Control", "no-store, no-cache, must-revalidate");
                ("X-Day-Of-Year", String_ dayOfYear)]
               imageBuffer)
    end.

Definition handler (env : Env) (query : Query) (w : World) : Response * World :=
  match handlerBody env query w with
  | (Normal r, w') => (r, w')
  | (Throw e, w') => (internalError e, w')
  end.

End Plain.

(* ===================================================================== *)
(** ** The overlay generator                                              *)
(* ===================================================================== *)

Record Dot : Set := {
  cx : Z;
  cy : Z;
  r : Z;
  fill : string;
  opacity : option string
}.

Definition circle (d : Dot) : Xml :=
  Elem "circle"
    ([("cx", F.stringOfZ (cx d)); ("cy", F.stringOfZ (cy d));
      ("r", F.stringOfZ (r d)); ("fill", fill d)]
     ++ match opacity d with
        | Some o => [("opacity", o)]
        | None => []
        end)
    [].

(** [Math.round(a / b)] and [Math.ceil(a / b)] of positive integer
    constants, exactly; [spacing_as_doubles] and its like check each use
    against the double computation. *)
Definition roundDiv (a b : Z) : Z := (2 * a + b) / (2 * b).
Definition ceilDiv (a b : Z) : Z := - ((- a) / b).

(** unnamed/part_000: dots on a transparent layer over the background. *)
Module OverBackground.

Definition WIDTH : Z := 1290.
Definition HEIGHT : Z := 2796.
Definition COLS : Z := 20.
Definition TOTAL_DOTS : Z := 365.
Definition ROWS : Z := ceilDiv TOTAL_DOTS COLS.
Definition MARGIN_LEFT : Z := 159.
Definition MARGIN_RIGHT : Z := 159.
Definition GRID_TOP : Z := 1100.
Definition GRID_HEIGHT : Z := 704.
Definition GRID_W : Z := WIDTH - MARGIN_LEFT - MARGIN_RIGHT.
Definition H_SPACING : Z := roundDiv GRID_W (COLS - 1).
Definition V_SPACING : Z := roundDiv GRID_HEIGHT (ROWS - 1).
Definition DOT_RADIUS : Z := 11.
Definition COL_FILLED : string := "#1C1C1E".
Definition OPACITY_EMPTY : string := "0.15".

(** The body of the loop for index [i]. *)
Definition dot (filledCount i : Z) : Dot :=
  let col := Z.rem i COLS in
  let row := i / COLS in
  let cx := MARGIN_LEFT + col * H_SPACING in
  let cy := GRID_TOP + row * V_SPACING in
  if i <? filledCount then
    {| cx := cx; cy := cy; r := DOT_RADIUS; fill := COL_FILLED; opacity := None |}
  else
    {| cx := cx; cy := cy; r := DOT_RADIUS; fill := "white";
       opacity := Some OPACITY_EMPTY |}.

(** [circles] after the loop [for (i = 0; i < TOTAL_DOTS; i++)]. *)
Definition dots (filledCount : Z) : list Dot :=
  dot filledCount <$> seqZ 0 TOTAL_DOTS.

Definition buildDotGridSVG (filledCount : Z) : Xml :=
  Elem "svg"
    [("xmlns", "http://www.w3.org/2000/svg");
     ("width", F.stringOfZ WIDTH); ("height", F.stringOfZ HEIGHT)]
    (circle <$> dots filledCount).

End OverBackground.

(** scripts/generate-overlays.js: dots on an opaque white canvas. *)
Module OnWhite.

Definition WIDTH : Z := 1290.
Definition HEIGHT : Z := 2796.
Definition COLS : Z := 20.
Definition TOTAL_DOTS : Z := 365.
Definition ROWS : Z := ceilDiv TOTAL_DOTS COLS.
Definition DOT_RADIUS : Z := 14.
Definition DOT_SPACING : Z := 62.
Definition GRID_W : Z := (COLS - 1) * DOT_SPACING.
Definition GRID_H : Z := (ROWS - 1) * DOT_SPACING.
Definition GRID_X : Z := roundDiv (WIDTH - GRID_W) 2.
(** [Math.round(HEIGHT * 0.38)] *)
Definition GRID_Y : Z := roundDiv (HEIGHT * 38) 100.
Definition COL_FILLED : string := "#1C1C1E".
Definition COL_EMPTY : string := "#D1D1D6".

Definition dot (filledCount i : Z) : Dot :=
  let col := Z.rem i COLS in
  let row := i / COLS in
  let cx := GRID_X + col * DOT_SPACING in
  let cy := GRID_Y + row * DOT_SPACING in
  let fill := if i <? filledCount then COL_FILLED else COL_EMPTY in
  {| cx := cx; cy := cy; r := DOT_RADIUS; fill := fill; opacity := None |}.

Definition dots (filledCount : Z) : list Dot :=
  dot filledCount <$> seqZ 0 TOTAL_DOTS.

Definition buildDotGridSVG (filledCount : Z) : Xml :=
  Elem "svg"
    [("xmlns", "http://www.w3.org/2000/svg");
     ("width", F.stringOfZ WIDTH); ("height", F.stringOfZ HEIGHT)]
    (Elem "rect"
       [("width", F.stringOfZ WIDTH); ("height", F.stringOfZ HEIGHT);
        ("fill", "#FFFFFF")] []
     :: (circle <$> dots filledCount)).

End OnWhite.


(* ===================================================================== *)
(** ** Vocabulary of the statements                                       *)
(* ===================================================================== *)

(** Divisible by 4 and not by 100, or divisible by 400. *)
Definition leapYear (Y : Z) : Prop := ((4 | Y) /\ ~ (100 | Y)) \/ (400 | Y).

(** [daysInYear] as [calcDateInfo] computes it from the year [Y]. *)
Definition yearLength (Y : Z) : Z := if isLeap (Num Y) then 366 else 365.

(** The years that lie wholly inside the range of [Date] (100 000 000 days
    either side of the epoch). *)
Definition yearRange (Y : Z) : Prop := -271820 <= Y <= 275759.

(** Eastern Time in 2024, a host zone with daylight saving: UTC-5, and UTC-4
    from 10 March 07:00 UTC to 3 November 06:00 UTC.  A local time that is
    skipped or repeated is read with the offset before the transition. *)
Definition easternTime2024 : HostZone :=
  let hour := 3600000 in
  let dstStart := 1710054000000 in
  let dstEnd := 1730613600000 in
  {| tzaOfUTC := fun t =>
       if (dstStart <=? t) && (t <? dstEnd) then -4 * hour else -5 * hour;
     tzaOfLocal := fun l =>
       if (dstStart - 4 * hour <=? l) && (l <? dstEnd - 4 * hour)
       then -4 * hour else -5 * hour |}.

(** Istanbul in 2016, a host zone that changed its offset for good: UTC+2
    until 27 March 01:00 UTC, UTC+3 from then on. *)
Definition istanbul2016 : HostZone :=
  let hour := 3600000 in
  let change := 1459040400000 in
  {| tzaOfUTC := fun t => if t <? change then 2 * hour else 3 * hour;
     tzaOfLocal := fun l => if l <? change + 3 * hour then 2 * hour else 3 * hour |}.

(** Local midnight of day [k] of year [Y], on a host at fixed offset [c]. *)
Definition midnight (Y k c : Z) : Z := (ES.DayFromYear Y + k) * ES.msPerDay - c.

(** The day number within its year of a civil date. *)
Definition dayIndex (Y m d : Z) : Z :=
  ES.monthStart (if ES.DaysInYear Y =? 366 then 1 else 0) (m - 1) + d - 1.

(** The paths step 4 of the handlers probes. *)
Definition overlayPathFor (env : Env) (dayOfYear : JSNum) : string :=
  pathJoin (OVERLAYS_DIR env) (dayFileName dayOfYear).

Definition day365Path (env : Env) : string :=
  pathJoin (OVERLAYS_DIR env) "day-365.png".

(** The inputs of the pipelines handed to sharp so far. *)
Definition sharpInputs (w : World) : list string :=
  omap (fun ev => match ev with SharpToBuffer p => Some (input p) | _ => None end)
       (events w).

Definition header (name : string) (r : Response) : option string :=
  match r with
  | Image _ hs _ => snd <$> List.find (fun h => String.eqb (fst h) name) hs
  | Json _ _ => None
  end.

(** A deployment to evaluate requests on: a UTC host on 31 December 2024,
    the 365 generated overlays, the font, and an [Intl] that knows only the
    zone UTC. *)
Definition generatedOverlays (dir : string) : list string :=
  (fun day => pathJoin dir (dayFileName (Num day))) <$> seqZ 1 365.

Definition utcParts (now : Z) : list (string * string) :=
  [ ("year", String_ (Date.getUTCFullYear (Num now)));
    ("literal", "-");
    ("month", padStart 2 "0" (String_ (jsAdd (Date.getUTCMonth (Num now)) (Num 1))));
    ("literal", "-");
    ("day", padStart 2 "0" (String_ (Date.getUTCDate (Num now)))) ].

Definition deployment : Env :=
  {| host := utcHost;
     clock := 1735660800000;
     intlFormatToParts := fun zone now =>
       if String.eqb zone "UTC" then Normal (utcParts now)
       else Throw (RangeError ("Invalid time zone specified: " +:+ zone));
     OVERLAYS_DIR := "/var/task/public/overlays";
     fileExists := fun path =>
       existsb (String.eqb path) (generatedOverlays "/var/task/public/overlays");
     fontFile := Normal "T1RUTwAJAIAAAwAQ";
     sharpToBuffer := fun p => Normal ("image of " +:+ input p) |}.

Definition query (model date format tz : option string) : Query :=
  {| q_model := model; q_date := date; q_format := format; q_tz := tz |}.

(** The [circle] elements of a document, in order, and the two ways a dot
    is drawn. *)
Definition isCircle (x : Xml) : bool :=
  match x with
  | Elem tag _ _ => String.eqb tag "circle"
  | Text _ => false
  end.

Definition circlesOf (doc : Xml) : list Xml :=
  match doc with
  | Elem _ _ children => List.filter isCircle children
  | Text _ => []
  end.

Definition filledDot (d : Dot) : Prop := fill d = "#1C1C1E" /\ opacity d = None.

Definition emptyDot (d : Dot) : Prop :=
  (fill d = "white" /\ opacity d = Some "0.15") \/
  (fill d = "#D1D1D6" /\ opacity d = None).

(** The world after further calls. *)
Definition logged (w : World) (evs : list Event) : World :=
  {| _fontBase64 := _fontBase64 w; events := events w ++ evs |}.

(** What step 4 settles on, and the two probes it makes. *)
Definition chosenOverlay (env : Env) (dayOfYear : JSNum) : option string :=
  if fileExists env (overlayPathFor env dayOfYear)
  then Some (overlayPathFor env dayOfYear)
  else if fileExists env (day365Path env) then Some (day365Path env)
  else None.

Definition probes (env : Env) (dayOfYear : JSNum) : list Event :=
  [ ExistsSync (overlayPathFor env dayOfYear);
    ExistsSync (if fileExists env (overlayPathFor env dayOfYear)
                then overlayPathFor env dayOfYear else day365Path env) ].

Definition noOverlayWithText : Response :=
  Json 500 [("error", "No overlay image found for today. Run generate-overlays.js first.")].

Definition noOverlayPlain : Response :=
  Json 500 [("error", "No overlay image found for today.")].

(** The font can be had: it is cached, or the file can be read. *)
Definition fontAvailable (env : Env) (w : World) : Prop :=
  truthy (_fontBase64 w) = true \/ exists b, fontFile env = Normal b.

Definition modelOf (q : Query) : string := default "default" (q_model q).
Definition formatOf (q : Query) : string := default "jpg" (q_format q).

Definition withFormat (q : Query) (format : option string) : Query :=
  {| q_model := q_model q; q_date := q_date q; q_format := format; q_tz := q_tz q |}.

(** The pipelines and the 200 responses the two handlers build, for
    stating what a run does. *)
Definition plainPipeline (q : Query) (overlayPath : string) : Pipeline :=
  {| input := overlayPath;
     resizeWidth := fst (dimensions (getProperty (modelOf q)));
     resizeHeight := snd (dimensions (getProperty (modelOf q)));
     composite := [];
     encoder := encoderFor (formatOf q) |}.

Definition plainImage (q : Query) (dayOfYear : JSNum) (imageBuffer : string) : Response :=
  Image 200
    [("Content-Type", contentTypeFor (formatOf q));
     ("Cache-Control", "no-store, no-cache, must-revalidate");
     ("X-Day-Of-Year", String_ dayOfYear)]
    imageBuffer.

Definition textPipeline (q : Query) (info : DateInfo) (overlayPath fontBase64 : string)
    : Pipeline :=
  {| input := overlayPath;
     resizeWidth := fst (dimensions (getProperty (modelOf q)));
     resizeHeight := snd (dimensions (getProperty (modelOf q)));
     composite :=
       [WithText.buildTextSvg (fst (dimensions (getProperty (modelOf q))))
          (snd (dimensions (getProperty (modelOf q)))) (daysLeft info) (percent info)
          fontBase64];
     encoder := encoderFor (formatOf q) |}.

Definition textImage (q : Query) (info : DateInfo) (imageBuffer : string) : Response :=
  Image 200
    [("Content-Type", contentTypeFor (formatOf q));
     ("Cache-Control", "no-store, no-cache, must-revalidate");
     ("X-Day-Of-Year", String_ (dayOfYear info));
     ("X-Days-Left", String_ (daysLeft info));
     ("X-Year-Percent", percent info)]
    imageBuffer.

Definition sent (c : Completion Response) : Response :=
  match c with
  | Normal r => r
  | Throw e => internalError e
  end.

Definition mapCompletion {A B} (f : A -> B) (c : Completion A) : Completion B :=
  match c with
  | Normal a => Normal (f a)
  | Throw e => Throw e
  end.

(* ===================================================================== *)
(** ** The generators' [main]                                             *)
(* ===================================================================== *)

(** What one iteration asks of sharp:
    [sharp(background).composite([{input: svg, blend: 'over'}])
       .png({compressionLevel}).toFile(outPath)]
    in unnamed/part_000, and [sharp(Buffer.from(svg)).png(...).toFile(outPath)]
    (no background) in scripts/generate-overlays.js. *)
Record RenderJob : Type := {
  background : option string;
  layer : Xml;
  pngLevel : Z;
  outFile : string
}.

(** Calls of [main] that leave the process, in the order made. *)
Inductive GenEvent : Type :=
| GenExistsSync (path : string)
| MkdirSync (path : string)
| ConsoleLog (line : string)
| StdoutWrite (text : string)
| ConsoleError (text : string) (err : option JSError)
| ConsoleTime (label : string)
| ConsoleTimeEnd (label : string)
| ToFile (job : RenderJob)
| ProcessExit (code : Z).

Record GenEnv : Type := {
  (** [path.join(__dirname, '..')] *)
  projectDir : string;
  (** whether public/background.png exists *)
  backgroundExists : bool;
  (** [fs.mkdirSync(outDir, {recursive: true})] *)
  mkdirOutDir : Completion unit;
  (** running one job to its file *)
  sharpToFile : RenderJob -> Completion unit
}.

Definition newline : string := String "010" EmptyString.

(** [path.join(__dirname, '..', 'public', 'overlays')] and the background. *)
Definition outDirOf (genv : GenEnv) : string :=
  pathJoin (pathJoin (projectDir genv) "public") "overlays".

Definition bgPathOf (genv : GenEnv) : string :=
  pathJoin (pathJoin (projectDir genv) "public") "background.png".

(** [day % 50 === 0 || day === total] *)
Definition reportsProgress (day total : Z) : bool :=
  (Z.rem day 50 =? 0) || (day =? total).

(** The loop [for (day = ...; day <= total; day++)] over the days left: each
    day's job is awaited, a rejection ends the loop, and progress is written
    after the days that report it. *)
Fixpoint renderDays (genv : GenEnv) (jobFor : Z -> RenderJob) (progress : Z -> string)
    (total : Z) (days : list Z) (evs : list GenEvent)
    : Completion unit * list GenEvent :=
  match days with
  | [] => (Normal tt, evs)
  | day :: rest =>
      let evs1 := evs ++ [ToFile (jobFor day)] in
      match sharpToFile genv (jobFor day) with
      | Throw e => (Throw e, evs1)
      | Normal _ =>
          renderDays genv jobFor progress total rest
            (if reportsProgress day total then evs1 ++ [StdoutWrite (progress day)]
             else evs1)
      end
  end.

(** [main().catch(err => { console.error('Generation failed:', err);
    process.exit(1); })] *)
Definition generationFailed (e : JSError) : list GenEvent :=
  [ConsoleError "Generation failed:" (Some e); ProcessExit 1].

Module OverBackgroundMain.
Import OverBackground.

Definition jobFor (genv : GenEnv) (day : Z) : RenderJob :=
  {| background := Some (bgPathOf genv);
     layer := buildDotGridSVG day;
     pngLevel := 6;
     outFile := pathJoin (outDirOf genv) (dayFileName (Num day)) |}.

Definition progress (day : Z) : string :=
  "  ✓ day " +:+ F.stringOfZ day +:+ "/" +:+ F.stringOfZ TOTAL_DOTS +:+ newline.

Definition banner (genv : GenEnv) : list GenEvent :=
  [ ConsoleLog ("Background : " +:+ bgPathOf genv);
    ConsoleLog ("Output dir : " +:+ outDirOf genv);
    ConsoleLog ("Generating " +:+ F.stringOfZ TOTAL_DOTS +:+ " overlay PNGs…");
    ConsoleLog ("Grid layout: " +:+ F.stringOfZ COLS +:+ " cols × " +:+ F.stringOfZ ROWS
                +:+ " rows, H-spacing " +:+ F.stringOfZ H_SPACING +:+ "px, V-spacing "
                +:+ F.stringOfZ V_SPACING +:+ "px");
    ConsoleLog ("Grid origin: x=" +:+ F.stringOfZ MARGIN_LEFT +:+ ", y="
                +:+ F.stringOfZ GRID_TOP +:+ "  |  dot radius: "
                +:+ F.stringOfZ DOT_RADIUS +:+ "px");
    ConsoleTime "total" ].

Definition main (genv : GenEnv) : list GenEvent :=
  let probe := [GenExistsSync (bgPathOf genv)] in
  if negb (backgroundExists genv) then
    probe ++ [ConsoleError ("Background image not found: " +:+ bgPathOf genv) None;
              ProcessExit 1]
  else
    match mkdirOutDir genv with
    | Throw e => probe ++ [MkdirSync (outDirOf genv)] ++ generationFailed e
    | Normal _ =>
        match renderDays genv (jobFor genv) progress TOTAL_DOTS (seqZ 1 TOTAL_DOTS)
                (probe ++ [MkdirSync (outDirOf genv)] ++ banner genv) with
        | (Normal _, evs) =>
            evs ++ [ConsoleTimeEnd "total";
                    ConsoleLog "Done. All overlays written to public/overlays/"]
        | (Throw e, evs) => evs ++ generationFailed e
        end
    end.

End OverBackgroundMain.

Module OnWhiteMain.
Import OnWhite.

Definition total : Z := 365.

Definition jobFor (genv : GenEnv) (day : Z) : RenderJob :=
  {| background := None;
     layer := buildDotGridSVG day;
     pngLevel := 6;
     outFile := pathJoin (outDirOf genv) (dayFileName (Num day)) |}.

Definition progress (day : Z) : string :=
  "  Generated day " +:+ F.stringOfZ day +:+ "/" +:+ F.stringOfZ total +:+ newline.

Definition main (genv : GenEnv) : list GenEvent :=
  match mkdirOutDir genv with
  | Throw e => [MkdirSync (outDirOf genv)] ++ generationFailed e
  | Normal _ =>
      match renderDays genv (jobFor genv) progress total (seqZ 1 total)
              [ MkdirSync (outDirOf genv);
                ConsoleLog ("Generating " +:+ F.stringOfZ total +:+ " overlay PNGs → "
                            +:+ outDirOf genv);
                ConsoleTime "total" ] with
      | (Normal _, evs) =>
          evs ++ [ConsoleTimeEnd "total";
                  ConsoleLog "Done. All overlays written to public/overlays/"]
      | (Throw e, evs) => evs ++ generationFailed e
      end
  end.

End OnWhiteMain.

(* ===================================================================== *)
(** ** Vocabulary of the further statements                               *)
(* ===================================================================== *)

Fixpoint allDigits (s : string) : bool :=
  match s with
  | EmptyString => true
  | String c r =>
      match digitValue c with
      | Some _ => allDigits r
      | None => false
      end
  end.

(** A date written as digits, each field padded with zeros to a width of
    one's choosing: widths 4, 2, 2 give YYYY-MM-DD. *)
Definition writtenDate (wy wm wd : nat) (y m d : Z) : string :=
  padStart wy "0" (F.stringOfZ y) +:+ "-" +:+ padStart wm "0" (F.stringOfZ m)
  +:+ "-" +:+ padStart wd "0" (F.stringOfZ d).

(** The jobs among the events, in order. *)
Definition jobsOf (evs : list GenEvent) : list RenderJob :=
  omap (fun ev => match ev with ToFile job => Some job | _ => None end) evs.

(** The dots that are drawn filled. *)
Definition isFilled (d : Dot) : bool :=
  String.eqb (fill d) "#1C1C1E" && match opacity d with None => true | Some _ => false end.

(** The overlay directory holds what [main] writes: day-001.png to
    day-365.png and nothing else. *)
Definition overlaysAsGenerated (env : Env) : Prop :=
  forall p, fileExists env p = true <->
            exists n, 1 <= n <= 365 /\ p = overlayPathFor env (Num n).

(** The day whose overlay a day of year is served with. *)
Definition servedDay (dayOfYear : JSNum) : Z :=
  match dayOfYear with
  | Num n => if (1 <=? n) && (n <=? 365) then n else 365
  | NaN => 365
  end.

(** A percentage string with exactly one decimal digit, as tenths. *)
Definition tenthsOf (s : string) : option Z :=
  match split "." s with
  | [a; String c EmptyString] =>
      match a, digitsValue a 0, digitValue c with
      | String _ _, Some hi, Some lo => Some (10 * hi + lo)
      | _, _, _ => None
      end
  | _ => None
  end.

(** The sample deployment with an [Intl] whose parts have no month or
    day. *)
Definition deploymentWithYearOnly : Env :=
  {| host := utcHost; clock := clock deployment;
     intlFormatToParts := fun _ _ => Normal [("year", "2024"); ("literal", "-")];
     OVERLAYS_DIR := OVERLAYS_DIR deployment; fileExists := fileExists deployment;
     fontFile := fontFile deployment; sharpToBuffer := sharpToBuffer deployment |}.

(** The progress lines among the events, in order. *)
Definition progressOf (evs : list GenEvent) : list string :=
  omap (fun ev => match ev with StdoutWrite text => Some text | _ => None end) evs.

(** What the loop leaves behind for days that are all rendered. *)
Definition dayEvents (jobFor : Z -> RenderJob) (progress : Z -> string) (total : Z)
    (days : list Z) : list GenEvent :=
  days ≫= (fun day =>
             ToFile (jobFor day)
             :: (if reportsProgress day total then [StdoutWrite (progress day)] else [])).

(** A run of [main] that has written every overlay: one job per day from 1
    to 365 in order, to 365 different files, those the handlers look for,
    with eight progress lines and no exit. *)
Definition writesAllOverlays (genv : GenEnv) (jobFor : Z -> RenderJob)
    (progress : Z -> string) (trace : list GenEvent) : Prop :=
  jobsOf trace = jobFor <$> seqZ 1 365 /\
  outFile <$> jobsOf trace = generatedOverlays (outDirOf genv) /\
  NoDup (outFile <$> jobsOf trace) /\
  progressOf trace = progress <$> [50; 100; 150; 200; 250; 300; 350; 365] /\
  (forall code, ProcessExit code ∉ trace) /\
  exists before,
    trace = before ++ [ConsoleTimeEnd "total";
                       ConsoleLog "Done. All overlays written to public/overlays/"].

(** A run of [main] that has failed on day [k] with [e]: the days 1 to [k]
    were attempted in order and no other, and the run ends with the error
    and exit code 1. *)
Definition stopsAtDay (jobFor : Z -> RenderJob) (k : Z) (e : JSError)
    (trace : list GenEvent) : Prop :=
  jobsOf trace = jobFor <$> seqZ 1 k /\
  (ConsoleLog "Done. All overlays written to public/overlays/" ∉ trace) /\
  exists before, trace = before ++ [ToFile (jobFor k)] ++ generationFailed e.

(** A machine on which everything works, and one whose disk is full when
    day 101 is to be written. *)
Definition workstation : GenEnv :=
  {| projectDir := "/home/dev/wallpaperpush"; backgroundExists := true;
     mkdirOutDir := Normal tt; sharpToFile := fun _ => Normal tt |}.

Definition diskFullAt101 : GenEnv :=
  {| projectDir := "/home/dev/wallpaperpush"; backgroundExists := true;
     mkdirOutDir := Normal tt;
     sharpToFile := fun job =>
       if String.eqb (outFile job) "/home/dev/wallpaperpush/public/overlays/day-101.png"
       then Throw (SystemError "ENOSPC: no space left on device")
       else Normal tt |}.

(** An attribute of an element, and the [text] element of a document. *)
Definition attr (name : string) (x : Xml) : option string :=
  match x with
  | Elem _ attrs _ => snd <$> List.find (fun a => String.eqb (fst a) name) attrs
  | Text _ => None
  end.



(** The metrics of an invalid date. *)
Definition invalidDateInfo : DateInfo :=
  {| dayOfYear := NaN; daysLeft := NaN; percent := "NaN"; daysInYear := 365 |}.

(** The deployment with the font file missing from the bundle. *)
Definition deploymentWithoutFont : Env :=
  {| host := utcHost; clock := clock deployment;
     intlFormatToParts := intlFormatToParts deployment;
     OVERLAYS_DIR := OVERLAYS_DIR deployment; fileExists := fileExists deployment;
     fontFile := Throw (SystemError "ENOENT: no such file or directory, open SF-Pro-Display-Regular.otf");
     sharpToBuffer := sharpToBuffer deployment |}.

(** The percentage printed for day [n] of a year of [len] days is the exact
    one rounded to a tenth, and lies between 0.3 and 100.0. *)
Definition percentOk (n len : Z) : bool :=
  match tenthsOf (F.percentFixed1 (Num n) (Num len)) with
  | Some t => (2 * Z.abs (t * len - 1000 * n) <=? len) && (3 <=? t) && (t <=? 1000)
  | None => false
  end.

(* ===================================================================== *)
(** ** Vocabulary: local days, and what a document shows                  *)
(* ===================================================================== *)

(** A host at the fixed offset [c] from UTC. *)
Definition fixedHost (c : Z) : HostZone :=
  {| tzaOfUTC := fun _ => c; tzaOfLocal := fun _ => c |}.

(** The offsets the host uses for local midnight of 1 January and of 31
    December of year [Y]: those [new Date(Y, 0, 1)] and [new Date(Y, 11, 31)]
    are built with. *)
Definition offsetOnJan1 (host : HostZone) (Y : Z) : Z :=
  tzaOfLocal host (ES.MakeDate (ES.DayFromYear Y) 0).


(** The instant [t] falls, in the host's local time, on day [k] (from 0) of
    year [Y]; and the time of that local day it falls at. *)
Definition onLocalDay (host : HostZone) (t Y k : Z) : Prop :=
  ES.Day (Date.LocalTime host t) = ES.DayFromYear Y + k.



(** How a circle of a document is drawn: filled (an elapsed day), or empty
    in the way of either generator. *)
Definition drawnFilled (c : Xml) : Prop :=
  attr "fill" c = Some "#1C1C1E" /\ attr "opacity" c = None.

Definition drawnEmpty (c : Xml) : Prop :=
  (attr "fill" c = Some "white" /\ attr "opacity" c = Some "0.15") \/
  (attr "fill" c = Some "#D1D1D6" /\ attr "opacity" c = None).

Definition isFilledCircle (c : Xml) : bool :=
  match attr "fill" c, attr "opacity" c with
  | Some fill, None => String.eqb fill "#1C1C1E"
  | _, _ => false
  end.

Definition isEmptyCircle (c : Xml) : bool :=
  match attr "fill" c, attr "opacity" c with
  | Some fill, Some opacity => String.eqb fill "white" && String.eqb opacity "0.15"
  | Some fill, None => String.eqb fill "#D1D1D6"
  | None, _ => false
  end.

(** The numbers of circles of a document drawn filled and drawn empty. *)
Definition filledCircles (doc : Xml) : nat :=
  length (List.filter isFilledCircle (circlesOf doc)).

Definition emptyCircles (doc : Xml) : nat :=
  length (List.filter isEmptyCircle (circlesOf doc)).

(** The pipelines of a request whose format is not png, written out. *)
Definition jpegPlainPipeline (q : Query) (overlayPath : string) : Pipeline :=
  {| input := overlayPath;
     resizeWidth := fst (dimensions (getProperty (modelOf q)));
     resizeHeight := snd (dimensions (getProperty (modelOf q)));
     composite := [];
     encoder := Jpeg 92 true |}.

Definition jpegTextPipeline (q : Query) (info : DateInfo) (overlayPath fontBase64 : string)
    : Pipeline :=
  {| input := overlayPath;
     resizeWidth := fst (dimensions (getProperty (modelOf q)));
     resizeHeight := snd (dimensions (getProperty (modelOf q)));
     composite :=
       [WithText.buildTextSvg (fst (dimensions (getProperty (modelOf q))))
          (snd (dimensions (getProperty (modelOf q)))) (daysLeft info) (percent info)
          fontBase64];
     encoder := Jpeg 92 true |}.

(** Linear arithmetic with floor division and remainder by constants. *)
Ltac zlia := Z.div_mod_to_equations; lia.

Lemma DayFromYear_succ y :
  ES.DayFromYear (y + 1) = ES.DayFromYear y + ES.DaysInYear y.
Proof.
  unfold ES.DayFromYear, ES.DaysInYear.
  destruct (Z.eqb_spec (y mod 4) 0), (Z.eqb_spec (y mod 100) 0),
    (Z.eqb_spec (y mod 400) 0); cbn [negb]; zlia.
Qed.

Lemma DaysInYear_cases y : ES.DaysInYear y = 365 \/ ES.DaysInYear y = 366.
Proof.
  unfold ES.DaysInYear.
  repeat match goal with |- context [negb ?b] => destruct b; cbn [negb] end; lia.
Qed.

Lemma DayFromYear_mono y y' : y <= y' -> ES.DayFromYear y <= ES.DayFromYear y'.
Proof. unfold ES.DayFromYear. zlia. Qed.

Lemma DayFromYear_lt y y' : y < y' -> ES.DayFromYear y < ES.DayFromYear y'.
Proof.
  intros H. pose proof (DayFromYear_mono (y + 1) y' ltac:(lia)).
  pose proof (DayFromYear_succ y). pose proof (DaysInYear_cases y). lia.
Qed.

(** [yearOfDay] meets ECMA-262's definition of [YearFromTime]. *)
Lemma yearOfDay_spec d :
  ES.DayFromYear (ES.yearOfDay d) <= d < ES.DayFromYear (ES.yearOfDay d + 1).
Proof.
  unfold ES.yearOfDay.
  set (c := 1970 + 400 * d / 146097).
  assert (Hlo : ES.DayFromYear (c - 1) <= d) by (unfold ES.DayFromYear, c; zlia).
  assert (Hhi : d < ES.DayFromYear (c + 2)) by (unfold ES.DayFromYear, c; zlia).
  destruct (Z.ltb_spec d (ES.DayFromYear c)).
  - replace (c - 1 + 1) with c by lia. lia.
  - destruct (Z.leb_spec (ES.DayFromYear (c + 1)) d).
    + replace (c + 1 + 1) with (c + 2) by lia. lia.
    + lia.
Qed.

Lemma yearOfDay_unique d y :
  ES.DayFromYear y <= d < ES.DayFromYear (y + 1) -> ES.yearOfDay d = y.
Proof.
  intros H. pose proof (yearOfDay_spec d) as S.
  destruct (Z.lt_trichotomy (ES.yearOfDay d) y) as [L | [E | G]]; [| exact E |].
  - pose proof (DayFromYear_mono (ES.yearOfDay d + 1) y ltac:(lia)). lia.
  - pose proof (DayFromYear_mono (y + 1) (ES.yearOfDay d) ltac:(lia)). lia.
Qed.

(* ===================================================================== *)
(** ** Calendar lemmas                                                    *)
(* ===================================================================== *)

Lemma rem_zero_iff a n : 0 < n -> (Z.rem a n =? 0) = (a mod n =? 0).
Proof.
  intros Hn.
  destruct (Z.eqb_spec (Z.rem a n) 0), (Z.eqb_spec (a mod n) 0);
    try reflexivity; exfalso; Z.to_euclidean_division_equations; nia.
Qed.

Lemma yearLength_DaysInYear Y : yearLength Y = ES.DaysInYear Y.
Proof.
  unfold yearLength, isLeap, ES.DaysInYear, jsRem, strictEq.
  rewrite !rem_zero_iff by lia.
  destruct (Z.eqb_spec (Y mod 4) 0), (Z.eqb_spec (Y mod 100) 0),
    (Z.eqb_spec (Y mod 400) 0); cbn; try reflexivity; exfalso; zlia.
Qed.

Lemma isLeap_leapYear Y : isLeap (Num Y) = true <-> leapYear Y.
Proof.
  unfold isLeap, leapYear, jsRem, strictEq.
  rewrite orb_true_iff, andb_true_iff, negb_true_iff, !Z.eqb_eq, Z.eqb_neq.
  rewrite !Z.rem_divide by lia. reflexivity.
Qed.

Lemma Day_midnight D c :
  ES.Day (D * ES.msPerDay - c + c) = D.
Proof. unfold ES.Day, ES.msPerDay. zlia. Qed.

Lemma yearOfDay_within Y k :
  0 <= k < ES.DaysInYear Y -> ES.yearOfDay (ES.DayFromYear Y + k) = Y.
Proof.
  intros Hk. apply yearOfDay_unique. rewrite DayFromYear_succ. lia.
Qed.

Lemma yearRange_days Y k :
  yearRange Y -> 0 <= k < ES.DaysInYear Y ->
  -99999744 <= ES.DayFromYear Y + k <= 99999743.
Proof.
  intros [Hlo Hhi] Hk.
  pose proof (DayFromYear_mono (-271820) Y Hlo) as L.
  pose proof (DayFromYear_mono (Y + 1) 275760 ltac:(lia)) as U.
  rewrite DayFromYear_succ in U.
  change (ES.DayFromYear (-271820)) with (-99999744) in L.
  change (ES.DayFromYear 275760) with 99999744 in U. lia.
Qed.

Lemma TimeClip_midnight D c :
  -99999744 <= D <= 99999743 -> Z.abs c <= ES.msPerDay ->
  ES.TimeClip (D * ES.msPerDay - c) = Num (D * ES.msPerDay - c).
Proof.
  intros HD Hc. unfold ES.TimeClip, ES.maxTime, ES.msPerDay in *.
  destruct (Z.leb_spec (Z.abs (D * 86400000 - c)) 8640000000000000); [reflexivity | lia].
Qed.

Lemma fullYear_id Y : ~ (0 <= Y <= 99) -> Date.fullYear Y = Y.
Proof.
  intros H. unfold Date.fullYear.
  destruct (Z.leb_spec 0 Y), (Z.leb_spec Y 99); cbn; lia.
Qed.

Lemma leapFlag_DaysInYear Y :
  365 + (if ES.DaysInYear Y =? 366 then 1 else 0) = ES.DaysInYear Y.
Proof.
  destruct (DaysInYear_cases Y) as [E | E]; rewrite E; reflexivity.
Qed.

Lemma getFullYear_midnight host c Y k :
  fixedOffset host c -> 0 <= k < ES.DaysInYear Y ->
  Date.getFullYear host (Num (midnight Y k c)) = Num Y.
Proof.
  intros Hf Hk. unfold Date.getFullYear, Date.LocalTime, ES.YearFromTime, midnight.
  destruct (Hf ((ES.DayFromYear Y + k) * ES.msPerDay - c)) as [-> _].
  rewrite Day_midnight, yearOfDay_within by assumption. reflexivity.
Qed.

Lemma MakeDay_month Y mn d :
  0 <= mn <= 11 ->
  ES.MakeDay Y mn d =
  ES.DayFromYear Y + (ES.monthStart (if ES.DaysInYear Y =? 366 then 1 else 0) mn + d - 1).
Proof.
  intros H. unfold ES.MakeDay.
  rewrite (Z.div_small mn 12), (Z.mod_small mn 12), Z.add_0_r by lia. lia.
Qed.

Lemma new_midnight host c Y mn d :
  fixedOffset host c -> Z.abs c <= ES.msPerDay -> yearRange Y -> ~ (0 <= Y <= 99) ->
  0 <= mn <= 11 ->
  0 <= ES.monthStart (if ES.DaysInYear Y =? 366 then 1 else 0) mn + d - 1 < ES.DaysInYear Y ->
  Date.new host (Num Y) (Num mn) (Num d) =
  Num (midnight Y (ES.monthStart (if ES.DaysInYear Y =? 366 then 1 else 0) mn + d - 1) c).
Proof.
  intros Hf Hc HY H99 Hmn Hk. unfold Date.new, Date.UTC, ES.MakeDate, midnight.
  rewrite fullYear_id, MakeDay_month, Z.add_0_r by assumption.
  match goal with |- context [tzaOfLocal host ?t] => destruct (Hf t) as [_ ->] end.
  apply TimeClip_midnight; [| assumption].
  apply yearRange_days; assumption.
Qed.

Lemma new_jan1 host c Y :
  fixedOffset host c -> Z.abs c <= ES.msPerDay -> yearRange Y -> ~ (0 <= Y <= 99) ->
  Date.new host (Num Y) (Num 0) (Num 1) = Num (midnight Y 0 c).
Proof.
  intros Hf Hc HY H99. pose proof (DaysInYear_cases Y).
  rewrite (new_midnight host c Y 0 1) by (cbn; (assumption || lia)).
  reflexivity.
Qed.

Lemma new_dec31 host c Y :
  fixedOffset host c -> Z.abs c <= ES.msPerDay -> yearRange Y -> ~ (0 <= Y <= 99) ->
  Date.new host (Num Y) (Num 11) (Num 31) = Num (midnight Y (ES.DaysInYear Y - 1) c).
Proof.
  intros Hf Hc HY H99. pose proof (leapFlag_DaysInYear Y) as L.
  pose proof (DaysInYear_cases Y) as C.
  rewrite (new_midnight host c Y 11 31) by (cbn [ES.monthStart]; (assumption || lia)).
  cbn [ES.monthStart]. do 2 f_equal. lia.
Qed.

(** What [calcDateInfo] returns for local midnight of day [k] of a year
    outside 0..99, on a host at a fixed offset. *)
Lemma calcDateInfo_midnight host c Y k :
  fixedOffset host c -> Z.abs c <= ES.msPerDay -> yearRange Y -> ~ (0 <= Y <= 99) ->
  0 <= k < ES.DaysInYear Y ->
  calcDateInfo host (Num (midnight Y k c)) =
  {| dayOfYear := Num (k + 1);
     daysLeft := Num (yearLength Y - (k + 1));
     percent := F.percentFixed1 (Num (k + 1)) (Num (yearLength Y));
     daysInYear := yearLength Y |}.
Proof.
  intros Hf Hc HY H99 Hk. unfold calcDateInfo.
  rewrite (getFullYear_midnight host c Y k Hf Hk).
  rewrite (new_jan1 host c Y Hf Hc HY H99), (new_dec31 host c Y Hf Hc HY H99).
  fold (yearLength Y).
  assert (E1 : jsAdd (floorDiv (jsSub (Num (midnight Y k c)) (Num (midnight Y 0 c))) 86400000)
                 (Num 1) = Num (k + 1)).
  { unfold jsAdd, floorDiv, jsSub, midnight, ES.msPerDay. f_equal. zlia. }
  assert (E2 : floorDiv (jsSub (Num (midnight Y (ES.DaysInYear Y - 1) c))
                 (Num (midnight Y k c))) 86400000 = Num (yearLength Y - (k + 1))).
  { rewrite yearLength_DaysInYear.
    unfold floorDiv, jsSub, midnight, ES.msPerDay. f_equal. zlia. }
  rewrite E1, E2. reflexivity.
Qed.

Lemma getDayOfYear_midnight host c Y k :
  fixedOffset host c -> Z.abs c <= ES.msPerDay -> yearRange Y -> ~ (0 <= Y <= 99) ->
  0 <= k < ES.DaysInYear Y ->
  getDayOfYear host (Num (midnight Y k c)) = Num (k + 1).
Proof.
  intros Hf Hc HY H99 Hk. unfold getDayOfYear.
  rewrite (getFullYear_midnight host c Y k Hf Hk), (new_jan1 host c Y Hf Hc HY H99).
  unfold jsAdd, floorDiv, jsSub, midnight, ES.msPerDay. f_equal. zlia.
Qed.

Lemma dayIndex_bounds Y m d :
  civilDate Y m d -> 0 <= dayIndex Y m d < ES.DaysInYear Y.
Proof.
  intros [Hm Hd]. unfold dayIndex.
  assert (Cases : m = 1 \/ m = 2 \/ m = 3 \/ m = 4 \/ m = 5 \/ m = 6 \/ m = 7 \/
                  m = 8 \/ m = 9 \/ m = 10 \/ m = 11 \/ m = 12) by lia.
  unfold daysInMonth in Hd.
  destruct (DaysInYear_cases Y) as [E | E]; rewrite E in *;
    repeat (destruct Cases as [-> | Cases]); try subst m; cbn in Hd;
    match goal with
    | |- context [ES.monthStart ?a ?b] =>
        let v := eval vm_compute in (ES.monthStart a b) in
        change (ES.monthStart a b) with v
    end; lia.
Qed.

Lemma civil_midnight host c Y m d :
  fixedOffset host c -> Z.abs c <= ES.msPerDay -> yearRange Y -> civilDate Y m d ->
  Date.civil host Y m d = Num (midnight Y (dayIndex Y m d) c).
Proof.
  intros Hf Hc HY Hciv. pose proof (dayIndex_bounds Y m d Hciv) as B.
  destruct Hciv as [Hm Hd].
  unfold Date.civil, Date.UTC, ES.MakeDate, midnight.
  rewrite MakeDay_month, Z.add_0_r by lia. fold (dayIndex Y m d).
  match goal with |- context [tzaOfLocal host ?t] => destruct (Hf t) as [_ ->] end.
  apply TimeClip_midnight; [| assumption].
  apply yearRange_days; assumption.
Qed.

(** Outside the years 0..99 the constructor call of the date override,
    [new Date(y, m - 1, d)], builds that civil date. *)
Lemma new_civil host Y m d :
  ~ (0 <= Y <= 99) ->
  Date.new host (Num Y) (jsSub (Num m) (Num 1)) (Num d) = Date.civil host Y m d.
Proof.
  intros H. unfold Date.new, Date.civil, jsSub. rewrite fullYear_id by assumption.
  reflexivity.
Qed.

Lemma utcHost_fixed : fixedOffset utcHost 0.
Proof. intros t. split; reflexivity. Qed.

(* ===================================================================== *)
(** ** Day metrics                                                        *)
(* ===================================================================== *)

(** C1: for every year Y the leap-year test of [calcDateInfo] is true
    exactly when Y is divisible by 4 and not by 100, or divisible by 400
    (also in the form [Y % 4 == 0 && (Y % 100 != 0 || Y % 400 == 0)]), and
    the number of days [calcDateInfo] reports is 366 in exactly those years
    and 365 in the others. *)
Theorem C1_leap_year_test (Y : Z) :
  (isLeap (Num Y) = true <-> leapYear Y) /\
  (isLeap (Num Y) = true <->
     Z.rem Y 4 = 0 /\ (Z.rem Y 100 <> 0 \/ Z.rem Y 400 = 0)) /\
  (yearLength Y = 366 <-> leapYear Y) /\
  (yearLength Y = 365 <-> ~ leapYear Y) /\
  (forall host t,
     daysInYear (calcDateInfo host (Num t)) =
     yearLength (ES.YearFromTime (Date.LocalTime host t))).
Proof.
  pose proof (isLeap_leapYear Y) as L.
  split; [exact L |]. split; [| split; [| split]].
  - unfold isLeap, jsRem, strictEq.
    rewrite orb_true_iff, andb_true_iff, negb_true_iff, !Z.eqb_eq, Z.eqb_neq.
    split.
    + intros [[H4 H100] | H400]; [tauto |].
      split; [| tauto]. Z.to_euclidean_division_equations; lia.
    + intros [H4 [H100 | H400]]; tauto.
  - unfold yearLength. destruct (isLeap (Num Y)); split; intros H;
      try reflexivity; try discriminate; try (apply L; reflexivity).
    apply L in H. discriminate.
  - unfold yearLength. destruct (isLeap (Num Y)); split; intros H;
      try reflexivity; try discriminate.
    + exfalso. apply H, L. reflexivity.
    + intros HL. apply L in HL. discriminate.
  - reflexivity.
Qed.

(** The dates [calcDateInfo] measures from, on any host: local midnight of
    1 January and of 31 December of a year outside 0..99, each read with
    the offset the host has for that local time. *)
Lemma new_jan1_local host Y :
  yearRange Y -> ~ (0 <= Y <= 99) -> Z.abs (offsetOnJan1 host Y) <= ES.msPerDay ->
  Date.new host (Num Y) (Num 0) (Num 1)
  = Num (ES.DayFromYear Y * ES.msPerDay - offsetOnJan1 host Y).
Proof.
  intros HY H99 Ha. pose proof (DaysInYear_cases Y) as C.
  unfold Date.new, Date.UTC. rewrite fullYear_id, MakeDay_month by (assumption || lia).
  cbn [ES.monthStart]. replace (ES.DayFromYear Y + (0 + 1 - 1)) with (ES.DayFromYear Y) by lia.
  fold (offsetOnJan1 host Y). unfold ES.MakeDate. rewrite Z.add_0_r.
  apply TimeClip_midnight; [| assumption].
  pose proof (yearRange_days Y 0 HY ltac:(lia)). lia.
Qed.


Lemma getFullYear_local host t Y k :
  0 <= k < ES.DaysInYear Y -> onLocalDay host t Y k ->
  Date.getFullYear host (Num t) = Num Y.
Proof.
  intros Hk Hd. unfold Date.getFullYear, ES.YearFromTime. rewrite Hd.
  rewrite yearOfDay_within by assumption. reflexivity.
Qed.

(** The day of year of any [Date] of the local year [Y]: the number of the
    day the instant falls on when read with January's offset. *)
Lemma dayOfYear_local host Y k t :
  yearRange Y -> ~ (0 <= Y <= 99) -> Z.abs (offsetOnJan1 host Y) <= ES.msPerDay ->
  0 <= k < ES.DaysInYear Y -> onLocalDay host t Y k ->
  dayOfYear (calcDateInfo host (Num t))
    = Num (ES.Day (t + offsetOnJan1 host Y) - ES.DayFromYear Y + 1) /\
  getDayOfYear host (Num t)
    = Num (ES.Day (t + offsetOnJan1 host Y) - ES.DayFromYear Y + 1) /\
  daysInYear (calcDateInfo host (Num t)) = yearLength Y.
Proof.
  intros HY H99 Ha Hk Hd.
  unfold calcDateInfo, getDayOfYear. cbn [dayOfYear daysInYear].
  rewrite (getFullYear_local host t Y k Hk Hd), (new_jan1_local host Y HY H99 Ha).
  fold (yearLength Y). split; [| split; [| reflexivity]];
    unfold jsAdd, floorDiv, jsSub, ES.Day, ES.msPerDay; f_equal; zlia.
Qed.


(** C2, as the code has it.  Take a year Y inside the range of [Date]
    other than 0..99 and any [Date] whose host-local date is day k+1 of Y
    (1 January for k = 0, 31 December for k = days of Y - 1), at any time of
    that day.  The day of year computed is the number of the day the instant
    falls on when read with the offset the host has at local midnight of 1
    January; it is k+1 exactly when that offset puts the instant on the same
    local day as the offset in force at the instant does.  So whenever the
    two offsets are equal (a host at a fixed offset; a host with daylight
    saving on a winter day) the day of year is 1 on 1 January and the
    number of days of Y on 31 December; [getDayOfYear] computes the same. *)
Theorem C2_first_and_last_day host Y k t :
  yearRange Y -> ~ (0 <= Y <= 99) -> Z.abs (offsetOnJan1 host Y) <= ES.msPerDay ->
  0 <= k < yearLength Y -> onLocalDay host t Y k ->
  dayOfYear (calcDateInfo host (Num t))
    = Num (ES.Day (t + offsetOnJan1 host Y) - ES.DayFromYear Y + 1) /\
  getDayOfYear host (Num t) = dayOfYear (calcDateInfo host (Num t)) /\
  (dayOfYear (calcDateInfo host (Num t)) = Num (k + 1)
   <-> ES.Day (t + offsetOnJan1 host Y) = ES.Day (Date.LocalTime host t)) /\
  (tzaOfUTC host t = offsetOnJan1 host Y ->
   dayOfYear (calcDateInfo host (Num t)) = Num (k + 1) /\
   (k = 0 ->
    dayOfYear (calcDateInfo host (Num t)) = Num 1 /\ getDayOfYear host (Num t) = Num 1) /\
   (k = yearLength Y - 1 ->
    dayOfYear (calcDateInfo host (Num t)) = Num (yearLength Y) /\
    getDayOfYear host (Num t) = Num (yearLength Y))).
Proof.
  intros HY H99 Ha Hk Hd. rewrite yearLength_DaysInYear in Hk.
  destruct (dayOfYear_local host Y k t HY H99 Ha Hk Hd) as (E1 & E2 & _).
  rewrite E2, E1. unfold onLocalDay in Hd.
  split; [reflexivity | split; [reflexivity | split]].
  - rewrite Hd. split; [intros [= H] | intros H; f_equal]; lia.
  - intros Ho. unfold Date.LocalTime in Hd. rewrite Ho in Hd. rewrite Hd.
    split; [f_equal; lia |].
    split; intros ->; split; f_equal; lia.
Qed.

Lemma C2_first_and_last_day_witness :
  (Date.civil easternTime2024 2024 1 1 = Num 1704085200000 /\
   dayOfYear (calcDateInfo easternTime2024 (Num 1704085200000)) = Num 1 /\
   getDayOfYear easternTime2024 (Num 1704085200000) = Num 1) /\
  (Date.civil easternTime2024 2024 12 31 = Num 1735621200000 /\
   dayOfYear (calcDateInfo easternTime2024 (Num 1735621200000)) = Num (yearLength 2024) /\
   getDayOfYear easternTime2024 (Num 1735621200000) = Num (yearLength 2024)) /\
  (dayOfYear (calcDateInfo (fixedHost (-18000000)) (Num 1735689600000))
   = Num (yearLength 2024)).
Proof.
  assert (HY : yearRange 2024) by (unfold yearRange; lia).
  assert (H99 : ~ (0 <= 2024 <= 99)) by lia.
  split; [| split].
  - split; [vm_compute; reflexivity |].
    destruct (C2_first_and_last_day easternTime2024 2024 0 1704085200000 HY H99
                ltac:(vm_compute; discriminate) ltac:(vm_compute; split; [discriminate | reflexivity])
                ltac:(vm_compute; reflexivity)) as (_ & _ & _ & H).
    destruct (H ltac:(vm_compute; reflexivity)) as (_ & H0 & _).
    exact (H0 eq_refl).
  - split; [vm_compute; reflexivity |].
    destruct (C2_first_and_last_day easternTime2024 2024 365 1735621200000 HY H99
                ltac:(vm_compute; discriminate) ltac:(vm_compute; split; [discriminate | reflexivity])
                ltac:(vm_compute; reflexivity)) as (_ & _ & _ & H).
    destruct (H ltac:(vm_compute; reflexivity)) as (_ & _ & H1).
    exact (H1 ltac:(vm_compute; reflexivity)).
  - destruct (C2_first_and_last_day (fixedHost (-18000000)) 2024 365 1735689600000 HY H99
                ltac:(vm_compute; discriminate) ltac:(vm_compute; split; [discriminate | reflexivity])
                ltac:(vm_compute; reflexivity)) as (_ & _ & _ & H).
    destruct (H ltac:(vm_compute; reflexivity)) as (_ & _ & H1).
    exact (proj1 (H1 ltac:(vm_compute; reflexivity))).
Defined.

(** C2 as stated fails in the years 0..99, on a host whose offset changes,
    and outside the range of [Date].  The request date 0100-00-31 is read
    by [new Date(100, -1, 31)] as 31 December of the year 99; its
    [getFullYear()] is 99 and [new Date(99, 0, 1)] is 1 January 1999, so
    the day of year is -693595, in a year of 365 days.  Likewise for 31
    December of the year 0; and the override 0000-12-31 is itself read as 31
    December 1900, a year of 365 days, while the year 0 has 366.  On a host
    whose offset changed during the year (Istanbul, 2016) local midnight of
    31 December is an hour short of 365 whole days after that of 1
    January: the day of year comes out as 365 in a year of 366 days.  The
    year 300000 has no [Date]: the day of year of its 1 January is NaN. *)
Lemma C2_counterexample_years_0_to_99_and_offset_change :
  (fst (parseDateInTz deployment (Some "0100-00-31") None initialWorld)
     = Normal (Date.civil utcHost 99 12 31) /\
   Date.getFullYear utcHost (Date.civil utcHost 99 12 31) = Num 99 /\
   Date.new utcHost (Num 99) (Num 0) (Num 1) = Date.civil utcHost 1999 1 1 /\
   yearLength 99 = 365 /\
   dayOfYear (calcDateInfo utcHost (Date.civil utcHost 99 12 31)) = Num (-693595) /\
   getDayOfYear utcHost (Date.civil utcHost 99 12 31) = Num (-693595)) /\
  (yearLength 0 = 366 /\
   Date.getFullYear utcHost (Date.civil utcHost 0 12 31) = Num 0 /\
   dayOfYear (calcDateInfo utcHost (Date.civil utcHost 0 12 31)) = Num (-693595) /\
   fst (parseDateInTz deployment (Some "0000-12-31") None initialWorld)
     = Normal (Date.civil utcHost 1900 12 31) /\
   dayOfYear (calcDateInfo utcHost (Date.civil utcHost 1900 12 31)) = Num 365) /\
  (yearLength 2016 = 366 /\
   Date.getFullYear istanbul2016 (Date.civil istanbul2016 2016 12 31) = Num 2016 /\
   dayOfYear (calcDateInfo istanbul2016 (Date.civil istanbul2016 2016 12 31)) = Num 365 /\
   getDayOfYear istanbul2016 (Date.civil istanbul2016 2016 12 31) = Num 365) /\
  (Date.civil utcHost 300000 1 1 = NaN /\
   dayOfYear (calcDateInfo utcHost (Date.civil utcHost 300000 1 1)) = NaN).
Proof. vm_compute. repeat split; reflexivity. Qed.




(* ===================================================================== *)
(** ** The dot grid                                                       *)
(* ===================================================================== *)

(** The layout constants, and the double computations they stand for. *)
Lemma spacing_as_doubles :
  F.ceilQuot 365 20 = Num OverBackground.ROWS /\
  F.roundQuot OverBackground.GRID_W (OverBackground.COLS - 1) = Num OverBackground.H_SPACING /\
  F.roundQuot OverBackground.GRID_HEIGHT (OverBackground.ROWS - 1)
    = Num OverBackground.V_SPACING /\
  F.roundQuot (OnWhite.WIDTH - OnWhite.GRID_W) 2 = Num OnWhite.GRID_X /\
  F.roundTimes (Num OnWhite.HEIGHT) F.c038 = Num OnWhite.GRID_Y /\
  (OverBackground.ROWS, OverBackground.H_SPACING, OverBackground.V_SPACING) = (19, 51, 39) /\
  (OnWhite.GRID_X, OnWhite.GRID_Y) = (56, 1062).
Proof. vm_compute. repeat split; reflexivity. Qed.

Lemma filter_circles (l : list Dot) : List.filter isCircle (circle <$> l) = circle <$> l.
Proof.
  induction l as [| d l IH]; [reflexivity |].
  cbn [fmap list_fmap List.filter] in *. unfold circle at 1. cbn [isCircle].
  change (String.eqb "circle" "circle") with true. cbn iota. f_equal. exact IH.
Qed.

Lemma OverBackground_circles f :
  circlesOf (OverBackground.buildDotGridSVG f) = circle <$> OverBackground.dots f.
Proof.
  unfold OverBackground.buildDotGridSVG, circlesOf.
  generalize (OverBackground.dots f). exact filter_circles.
Qed.

Lemma filter_skips_rect attrs (l : list Xml) :
  List.filter isCircle (Elem "rect" attrs [] :: l) = List.filter isCircle l.
Proof. reflexivity. Qed.

Lemma OnWhite_circles f :
  circlesOf (OnWhite.buildDotGridSVG f) = circle <$> OnWhite.dots f.
Proof.
  unfold OnWhite.buildDotGridSVG, circlesOf.
  generalize (OnWhite.dots f). intros l.
  rewrite filter_skips_rect. apply filter_circles.
Qed.

Lemma fmap_seqZ_lookup {A} (g : Z -> A) (n i : Z) :
  0 <= i < n -> (g <$> seqZ 0 n) !! Z.to_nat i = Some (g i).
Proof.
  intros H. rewrite list_lookup_fmap, lookup_seqZ_lt by lia.
  cbn. f_equal. f_equal. lia.
Qed.

Lemma OverBackground_dot_filled f i : filledDot (OverBackground.dot f i) <-> i < f.
Proof.
  unfold OverBackground.dot, filledDot. destruct (Z.ltb_spec i f); cbn; split;
    intros H'; try lia; try (split; reflexivity).
  destruct H'; discriminate.
Qed.

Lemma OverBackground_dot_empty f i : emptyDot (OverBackground.dot f i) <-> ~ i < f.
Proof.
  unfold OverBackground.dot, emptyDot. destruct (Z.ltb_spec i f); cbn; split;
    intros H'; try lia.
  - destruct H' as [[E _] | [E _]]; discriminate.
  - left. split; reflexivity.
Qed.

Lemma OnWhite_dot_filled f i : filledDot (OnWhite.dot f i) <-> i < f.
Proof.
  unfold OnWhite.dot, filledDot. destruct (Z.ltb_spec i f); cbn; split;
    intros H'; try lia; try (split; reflexivity).
  destruct H'; discriminate.
Qed.

Lemma OnWhite_dot_empty f i : emptyDot (OnWhite.dot f i) <-> ~ i < f.
Proof.
  unfold OnWhite.dot, emptyDot. destruct (Z.ltb_spec i f); cbn; split;
    intros H'; try lia.
  - destruct H' as [[E _] | [E _]]; discriminate.
  - right. split; reflexivity.
Qed.

(** What the [circle] element written for a dot says. *)
Lemma circle_attrs (d : Dot) :
  attr "cx" (circle d) = Some (F.stringOfZ (cx d)) /\
  attr "cy" (circle d) = Some (F.stringOfZ (cy d)) /\
  attr "r" (circle d) = Some (F.stringOfZ (r d)) /\
  attr "fill" (circle d) = Some (fill d) /\
  attr "opacity" (circle d) = opacity d.
Proof.
  unfold circle, attr. cbn [app List.find fst snd].
  repeat split; try reflexivity.
  destruct (opacity d); reflexivity.
Qed.

Lemma circle_drawnFilled (d : Dot) : drawnFilled (circle d) <-> filledDot d.
Proof.
  unfold drawnFilled, filledDot.
  destruct (circle_attrs d) as (_ & _ & _ & -> & ->).
  split; intros [H1 H2]; split; congruence.
Qed.

Lemma circle_drawnEmpty (d : Dot) : drawnEmpty (circle d) <-> emptyDot d.
Proof.
  unfold drawnEmpty, emptyDot.
  destruct (circle_attrs d) as (_ & _ & _ & -> & ->).
  split; (intros [[H1 H2] | [H1 H2]]; [left | right]; split; congruence).
Qed.

(** C5: for every filled count f and every index i in 0..364, the i-th
    [circle] element of the document has the attributes cx = left margin +
    (i mod 20) x horizontal spacing and cy = grid top + floor(i / 20) x
    vertical spacing, and it is drawn filled (fill #1C1C1E, no opacity)
    exactly when i < f and empty otherwise (white at opacity 0.15 over the
    background, #D1D1D6 on the white canvas), in both layouts; the document
    has 365 circles; with f = 0 all of them are drawn empty and with f = 365
    all are drawn filled. *)
Theorem C5_dot_grid (f i : Z) :
  0 <= i < 365 ->
  (exists c,
     circlesOf (OverBackground.buildDotGridSVG f) !! Z.to_nat i = Some c /\
     attr "cx" c
       = Some (F.stringOfZ (OverBackground.MARGIN_LEFT + (i mod 20) * OverBackground.H_SPACING)) /\
     attr "cy" c
       = Some (F.stringOfZ (OverBackground.GRID_TOP + (i / 20) * OverBackground.V_SPACING)) /\
     attr "r" c = Some "11" /\
     (drawnFilled c <-> i < f) /\
     (drawnEmpty c <-> ~ i < f) /\
     (~ i < f -> attr "fill" c = Some "white" /\ attr "opacity" c = Some "0.15")) /\
  (exists c,
     circlesOf (OnWhite.buildDotGridSVG f) !! Z.to_nat i = Some c /\
     attr "cx" c = Some (F.stringOfZ (OnWhite.GRID_X + (i mod 20) * OnWhite.DOT_SPACING)) /\
     attr "cy" c = Some (F.stringOfZ (OnWhite.GRID_Y + (i / 20) * OnWhite.DOT_SPACING)) /\
     attr "r" c = Some "14" /\
     (drawnFilled c <-> i < f) /\
     (drawnEmpty c <-> ~ i < f) /\
     (~ i < f -> attr "fill" c = Some "#D1D1D6" /\ attr "opacity" c = None)) /\
  (length (circlesOf (OverBackground.buildDotGridSVG f)) = 365%nat /\
   length (circlesOf (OnWhite.buildDotGridSVG f)) = 365%nat) /\
  (Forall drawnEmpty (circlesOf (OverBackground.buildDotGridSVG 0)) /\
   Forall drawnFilled (circlesOf (OverBackground.buildDotGridSVG 365)) /\
   Forall drawnEmpty (circlesOf (OnWhite.buildDotGridSVG 0)) /\
   Forall drawnFilled (circlesOf (OnWhite.buildDotGridSVG 365))).
Proof.
  intros Hi.
  assert (Hrem : Z.rem i 20 = i mod 20) by (apply Z.rem_mod_nonneg; lia).
  split; [| split; [| split]].
  - exists (circle (OverBackground.dot f i)).
    destruct (circle_attrs (OverBackground.dot f i)) as (A1 & A2 & A3 & A4 & A5).
    split; [| split; [| split; [| split; [| split; [| split]]]]].
    + rewrite OverBackground_circles, list_lookup_fmap.
      unfold OverBackground.dots, OverBackground.TOTAL_DOTS.
      rewrite (fmap_seqZ_lookup (OverBackground.dot f) 365 i Hi). reflexivity.
    + rewrite A1. unfold OverBackground.dot, OverBackground.COLS. rewrite Hrem.
      destruct (i <? f); reflexivity.
    + rewrite A2. unfold OverBackground.dot, OverBackground.COLS.
      destruct (i <? f); reflexivity.
    + rewrite A3. unfold OverBackground.dot. destruct (i <? f); reflexivity.
    + rewrite circle_drawnFilled. apply OverBackground_dot_filled.
    + rewrite circle_drawnEmpty. apply OverBackground_dot_empty.
    + intros Hn. rewrite A4, A5. unfold OverBackground.dot.
      destruct (Z.ltb_spec i f); [lia | split; reflexivity].
  - exists (circle (OnWhite.dot f i)).
    destruct (circle_attrs (OnWhite.dot f i)) as (A1 & A2 & A3 & A4 & A5).
    split; [| split; [| split; [| split; [| split; [| split]]]]].
    + rewrite OnWhite_circles, list_lookup_fmap.
      unfold OnWhite.dots, OnWhite.TOTAL_DOTS.
      rewrite (fmap_seqZ_lookup (OnWhite.dot f) 365 i Hi). reflexivity.
    + rewrite A1. unfold OnWhite.dot, OnWhite.COLS. rewrite Hrem. reflexivity.
    + rewrite A2. reflexivity.
    + rewrite A3. reflexivity.
    + rewrite circle_drawnFilled. apply OnWhite_dot_filled.
    + rewrite circle_drawnEmpty. apply OnWhite_dot_empty.
    + intros Hn. rewrite A4, A5. unfold OnWhite.dot.
      destruct (Z.ltb_spec i f); [lia | split; reflexivity].
  - rewrite OverBackground_circles, OnWhite_circles.
    unfold OverBackground.dots, OnWhite.dots.
    rewrite !length_fmap, !length_seqZ. split; reflexivity.
  - rewrite !OverBackground_circles, !OnWhite_circles.
    unfold OverBackground.dots, OnWhite.dots, OverBackground.TOTAL_DOTS, OnWhite.TOTAL_DOTS.
    split; [| split; [| split]]; apply Forall_fmap, Forall_fmap, Forall_seqZ;
      intros j Hj; unfold compose.
    + apply circle_drawnEmpty, (proj2 (OverBackground_dot_empty 0 j)). lia.
    + apply circle_drawnFilled, (proj2 (OverBackground_dot_filled 365 j)). lia.
    + apply circle_drawnEmpty, (proj2 (OnWhite_dot_empty 0 j)). lia.
    + apply circle_drawnFilled, (proj2 (OnWhite_dot_filled 365 j)). lia.
Qed.

Lemma C5_dot_grid_witness :
  (exists c,
     circlesOf (OverBackground.buildDotGridSVG 100) !! Z.to_nat 99 = Some c /\
     attr "cx" c = Some "1128" /\ attr "cy" c = Some "1256" /\ drawnFilled c) /\
  (exists c,
     circlesOf (OnWhite.buildDotGridSVG 100) !! Z.to_nat 100 = Some c /\
     attr "cx" c = Some "56" /\ attr "cy" c = Some "1372" /\
     attr "fill" c = Some "#D1D1D6" /\ drawnEmpty c).
Proof.
  pose proof (C5_dot_grid 100 99 ltac:(lia)) as [(c & H1 & H2 & H3 & _ & H4 & _) _].
  pose proof (C5_dot_grid 100 100 ltac:(lia))
    as [_ [(e & G1 & G2 & G3 & _ & _ & G4 & G5) _]].
  split.
  - exists c. split; [exact H1 | split; [exact H2 | split; [exact H3 |]]].
    apply H4. lia.
  - exists e. split; [exact G1 | split; [exact G2 | split; [exact G3 | split]]].
    + apply G5. lia.
    + apply G4. lia.
Defined.

(* ===================================================================== *)
(** ** Running the handlers                                               *)
(* ===================================================================== *)

Lemma logged_logged w a b : logged (logged w a) b = logged w (a ++ b).
Proof. unfold logged. cbn. rewrite app_assoc. reflexivity. Qed.

Lemma logged_nil w : logged w [] = w.
Proof. destruct w. unfold logged. cbn. rewrite app_nil_r. reflexivity. Qed.

Lemma sharpInputs_logged w evs :
  sharpInputs (logged w evs) =
  sharpInputs w ++ omap (fun ev => match ev with
                                   | SharpToBuffer p => Some (input p)
                                   | _ => None
                                   end) evs.
Proof. unfold sharpInputs, logged. cbn. apply omap_app. Qed.

(** The resolver returns normally, whatever it is given; it reads the
    clock and asks [Intl] at most, and leaves the font cache alone. *)
Lemma parseDateInTz_run env dateStr tz w :
  exists today evs,
    parseDateInTz env dateStr tz w = (Normal today, logged w evs) /\
    Forall (fun ev => ev = ReadClock \/ exists zone, ev = FormatToParts zone) evs.
Proof.
  unfold parseDateInTz.
  destruct dateStr as [[| ch str] |].
  2: { eexists _, []. rewrite logged_nil. split; [reflexivity | constructor]. }
  all: destruct tz as [[| zc zone] |];
    unfold bind, ret, emit, tryCatch, todayInZone, liftCompletion, get, throw; cbn.
  all: try destruct (intlFormatToParts env (String zc zone) (clock env)) as [parts | e]; cbn;
    repeat match goal with
           | |- context [List.find ?f ?l] => destruct (List.find f l); cbn
           end.
  all: match goal with
       | |- context [(events _ ++ [ReadClock]) ++ [FormatToParts ?z]] =>
           eexists _, [ReadClock; FormatToParts z]
       | |- _ => eexists _, [ReadClock]
       end;
    (split;
     [ unfold logged; rewrite <- ?app_assoc; reflexivity
     | repeat (constructor; [first [left; reflexivity | right; eexists; reflexivity] |]);
       constructor ]).
Qed.

Lemma selectOverlay_run env d w :
  selectOverlay env d w = (Normal (chosenOverlay env d), logged w (probes env d)).
Proof.
  unfold selectOverlay, chosenOverlay, probes, existsSync, bind, emit, ret, logged,
    overlayPathFor, day365Path.
  cbn.
  destruct (fileExists env (pathJoin (OVERLAYS_DIR env) (dayFileName d))) eqn:E;
    cbn; rewrite <- app_assoc; cbn.
  - rewrite E. reflexivity.
  - destruct (fileExists env (pathJoin (OVERLAYS_DIR env) "day-365.png"));
      reflexivity.
Qed.

Lemma Plain_unknown_model env q w :
  isFalsy (getProperty (modelOf q)) = true ->
  Plain.handler env q w = (unsupportedModel (modelOf q), w).
Proof.
  intros H. unfold Plain.handler, Plain.handlerBody. fold (modelOf q).
  rewrite H. reflexivity.
Qed.

Lemma WithText_unknown_model env q w :
  isFalsy (getProperty (modelOf q)) = true ->
  WithText.handler env q w = (unsupportedModel (modelOf q), w).
Proof.
  intros H. unfold WithText.handler, WithText.handlerBody. fold (modelOf q).
  rewrite H. reflexivity.
Qed.

(** A run of the plain handler for a model the table lookup accepts. *)
Lemma Plain_run env q w today evs :
  isFalsy (getProperty (modelOf q)) = false ->
  parseDateInTz env (q_date q) (q_tz q) w = (Normal today, logged w evs) ->
  Plain.handler env q w =
    match chosenOverlay env (getDayOfYear (host env) today) with
    | None =>
        (noOverlayPlain, logged w (evs ++ probes env (getDayOfYear (host env) today)))
    | Some path =>
        (sent (mapCompletion (plainImage q (getDayOfYear (host env) today))
                 (sharpToBuffer env (plainPipeline q path))),
         logged w (evs ++ probes env (getDayOfYear (host env) today)
                       ++ [SharpToBuffer (plainPipeline q path)]))
    end.
Proof.
  intros Hm Hp. unfold Plain.handler, Plain.handlerBody.
  fold (modelOf q). fold (formatOf q). rewrite Hm.
  unfold plainPipeline, plainImage.
  destruct (dimensions (getProperty (modelOf q))) as [wd ht]. cbn [fst snd].
  unfold bind at 1. rewrite Hp.
  unfold bind at 1. rewrite selectOverlay_run, logged_logged.
  destruct (chosenOverlay env (getDayOfYear (host env) today)) as [path |].
  - unfold toBuffer, bind, emit, liftCompletion, ret, logged. cbn.
    rewrite <- !app_assoc.
    destruct (sharpToBuffer env _); reflexivity.
  - reflexivity.
Qed.


(** A run of the handler with the text layer, likewise. *)
Lemma WithText_run env q w today evs :
  isFalsy (getProperty (modelOf q)) = false ->
  parseDateInTz env (q_date q) (q_tz q) w = (Normal today, logged w evs) ->
  WithText.handler env q w =
    match chosenOverlay env (dayOfYear (calcDateInfo (host env) today)) with
    | None =>
        (noOverlayWithText,
         logged w (evs ++ probes env (dayOfYear (calcDateInfo (host env) today))))
    | Some path =>
        match WithText.getFontBase64 env
                (logged w (evs ++ probes env (dayOfYear (calcDateInfo (host env) today))))
        with
        | (Throw e, w3) => (internalError e, w3)
        | (Normal font, w3) =>
            (sent (mapCompletion (textImage q (calcDateInfo (host env) today))
                     (sharpToBuffer env
                        (textPipeline q (calcDateInfo (host env) today) path font))),
             logged w3 [SharpToBuffer
                          (textPipeline q (calcDateInfo (host env) today) path font)])
        end
    end.
Proof.
  intros Hm Hp. unfold WithText.handler, WithText.handlerBody.
  fold (modelOf q). fold (formatOf q). rewrite Hm.
  unfold textPipeline, textImage.
  destruct (dimensions (getProperty (modelOf q))) as [wd ht]. cbn [fst snd].
  unfold bind at 1. rewrite Hp.
  unfold bind at 1. rewrite selectOverlay_run, logged_logged.
  destruct (chosenOverlay env (dayOfYear (calcDateInfo (host env) today))) as [path |];
    [| reflexivity].
  unfold bind at 1.
  destruct (WithText.getFontBase64 env _) as [[font | e] w3]; [| reflexivity].
  unfold toBuffer, bind, emit, liftCompletion, ret, logged. cbn.
  destruct (sharpToBuffer env _); reflexivity.
Qed.

Lemma resolver_events_no_sharp env dateStr tz w today evs :
  parseDateInTz env dateStr tz w = (Normal today, logged w evs) ->
  omap (fun ev => match ev with
                  | SharpToBuffer p => Some (input p)
                  | _ => None
                  end) evs = [].
Proof.
  intros Hp.
  destruct (parseDateInTz_run env dateStr tz w) as (t' & evs' & Hp' & F).
  rewrite Hp in Hp'.
  assert (He : events (logged w evs) = events (logged w evs')) by congruence.
  unfold logged in He. cbn in He. apply app_inv_head in He. subst evs'.
  clear Hp Hp'.
  induction F as [| ev evs [-> | [zone ->]] F IH]; cbn; auto.
Qed.

Lemma getFontBase64_events env w :
  sharpInputs (snd (WithText.getFontBase64 env w)) = sharpInputs w.
Proof.
  unfold WithText.getFontBase64.
  destruct (_fontBase64 w) as [[| ch cached] |]; cbn [snd]; try reflexivity;
    destruct (fontFile env); cbn [snd events];
    unfold sharpInputs; cbn [events]; rewrite omap_app; cbn; apply app_nil_r.
Qed.

Lemma getFontBase64_available env w :
  fontAvailable env w -> exists font w3, WithText.getFontBase64 env w = (Normal font, w3).
Proof.
  unfold fontAvailable, WithText.getFontBase64, truthy.
  intros [H | [b H]].
  - destruct (_fontBase64 w) as [[| ch cached] |]; try discriminate. eauto.
  - rewrite H. destruct (_fontBase64 w) as [[| ch cached] |]; eauto.
Qed.

Lemma resolver_events env dateStr tz w today evs :
  parseDateInTz env dateStr tz w = (Normal today, logged w evs) ->
  Forall (fun ev => ev = ReadClock \/ exists zone, ev = FormatToParts zone) evs.
Proof.
  intros Hp.
  destruct (parseDateInTz_run env dateStr tz w) as (t' & evs' & Hp' & F).
  rewrite Hp in Hp'.
  assert (He : events (logged w evs) = events (logged w evs')) by congruence.
  unfold logged in He. cbn in He. apply app_inv_head in He. subst evs'. exact F.
Qed.

Lemma getFontBase64_world env w :
  events (snd (WithText.getFontBase64 env w)) = events w \/
  events (snd (WithText.getFontBase64 env w)) = events w ++ [ReadFont].
Proof.
  unfold WithText.getFontBase64.
  destruct (_fontBase64 w) as [[| ch cached] |]; cbn [snd]; auto;
    destruct (fontFile env); cbn [snd events]; auto.
Qed.

(** Every pipeline a handler runs is encoded as the format asks. *)
Lemma Plain_sharp_encoder env q w p :
  SharpToBuffer p ∈ events (snd (Plain.handler env q w)) ->
  SharpToBuffer p ∈ events w \/ encoder p = encoderFor (formatOf q).
Proof.
  destruct (isFalsy (getProperty (modelOf q))) eqn:Hm.
  - rewrite (Plain_unknown_model env q w Hm). auto.
  - destruct (parseDateInTz_run env (q_date q) (q_tz q) w) as (today & evs & Hp & F).
    rewrite (Plain_run env q w today evs Hm Hp).
    destruct (chosenOverlay env _) as [path |]; cbn [snd logged events];
      rewrite !elem_of_app; intros Hin.
    + destruct Hin as [Hin | [Hin | [Hin | Hin]]]; auto.
      * apply (proj1 (Forall_forall _ _) F) in Hin.
        destruct Hin as [Hin | [zone Hin]]; discriminate.
      * unfold probes in Hin. apply elem_of_cons in Hin as [Hin | Hin]; [discriminate |].
        apply elem_of_cons in Hin as [Hin | Hin]; [discriminate |].
        apply elem_of_nil in Hin. contradiction.
      * apply list_elem_of_singleton in Hin. injection Hin as ->. right. reflexivity.
    + destruct Hin as [Hin | [Hin | Hin]]; auto.
      * apply (proj1 (Forall_forall _ _) F) in Hin.
        destruct Hin as [Hin | [zone Hin]]; discriminate.
      * unfold probes in Hin. apply elem_of_cons in Hin as [Hin | Hin]; [discriminate |].
        apply elem_of_cons in Hin as [Hin | Hin]; [discriminate |].
        apply elem_of_nil in Hin. contradiction.
Qed.

Lemma WithText_sharp_encoder env q w p :
  SharpToBuffer p ∈ events (snd (WithText.handler env q w)) ->
  SharpToBuffer p ∈ events w \/ encoder p = encoderFor (formatOf q).
Proof.
  destruct (isFalsy (getProperty (modelOf q))) eqn:Hm.
  - rewrite (WithText_unknown_model env q w Hm). auto.
  - destruct (parseDateInTz_run env (q_date q) (q_tz q) w) as (today & evs & Hp & F).
    rewrite (WithText_run env q w today evs Hm Hp).
    assert (Hpre : forall tail,
               SharpToBuffer p ∈ events w ++ evs ++
                 probes env (dayOfYear (calcDateInfo (host env) today)) ++ tail ->
               SharpToBuffer p ∈ events w \/ SharpToBuffer p ∈ tail).
    { intros tail. rewrite !elem_of_app. intros [Hin | [Hin | [Hin | Hin]]]; auto.
      - apply (proj1 (Forall_forall _ _) F) in Hin.
        destruct Hin as [Hin | [zone Hin]]; discriminate.
      - unfold probes in Hin. apply elem_of_cons in Hin as [Hin | Hin]; [discriminate |].
        apply elem_of_cons in Hin as [Hin | Hin]; [discriminate |].
        apply elem_of_nil in Hin. contradiction. }
    destruct (chosenOverlay env _) as [path |].
    + pose proof (getFontBase64_world env
                    (logged w (evs ++ probes env (dayOfYear (calcDateInfo (host env) today)))))
        as Hw.
      destruct (WithText.getFontBase64 env _) as [[font | e] w3];
        cbn [snd logged events] in *; intros Hin; destruct Hw as [Hw | Hw];
        rewrite Hw, <- ?app_assoc in Hin.
      * apply Hpre in Hin as [Hin | Hin]; auto.
        apply list_elem_of_singleton in Hin. injection Hin as ->. right. reflexivity.
      * apply Hpre in Hin as [Hin | Hin]; auto.
        apply elem_of_cons in Hin as [Hin | Hin]; [discriminate |].
        apply list_elem_of_singleton in Hin. injection Hin as ->. right. reflexivity.
      * rewrite <- (app_nil_r (probes _ _)) in Hin. apply Hpre in Hin as [Hin | Hin]; auto.
        apply elem_of_nil in Hin. contradiction.
      * apply Hpre in Hin as [Hin | Hin]; auto.
        apply list_elem_of_singleton in Hin. discriminate.
    + cbn [snd logged events]. intros Hin.
      rewrite <- (app_nil_r (probes _ _)) in Hin. apply Hpre in Hin as [Hin | Hin]; auto.
      apply elem_of_nil in Hin. contradiction.
Qed.

Lemma getDayOfYear_calcDateInfo host date :
  getDayOfYear host date = dayOfYear (calcDateInfo host date).
Proof. reflexivity. Qed.

(** For a model the lookup accepts, neither handler answers 400. *)
Lemma accepted_model_status env q w :
  isFalsy (getProperty (modelOf q)) = false ->
  (statusOf (fst (WithText.handler env q w)) = 200 \/
   statusOf (fst (WithText.handler env q w)) = 500) /\
  (statusOf (fst (Plain.handler env q w)) = 200 \/
   statusOf (fst (Plain.handler env q w)) = 500).
Proof.
  intros Hm.
  destruct (parseDateInTz_run env (q_date q) (q_tz q) w) as (today & evs & Hp & _).
  rewrite (WithText_run env q w today evs Hm Hp), (Plain_run env q w today evs Hm Hp).
  split.
  - destruct (chosenOverlay env _); [| right; reflexivity].
    destruct (WithText.getFontBase64 env _) as [[font | e] w3]; [| right; reflexivity].
    destruct (sharpToBuffer env _); [left | right]; reflexivity.
  - destruct (chosenOverlay env _); [| right; reflexivity].
    destruct (sharpToBuffer env _); [left | right]; reflexivity.
Qed.

Lemma day365_is_overlay_of_365 env : overlayPathFor env (Num 365) = day365Path env.
Proof. reflexivity. Qed.

Lemma chosenOverlay_missing env d :
  fileExists env (overlayPathFor env d) = false ->
  chosenOverlay env d =
    (if fileExists env (day365Path env) then Some (day365Path env) else None) /\
  probes env d = [ExistsSync (overlayPathFor env d); ExistsSync (day365Path env)].
Proof.
  intros H. unfold chosenOverlay, probes.
  rewrite H. split; reflexivity.
Qed.

(* ===================================================================== *)
(** ** A request on 1 January 2024                                        *)
(* ===================================================================== *)

(** C4: for the request with date override 2024-01-01 (whatever its [tz]),
    on a host at a fixed offset from UTC, the metrics are [dayOfYear] 1,
    [daysInYear] 366, [daysLeft] 365, and the percentage printed with one
    decimal is the string 0.3; an image response to that request carries
    them in its headers. *)
Theorem C4_first_of_january_2024 env c tz w :
  fixedOffset (host env) c -> Z.abs c <= ES.msPerDay ->
  exists today,
    parseDateInTz env (Some "2024-01-01") tz w = (Normal today, w) /\
    calcDateInfo (host env) today =
      {| dayOfYear := Num 1; daysLeft := Num 365; percent := "0.3"; daysInYear := 366 |} /\
    (forall model format s hs b,
       fst (WithText.handler env (query model (Some "2024-01-01") format tz) w)
         = Image s hs b ->
       header "X-Day-Of-Year" (Image s hs b) = Some "1" /\
       header "X-Days-Left" (Image s hs b) = Some "365" /\
       header "X-Year-Percent" (Image s hs b) = Some "0.3").
Proof.
  intros Hf Hc. exists (Num (midnight 2024 0 c)).
  assert (Hp : parseDateInTz env (Some "2024-01-01") tz w = (Normal (Num (midnight 2024 0 c)), w)).
  { unfold parseDateInTz, ret.
    change (List.map Number (split "-" "2024-01-01")) with [Num 2024; Num 1; Num 1].
    cbn [nthNum nth jsSub]. change (1 - 1) with 0.
    rewrite (new_jan1 (host env) c 2024) by (assumption || (unfold yearRange; lia) || lia).
    reflexivity. }
  assert (Hi : calcDateInfo (host env) (Num (midnight 2024 0 c)) =
               {| dayOfYear := Num 1; daysLeft := Num 365; percent := "0.3";
                  daysInYear := 366 |}).
  { rewrite (calcDateInfo_midnight (host env) c 2024 0)
      by (assumption || (unfold yearRange; lia) || lia || (vm_compute; split; congruence)).
    reflexivity. }
  split; [exact Hp | split; [exact Hi |]].
  intros model format s hs b H.
  set (q := query model (Some "2024-01-01") format tz) in *.
  destruct (isFalsy (getProperty (modelOf q))) eqn:Hm.
  - rewrite (WithText_unknown_model env q w Hm) in H. discriminate.
  - assert (Hp' : parseDateInTz env (q_date q) (q_tz q) w
                  = (Normal (Num (midnight 2024 0 c)), logged w []))
      by (rewrite logged_nil; exact Hp).
    rewrite (WithText_run env q w _ [] Hm Hp'), Hi in H.
    destruct (chosenOverlay env _); [| discriminate].
    destruct (WithText.getFontBase64 env _) as [[font | e] w3]; [| discriminate].
    cbn [fst] in H. destruct (sharpToBuffer env _); [| discriminate].
    cbn in H. rewrite <- H. repeat split; reflexivity.
Qed.

Lemma C4_first_of_january_2024_witness :
  exists today,
    parseDateInTz deployment (Some "2024-01-01") (Some "Asia/Dubai") initialWorld
      = (Normal today, initialWorld) /\
    calcDateInfo (host deployment) today =
      {| dayOfYear := Num 1; daysLeft := Num 365; percent := "0.3"; daysInYear := 366 |}.
Proof.
  destruct (C4_first_of_january_2024 deployment 0 (Some "Asia/Dubai") initialWorld)
    as (today & H1 & H2 & _).
  - exact utcHost_fixed.
  - vm_compute. discriminate.
  - exists today. split; assumption.
Defined.

(* ===================================================================== *)
(** ** Asset selection                                                    *)
(* ===================================================================== *)

(** C6: when the day of year is 366 and there is no day-366 overlay, asset
    selection returns normally with the day-365 overlay if that one exists
    (the same overlay a request for day 365 gets) and with nothing only
    if day 365 is absent too; accordingly both handlers answer the
    no-overlay server error exactly when day 365 is absent, and otherwise
    hand the day-365 overlay to sharp. *)
Theorem C6_day_366_falls_back env w :
  fileExists env (overlayPathFor env (Num 366)) = false ->
  selectOverlay env (Num 366) w =
    (Normal (if fileExists env (day365Path env)
             then Some (day365Path env) else None),
     logged w [ExistsSync (overlayPathFor env (Num 366)); ExistsSync (day365Path env)]) /\
  fst (selectOverlay env (Num 366) w) = fst (selectOverlay env (Num 365) w) /\
  (forall q today evs,
     isFalsy (getProperty (modelOf q)) = false ->
     parseDateInTz env (q_date q) (q_tz q) w = (Normal today, logged w evs) ->
     dayOfYear (calcDateInfo (host env) today) = Num 366 ->
     (fileExists env (day365Path env) = false ->
        fst (WithText.handler env q w) = noOverlayWithText /\
        fst (Plain.handler env q w) = noOverlayPlain) /\
     (fileExists env (day365Path env) = true ->
        fst (WithText.handler env q w) <> noOverlayWithText /\
        fst (Plain.handler env q w) <> noOverlayPlain /\
        sharpInputs (snd (Plain.handler env q w)) = sharpInputs w ++ [day365Path env] /\
        (fontAvailable env w ->
           sharpInputs (snd (WithText.handler env q w))
             = sharpInputs w ++ [day365Path env]))).
Proof.
  intros H366. destruct (chosenOverlay_missing env (Num 366) H366) as [Hc Hpr].
  split; [| split].
  - rewrite selectOverlay_run, Hc, Hpr. reflexivity.
  - rewrite !selectOverlay_run. cbn [fst]. rewrite Hc.
    unfold chosenOverlay. rewrite day365_is_overlay_of_365.
    destruct (fileExists env (day365Path env)); reflexivity.
  - intros q today evs Hm Hp Hd.
    rewrite (WithText_run env q w today evs Hm Hp), (Plain_run env q w today evs Hm Hp).
    rewrite getDayOfYear_calcDateInfo, Hd, Hc, Hpr.
    split; intros H365.
    + rewrite H365. split; reflexivity.
    + rewrite H365.
      split; [| split; [| split]].
      * destruct (WithText.getFontBase64 env _) as [[font | e] w3]; cbn [fst];
          [destruct (sharpToBuffer env _) |]; discriminate.
      * cbn [fst]. destruct (sharpToBuffer env _); discriminate.
      * cbn [snd]. rewrite sharpInputs_logged, !omap_app. cbn.
        rewrite (resolver_events_no_sharp env _ _ w today evs Hp).
        cbn [app]. rewrite ?app_nil_r. reflexivity.
      * intros Hfont.
        pose proof (getFontBase64_events env
                      (logged w (evs ++ [ExistsSync (overlayPathFor env (Num 366));
                                         ExistsSync (day365Path env)]))) as Hev.
        destruct (getFontBase64_available env
                    (logged w (evs ++ [ExistsSync (overlayPathFor env (Num 366));
                                       ExistsSync (day365Path env)]))) as (font & w3 & Hg).
        { destruct Hfont as [Hf | Hf]; [left; exact Hf | right; exact Hf]. }
        rewrite Hg in *. cbn [snd] in *.
        rewrite sharpInputs_logged, Hev, sharpInputs_logged, !omap_app. cbn.
        rewrite (resolver_events_no_sharp env _ _ w today evs Hp).
        cbn [app]. rewrite ?app_nil_r. reflexivity.
Qed.

Lemma C6_day_366_falls_back_witness :
  selectOverlay deployment (Num 366) initialWorld =
    (Normal (if fileExists deployment (day365Path deployment)
             then Some (day365Path deployment) else None),
     logged initialWorld [ExistsSync (overlayPathFor deployment (Num 366));
                          ExistsSync (day365Path deployment)]) /\
  fst (selectOverlay deployment (Num 366) initialWorld)
    = fst (selectOverlay deployment (Num 365) initialWorld).
Proof.
  assert (H : fileExists deployment (overlayPathFor deployment (Num 366)) = false).
  { vm_compute. reflexivity. }
  destruct (C6_day_366_falls_back deployment initialWorld H) as [H1 [H2 _]].
  split; [exact H1 | exact H2].
Defined.

(* ===================================================================== *)
(** ** The model lookup                                                   *)
(* ===================================================================== *)

Lemma getProperty_plain_name model :
  model ∉ RESOLUTIONS_keys -> model ∉ objectPrototypeKeys ->
  getProperty model = Undefined.
Proof.
  intros Hk Hp. unfold getProperty.
  assert (E : RESOLUTIONS !! model = None).
  { unfold RESOLUTIONS. apply not_elem_of_list_to_map_1.
    intros Hin. apply Hk. exact Hin. }
  rewrite E, (bool_decide_eq_false_2 _ Hp). reflexivity.
Qed.

(** A model that is neither a key of the table nor a name found on
    [Object.prototype] is answered with 400, and nothing else is done: the
    world (font cache and calls made) is as before. *)
Lemma plain_unknown_model_rejected env q w :
  modelOf q ∉ RESOLUTIONS_keys -> modelOf q ∉ objectPrototypeKeys ->
  WithText.handler env q w = (unsupportedModel (modelOf q), w) /\
  Plain.handler env q w = (unsupportedModel (modelOf q), w) /\
  statusOf (unsupportedModel (modelOf q)) = 400.
Proof.
  intros Hk Hp. pose proof (getProperty_plain_name _ Hk Hp) as E.
  rewrite WithText_unknown_model, Plain_unknown_model by (rewrite E; reflexivity).
  repeat split; reflexivity.
Qed.

(** C7 at the failing input: the model string [constructor] is no key of the
    table, yet [RESOLUTIONS[model]] finds the inherited property, the
    handlers do not answer 400, and they go on to probe the file system and
    run sharp; on the sample deployment the plain handler answers 200 with
    image bytes. *)
Theorem C7_inherited_name_is_not_rejected env w dateOverride format tz :
  ("constructor" ∉ RESOLUTIONS_keys) /\
  RESOLUTIONS !! "constructor" = None /\
  getProperty "constructor" = InheritedValue "constructor" /\
  statusOf (fst (WithText.handler env (query (Some "constructor") dateOverride format tz) w))
    <> 400 /\
  statusOf (fst (Plain.handler env (query (Some "constructor") dateOverride format tz) w))
    <> 400 /\
  (length (events w)
   < length (events (snd (Plain.handler env
                            (query (Some "constructor") dateOverride format tz) w))))%nat /\
  Plain.handler deployment (query (Some "constructor") None None None) initialWorld =
    (Image 200
       [("Content-Type", "image/jpeg");
        ("Cache-Control", "no-store, no-cache, must-revalidate");
        ("X-Day-Of-Year", "366")]
       "image of /var/task/public/overlays/day-365.png",
     logged initialWorld
       [ReadClock;
        ExistsSync "/var/task/public/overlays/day-366.png";
        ExistsSync "/var/task/public/overlays/day-365.png";
        SharpToBuffer {| input := "/var/task/public/overlays/day-365.png";
                         resizeWidth := None; resizeHeight := None;
                         composite := []; encoder := Jpeg 92 true |}]).
Proof.
  set (q := query (Some "constructor") dateOverride format tz).
  assert (Hm : isFalsy (getProperty (modelOf q)) = false) by reflexivity.
  split; [| split; [| split; [| split; [| split; [| split]]]]].
  - apply (bool_decide_unpack _). vm_compute. exact I.
  - vm_compute. reflexivity.
  - vm_compute. reflexivity.
  - destruct (accepted_model_status env q w Hm) as [[E | E] _]; rewrite E; discriminate.
  - destruct (accepted_model_status env q w Hm) as [_ [E | E]]; rewrite E; discriminate.
  - destruct (parseDateInTz_run env (q_date q) (q_tz q) w) as (today & evs & Hp & _).
    rewrite (Plain_run env q w today evs Hm Hp).
    destruct (chosenOverlay env _); cbn [snd logged events];
      rewrite !length_app; cbn; lia.
  - vm_compute. reflexivity.
Qed.

(* ===================================================================== *)
(** ** The calendar resolver                                              *)
(* ===================================================================== *)

Lemma MonthFromTime_range t : 0 <= ES.MonthFromTime t <= 11.
Proof.
  unfold ES.MonthFromTime.
  repeat match goal with |- context [if ?b then _ else _] => destruct b end; lia.
Qed.

Lemma YearFromTime_since_epoch t : 0 <= t -> 1970 <= ES.YearFromTime t.
Proof.
  intros Ht. unfold ES.YearFromTime.
  assert (Hd : 0 <= ES.Day t) by (unfold ES.Day, ES.msPerDay; zlia).
  pose proof (yearOfDay_spec (ES.Day t)) as [_ S].
  destruct (Z.lt_ge_cases (ES.yearOfDay (ES.Day t)) 1970) as [L | G]; [| exact G].
  pose proof (DayFromYear_mono (ES.yearOfDay (ES.Day t) + 1) 1970 ltac:(lia)) as M.
  change (ES.DayFromYear 1970) with 0 in M. lia.
Qed.

(** The UTC fallback is midnight UTC of the day the clock is in. *)
Lemma utcToday_value now :
  0 <= now <= ES.maxTime -> utcToday now = Num (ES.msPerDay * ES.Day now).
Proof.
  intros Hn. unfold utcToday, Date.UTCMidnight, Date.getUTCFullYear, Date.getUTCMonth,
    Date.getUTCDate, Date.ofTimeValue.
  pose proof (YearFromTime_since_epoch now ltac:(lia)) as HY.
  rewrite fullYear_id by lia.
  rewrite MakeDay_month by apply MonthFromTime_range.
  unfold ES.DateFromTime, ES.InLeapYear, ES.DayWithinYear, ES.MakeDate.
  set (ms := ES.monthStart _ _).
  replace (ES.DayFromYear (ES.YearFromTime now) +
           (ms + (ES.Day now - ES.DayFromYear (ES.YearFromTime now) - ms + 1) - 1))
    with (ES.Day now) by lia.
  assert (B : 0 <= ES.Day now * ES.msPerDay <= now)
    by (unfold ES.Day, ES.msPerDay; zlia).
  assert (C : ES.TimeClip (ES.Day now * ES.msPerDay + 0) = Num (ES.msPerDay * ES.Day now)).
  { unfold ES.TimeClip. rewrite Z.add_0_r.
    destruct (Z.leb_spec (Z.abs (ES.Day now * ES.msPerDay)) ES.maxTime); [f_equal; lia | lia]. }
  rewrite C. unfold ES.TimeClip.
  destruct (Z.leb_spec (Z.abs (ES.msPerDay * ES.Day now)) ES.maxTime); [reflexivity | lia].
Qed.

(** C8: with no date override, a time zone that [Intl] rejects makes the
    resolver return normally with UTC today, the value it returns when no
    time zone is given: midnight UTC of the current day. *)
Theorem C8_rejected_zone_gives_utc_today env dateStr zone w e :
  truthy dateStr = false ->
  intlFormatToParts env zone (clock env) = Throw e ->
  fst (parseDateInTz env dateStr (Some zone) w) = Normal (utcToday (clock env)) /\
  fst (parseDateInTz env dateStr (Some zone) w) = fst (parseDateInTz env dateStr None w) /\
  (0 <= clock env <= ES.maxTime ->
   fst (parseDateInTz env dateStr (Some zone) w)
     = Normal (Num (ES.msPerDay * ES.Day (clock env)))).
Proof.
  intros Hd He.
  assert (E : fst (parseDateInTz env dateStr (Some zone) w) = Normal (utcToday (clock env))).
  { unfold parseDateInTz.
    destruct dateStr as [[| ch str] |]; try discriminate;
      destruct zone as [| zc zn];
      unfold bind, emit, tryCatch, todayInZone, liftCompletion, ret; cbn;
      rewrite ?He; reflexivity. }
  split; [exact E | split].
  - rewrite E. unfold parseDateInTz.
    destruct dateStr as [[| ch str] |]; try discriminate; reflexivity.
  - intros Hc. rewrite E, utcToday_value by assumption. reflexivity.
Qed.

Lemma C8_rejected_zone_gives_utc_today_witness :
  fst (parseDateInTz deployment None (Some "Mars/Olympus_Mons") initialWorld)
    = Normal (utcToday (clock deployment)) /\
  fst (parseDateInTz deployment None (Some "Mars/Olympus_Mons") initialWorld)
    = fst (parseDateInTz deployment None None initialWorld) /\
  (0 <= clock deployment <= ES.maxTime ->
   fst (parseDateInTz deployment None (Some "Mars/Olympus_Mons") initialWorld)
     = Normal (Num (ES.msPerDay * ES.Day (clock deployment)))).
Proof.
  apply (C8_rejected_zone_gives_utc_today deployment None "Mars/Olympus_Mons" initialWorld
           (RangeError "Invalid time zone specified: Mars/Olympus_Mons")).
  - reflexivity.
  - vm_compute. reflexivity.
Defined.

(* ===================================================================== *)
(** ** Missing overlays and malformed overrides                           *)
(* ===================================================================== *)

(** C9: whatever day of year was computed, 366 or not and NaN included, if
    its overlay file is missing asset selection turns to day-365.png.  A
    date override that is no date (here 2024/01/01) makes the day of year
    NaN and the file name day-NaN.png; with a model the lookup accepts the
    answer is never 400; and where day-365.png, the font and sharp are in
    order the handler answers 200 from the day-365 overlay with NaN in the
    X-Day-Of-Year header. *)
Theorem C9_fallback_for_any_missing_day env w :
  (forall d,
     fileExists env (overlayPathFor env d) = false ->
     selectOverlay env d w =
       (Normal (if fileExists env (day365Path env) then Some (day365Path env) else None),
        logged w [ExistsSync (overlayPathFor env d); ExistsSync (day365Path env)])) /\
  (forall tz,
     parseDateInTz env (Some "2024/01/01") tz w = (Normal NaN, w) /\
     dayOfYear (calcDateInfo (host env) NaN) = NaN /\
     getDayOfYear (host env) NaN = NaN /\
     dayFileName NaN = "day-NaN.png") /\
  (forall q,
     isFalsy (getProperty (modelOf q)) = false ->
     statusOf (fst (WithText.handler env q w)) <> 400 /\
     statusOf (fst (Plain.handler env q w)) <> 400) /\
  (forall model format tz w3 font buffer,
     isFalsy (getProperty (default "default" model)) = false ->
     fileExists env (overlayPathFor env NaN) = false ->
     fileExists env (day365Path env) = true ->
     WithText.getFontBase64 env
       (logged w [ExistsSync (overlayPathFor env NaN); ExistsSync (day365Path env)])
       = (Normal font, w3) ->
     (forall p, input p = day365Path env -> sharpToBuffer env p = Normal buffer) ->
     exists hs,
       fst (WithText.handler env (query model (Some "2024/01/01") format tz) w)
         = Image 200 hs buffer /\
       header "X-Day-Of-Year" (Image 200 hs buffer) = Some "NaN" /\
       sharpInputs (snd (WithText.handler env (query model (Some "2024/01/01") format tz) w))
         = sharpInputs w ++ [day365Path env] /\
       exists hs',
         fst (Plain.handler env (query model (Some "2024/01/01") format tz) w)
           = Image 200 hs' buffer /\
         header "X-Day-Of-Year" (Image 200 hs' buffer) = Some "NaN").
Proof.
  assert (Hparse : forall tz, parseDateInTz env (Some "2024/01/01") tz w = (Normal NaN, w)).
  { intros tz. unfold parseDateInTz, ret.
    change (List.map Number (split "-" "2024/01/01")) with [NaN]. reflexivity. }
  split; [| split; [| split]].
  - intros d Hd. destruct (chosenOverlay_missing env d Hd) as [Hc Hpr].
    rewrite selectOverlay_run, Hc, Hpr. reflexivity.
  - intros tz. split; [apply Hparse | repeat split; reflexivity].
  - intros q Hm.
    destruct (accepted_model_status env q w Hm) as [[E1 | E1] [E2 | E2]];
      rewrite E1, E2; split; discriminate.
  - intros model format tz w3 font buffer Hm Hnan H365 Hfont Hsharp.
    set (q := query model (Some "2024/01/01") format tz).
    assert (Hp : parseDateInTz env (q_date q) (q_tz q) w = (Normal NaN, logged w [])).
    { rewrite logged_nil. apply Hparse. }
    destruct (chosenOverlay_missing env NaN Hnan) as [Hc Hpr].
    rewrite H365 in Hc.
    rewrite (WithText_run env q w NaN [] Hm Hp), (Plain_run env q w NaN [] Hm Hp).
    change (dayOfYear (calcDateInfo (host env) NaN)) with NaN.
    change (getDayOfYear (host env) NaN) with NaN.
    rewrite Hc, Hpr. cbn [app]. rewrite Hfont, !Hsharp by reflexivity.
    cbn [mapCompletion sent fst snd].
    eexists. split; [reflexivity |]. split; [reflexivity |]. split.
    + rewrite sharpInputs_logged.
      pose proof (getFontBase64_events env
                    (logged w [ExistsSync (overlayPathFor env NaN);
                               ExistsSync (day365Path env)])) as Hev.
      rewrite Hfont in Hev. cbn [snd] in Hev. rewrite Hev, sharpInputs_logged.
      cbn. rewrite app_nil_r. reflexivity.
    + eexists. split; reflexivity.
Qed.

Lemma C9_fallback_for_any_missing_day_witness :
  selectOverlay deployment (Num 400) initialWorld =
    (Normal (if fileExists deployment (day365Path deployment)
             then Some (day365Path deployment) else None),
     logged initialWorld [ExistsSync (overlayPathFor deployment (Num 400));
                          ExistsSync (day365Path deployment)]) /\
  exists hs,
    fst (WithText.handler deployment (query None (Some "2024/01/01") None None) initialWorld)
      = Image 200 hs "image of /var/task/public/overlays/day-365.png" /\
    header "X-Day-Of-Year" (Image 200 hs "image of /var/task/public/overlays/day-365.png")
      = Some "NaN".
Proof.
  destruct (C9_fallback_for_any_missing_day deployment initialWorld) as [H1 [_ [_ H4]]].
  split.
  - apply H1. vm_compute. reflexivity.
  - destruct (H4 None None None
                {| _fontBase64 := Some "T1RUTwAJAIAAAwAQ";
                   events := [ExistsSync (overlayPathFor deployment NaN);
                              ExistsSync (day365Path deployment); ReadFont] |}
                "T1RUTwAJAIAAAwAQ" "image of /var/task/public/overlays/day-365.png")
      as (hs & Ha & Hb & _).
    + reflexivity.
    + vm_compute. reflexivity.
    + vm_compute. reflexivity.
    + reflexivity.
    + intros p Hp. cbn [sharpToBuffer deployment]. rewrite Hp. reflexivity.
    + exists hs. split; assumption.
Defined.

(* ===================================================================== *)
(** ** The output format                                                  *)
(* ===================================================================== *)

Lemma not_png_is_jpeg (q : Query) :
  q_format q <> Some "png" ->
  encoderFor (formatOf q) = Jpeg 92 true /\ contentTypeFor (formatOf q) = "image/jpeg".
Proof.
  intros H. unfold encoderFor, contentTypeFor, isPng, formatOf.
  destruct (q_format q) as [f |]; [| split; reflexivity].
  change (default "jpg" (Some f)) with f.
  destruct (String.eqb_spec f "png") as [-> | Hne]; [congruence | split; reflexivity].
Qed.

Lemma header_content_type (q : Query) (c : Completion string) (mk : string -> Response)
    (s : Z) hs b :
  (forall buf, header "Content-Type" (mk buf) = Some (contentTypeFor (formatOf q))) ->
  sent (mapCompletion mk c) = Image s hs b ->
  header "Content-Type" (Image s hs b) = Some (contentTypeFor (formatOf q)).
Proof.
  intros Hmk H. destruct c as [buf | e]; cbn in H.
  - rewrite <- H. apply Hmk.
  - discriminate.
Qed.

Lemma jpeg_pipelines (q : Query) :
  q_format q <> Some "png" ->
  (forall path, plainPipeline q path = jpegPlainPipeline q path) /\
  (forall info path font, textPipeline q info path font = jpegTextPipeline q info path font).
Proof.
  intros H. destruct (not_png_is_jpeg q H) as [He _].
  unfold plainPipeline, textPipeline, jpegPlainPipeline, jpegTextPipeline.
  rewrite He. split; reflexivity.
Qed.

(** C10: for every format value other than the exact string png (absent,
    jpg, or anything else such as webp) the request is answered with a
    JPEG.  For an accepted model and an overlay that is found, the plain
    handler runs sharp once, on the pipeline with the JPEG encoder (quality
    92, mozjpeg), and answers 200 with the buffer of that run and
    Content-Type image/jpeg; the handler with the text layer does the same
    once it has the font.  The request is handled exactly as the one
    without a format, so no value is rejected, and 400 is answered only
    for a rejected model. *)
Theorem C10_any_other_format_is_jpeg env q w :
  q_format q <> Some "png" ->
  encoderFor (formatOf q) = Jpeg 92 true /\
  contentTypeFor (formatOf q) = "image/jpeg" /\
  (forall today evs path buf,
     isFalsy (getProperty (modelOf q)) = false ->
     parseDateInTz env (q_date q) (q_tz q) w = (Normal today, logged w evs) ->
     chosenOverlay env (getDayOfYear (host env) today) = Some path ->
     sharpToBuffer env (jpegPlainPipeline q path) = Normal buf ->
     Plain.handler env q w
     = (Image 200
          [("Content-Type", "image/jpeg");
           ("Cache-Control", "no-store, no-cache, must-revalidate");
           ("X-Day-Of-Year", String_ (getDayOfYear (host env) today))]
          buf,
        logged w (evs ++ probes env (getDayOfYear (host env) today)
                      ++ [SharpToBuffer (jpegPlainPipeline q path)]))) /\
  (forall today evs path font w3 buf,
     isFalsy (getProperty (modelOf q)) = false ->
     parseDateInTz env (q_date q) (q_tz q) w = (Normal today, logged w evs) ->
     chosenOverlay env (dayOfYear (calcDateInfo (host env) today)) = Some path ->
     WithText.getFontBase64 env
       (logged w (evs ++ probes env (dayOfYear (calcDateInfo (host env) today))))
       = (Normal font, w3) ->
     sharpToBuffer env (jpegTextPipeline q (calcDateInfo (host env) today) path font)
       = Normal buf ->
     WithText.handler env q w
     = (Image 200
          [("Content-Type", "image/jpeg");
           ("Cache-Control", "no-store, no-cache, must-revalidate");
           ("X-Day-Of-Year", String_ (dayOfYear (calcDateInfo (host env) today)));
           ("X-Days-Left", String_ (daysLeft (calcDateInfo (host env) today)));
           ("X-Year-Percent", percent (calcDateInfo (host env) today))]
          buf,
        logged w3 [SharpToBuffer
                     (jpegTextPipeline q (calcDateInfo (host env) today) path font)])) /\
  WithText.handler env q w = WithText.handler env (withFormat q None) w /\
  Plain.handler env q w = Plain.handler env (withFormat q None) w /\
  (statusOf (fst (Plain.handler env q w)) = 400
   <-> isFalsy (getProperty (modelOf q)) = true) /\
  (statusOf (fst (WithText.handler env q w)) = 400
   <-> isFalsy (getProperty (modelOf q)) = true) /\
  (forall s hs b,
     fst (WithText.handler env q w) = Image s hs b \/
     fst (Plain.handler env q w) = Image s hs b ->
     header "Content-Type" (Image s hs b) = Some "image/jpeg") /\
  (forall p,
     SharpToBuffer p ∈ events (snd (WithText.handler env q w)) \/
     SharpToBuffer p ∈ events (snd (Plain.handler env q w)) ->
     SharpToBuffer p ∈ events w \/ encoder p = Jpeg 92 true).
Proof.
  intros Hf. destruct (not_png_is_jpeg q Hf) as [He Hc].
  destruct (jpeg_pipelines q Hf) as [Pp Pt].
  split; [exact He | split; [exact Hc |]].
  assert (He0 : encoderFor (formatOf q) = encoderFor (formatOf (withFormat q None)))
    by (rewrite He; reflexivity).
  assert (Hc0 : contentTypeFor (formatOf q) = contentTypeFor (formatOf (withFormat q None)))
    by (rewrite Hc; reflexivity).
  split; [| split; [| split; [| split; [| split; [| split; [| split]]]]]].
  - intros today evs path buf Hm Hp Hch Hs.
    rewrite (Plain_run env q w today evs Hm Hp), Hch, Pp, Hs.
    unfold plainImage. rewrite Hc. reflexivity.
  - intros today evs path font w3 buf Hm Hp Hch Hfont Hs.
    rewrite (WithText_run env q w today evs Hm Hp), Hch, Hfont, Pt, Hs.
    unfold textImage. rewrite Hc. reflexivity.
  - unfold WithText.handler, WithText.handlerBody.
    fold (formatOf q). fold (formatOf (withFormat q None)).
    rewrite <- He0, <- Hc0. reflexivity.
  - unfold Plain.handler, Plain.handlerBody.
    fold (formatOf q). fold (formatOf (withFormat q None)).
    rewrite <- He0, <- Hc0. reflexivity.
  - destruct (isFalsy (getProperty (modelOf q))) eqn:Hm.
    + rewrite (Plain_unknown_model env q w Hm). split; reflexivity.
    + destruct (accepted_model_status env q w Hm) as [_ [H | H]]; rewrite H;
        split; discriminate.
  - destruct (isFalsy (getProperty (modelOf q))) eqn:Hm.
    + rewrite (WithText_unknown_model env q w Hm). split; reflexivity.
    + destruct (accepted_model_status env q w Hm) as [[H | H] _]; rewrite H;
        split; discriminate.
  - intros s hs b [H | H]; rewrite <- Hc.
    + destruct (isFalsy (getProperty (modelOf q))) eqn:Hm.
      * rewrite (WithText_unknown_model env q w Hm) in H. discriminate.
      * destruct (parseDateInTz_run env (q_date q) (q_tz q) w) as (today & evs & Hp & _).
        rewrite (WithText_run env q w today evs Hm Hp) in H.
        destruct (chosenOverlay env _); [| discriminate].
        destruct (WithText.getFontBase64 env _) as [[font | e] w3]; [| discriminate].
        cbn [fst] in H.
        eapply header_content_type; [| exact H]. intros buf. reflexivity.
    + destruct (isFalsy (getProperty (modelOf q))) eqn:Hm.
      * rewrite (Plain_unknown_model env q w Hm) in H. discriminate.
      * destruct (parseDateInTz_run env (q_date q) (q_tz q) w) as (today & evs & Hp & _).
        rewrite (Plain_run env q w today evs Hm Hp) in H.
        destruct (chosenOverlay env _); [| discriminate].
        cbn [fst] in H.
        eapply header_content_type; [| exact H]. intros buf. reflexivity.
  - intros p [Hin | Hin]; rewrite <- He.
    + exact (WithText_sharp_encoder env q w p Hin).
    + exact (Plain_sharp_encoder env q w p Hin).
Qed.

Lemma C10_any_other_format_is_jpeg_witness :
  Plain.handler deployment (query None (Some "2024-03-09") (Some "webp") None) initialWorld
  = (Image 200
       [("Content-Type", "image/jpeg");
        ("Cache-Control", "no-store, no-cache, must-revalidate");
        ("X-Day-Of-Year", "69")]
       "image of /var/task/public/overlays/day-069.png",
     logged initialWorld
       [ExistsSync "/var/task/public/overlays/day-069.png";
        ExistsSync "/var/task/public/overlays/day-069.png";
        SharpToBuffer
          {| input := "/var/task/public/overlays/day-069.png";
             resizeWidth := Some 1290; resizeHeight := Some 2796;
             composite := []; encoder := Jpeg 92 true |}]) /\
  fst (WithText.handler deployment (query None (Some "2024-03-09") (Some "webp") None)
         initialWorld)
  = Image 200
      [("Content-Type", "image/jpeg");
       ("Cache-Control", "no-store, no-cache, must-revalidate");
       ("X-Day-Of-Year", "69"); ("X-Days-Left", "297"); ("X-Year-Percent", "18.9")]
      "image of /var/task/public/overlays/day-069.png" /\
  WithText.handler deployment (query None None (Some "webp") None) initialWorld
    = WithText.handler deployment (query None None None None) initialWorld /\
  Plain.handler deployment (query None None (Some "webp") None) initialWorld
    = Plain.handler deployment (query None None None None) initialWorld.
Proof.
  assert (H : forall d, q_format (query None d (Some "webp") None) <> Some "png")
    by (intros d; cbn; congruence).
  destruct (C10_any_other_format_is_jpeg deployment
              (query None (Some "2024-03-09") (Some "webp") None) initialWorld
              (H _)) as (_ & _ & P & T & _).
  destruct (C10_any_other_format_is_jpeg deployment (query None None (Some "webp") None)
              initialWorld (H _)) as (_ & _ & _ & _ & E1 & E2 & _).
  split; [| split; [| split; [exact E1 | exact E2]]].
  - exact (P (Date.civil utcHost 2024 3 9) [] "/var/task/public/overlays/day-069.png"
             "image of /var/task/public/overlays/day-069.png"
             eq_refl eq_refl ltac:(vm_compute; reflexivity) eq_refl).
  - rewrite (T (Date.civil utcHost 2024 3 9) [] "/var/task/public/overlays/day-069.png"
               "T1RUTwAJAIAAAwAQ"
               {| _fontBase64 := Some "T1RUTwAJAIAAAwAQ";
                  events := [ExistsSync "/var/task/public/overlays/day-069.png";
                             ExistsSync "/var/task/public/overlays/day-069.png";
                             ReadFont] |}
               "image of /var/task/public/overlays/day-069.png"
               eq_refl eq_refl ltac:(vm_compute; reflexivity)
               ltac:(vm_compute; reflexivity) eq_refl).
    vm_compute. reflexivity.
Defined.

(* ===================================================================== *)
(** ** Digits written and read back                                       *)
(* ===================================================================== *)

Ltac eval_digit :=
  match goal with
  | |- context [digitValue ?c] =>
      let v := eval vm_compute in (digitValue c) in change (digitValue c) with v
  end.

Lemma digitsValue_uint_acc u p :
  digitsValue (DecimalString.NilEmpty.string_of_uint u) (Zpos p)
  = Some (Zpos (Pos.of_uint_acc u p)).
Proof.
  revert p.
  induction u; intros p;
    cbn [DecimalString.NilEmpty.string_of_uint digitsValue Pos.of_uint_acc];
    try reflexivity; eval_digit; cbv iota; rewrite <- IHu; f_equal; lia.
Qed.

Lemma digitsValue_uint u :
  digitsValue (DecimalString.NilEmpty.string_of_uint u) 0 = Some (Z.of_N (Pos.of_uint u)).
Proof.
  induction u; cbn [DecimalString.NilEmpty.string_of_uint digitsValue Pos.of_uint];
    try reflexivity; eval_digit; cbv iota;
    first [exact IHu | apply digitsValue_uint_acc].
Qed.

Lemma allDigits_uint u : allDigits (DecimalString.NilEmpty.string_of_uint u) = true.
Proof.
  induction u; cbn [DecimalString.NilEmpty.string_of_uint allDigits];
    try reflexivity; eval_digit; exact IHu.
Qed.

Lemma stringOfZ_nonneg z :
  0 <= z -> allDigits (F.stringOfZ z) = true /\ digitsValue (F.stringOfZ z) 0 = Some z.
Proof.
  intros Hz. unfold F.stringOfZ. destruct z as [| p | p]; [split; reflexivity | | lia].
  cbn [Z.to_int DecimalString.NilZero.string_of_int].
  pose proof (DecimalPos.Unsigned.of_to p) as E.
  unfold DecimalString.NilZero.string_of_uint.
  destruct (Pos.to_uint p) eqn:Hu; try discriminate E;
    (split; [apply allDigits_uint | rewrite digitsValue_uint, E; reflexivity]).
Qed.

Lemma stringOfZ_negative z : z < 0 -> allDigits (F.stringOfZ z) = false.
Proof.
  intros Hz. destruct z as [| p | p]; try lia. reflexivity.
Qed.

Lemma append_cons c (s t : string) : String c s +:+ t = String c (s +:+ t).
Proof. reflexivity. Qed.

Lemma digitsValue_zeros k s :
  digitsValue (repeatChar k "0" +:+ s) 0 = digitsValue s 0.
Proof.
  induction k; [reflexivity |].
  cbn [repeatChar]. rewrite append_cons. exact IHk.
Qed.

Lemma allDigits_app s t : allDigits (s +:+ t) = allDigits s && allDigits t.
Proof.
  induction s as [| c s IH]; [reflexivity |].
  rewrite append_cons. cbn [allDigits].
  destruct (digitValue c); [exact IH | reflexivity].
Qed.

Lemma allDigits_zeros k : allDigits (repeatChar k "0") = true.
Proof. induction k; [reflexivity | exact IHk]. Qed.

(** [Number] reads back what [String] and [padStart] wrote. *)
Lemma Number_padded n z :
  0 <= z ->
  Number (padStart n "0" (F.stringOfZ z)) = Num z /\
  allDigits (padStart n "0" (F.stringOfZ z)) = true.
Proof.
  intros Hz. destruct (stringOfZ_nonneg z Hz) as [Ha Hv].
  unfold Number, padStart. rewrite digitsValue_zeros.
  rewrite Hv, allDigits_app, allDigits_zeros, Ha. split; reflexivity.
Qed.

Lemma split_digits s : allDigits s = true -> split "-" s = [s].
Proof.
  induction s as [| c s IH]; [reflexivity |]. cbn [allDigits split].
  destruct (digitValue c) eqn:Hc; [| discriminate]. intros H.
  destruct (Ascii.eqb_spec c "-") as [-> | _]; [discriminate Hc |].
  rewrite (IH H). reflexivity.
Qed.

Lemma split_digits_app s t :
  allDigits s = true -> split "-" (s +:+ "-" +:+ t) = s :: split "-" t.
Proof.
  induction s as [| c s IH]; [reflexivity |]. rewrite append_cons. cbn [allDigits split].
  destruct (digitValue c) eqn:Hc; [| discriminate]. intros H.
  destruct (Ascii.eqb_spec c "-") as [-> | _]; [discriminate Hc |].
  rewrite (IH H). reflexivity.
Qed.

Lemma writtenDate_nonempty wy wm wd y m d :
  0 <= y -> truthy (Some (writtenDate wy wm wd y m d)) = true.
Proof.
  intros Hy. unfold writtenDate.
  destruct (padStart wy "0" (F.stringOfZ y)) eqn:E; [| reflexivity].
  reflexivity.
Qed.

Lemma writtenDate_numbers wy wm wd y m d :
  0 <= y -> 0 <= m -> 0 <= d ->
  List.map Number (split "-" (writtenDate wy wm wd y m d)) = [Num y; Num m; Num d].
Proof.
  intros Hy Hm Hd. unfold writtenDate.
  destruct (Number_padded wy y Hy) as [Ny Ay].
  destruct (Number_padded wm m Hm) as [Nm Am].
  destruct (Number_padded wd d Hd) as [Nd Ad].
  rewrite (split_digits_app _ _ Ay), (split_digits_app _ _ Am), (split_digits _ Ad).
  cbn [List.map]. rewrite Ny, Nm, Nd. reflexivity.
Qed.

(* ===================================================================== *)
(** ** The calendar resolver, further                                     *)
(* ===================================================================== *)

(** X1: a non-empty date override is all the resolver looks at: the time
    zone, the clock and [Intl] play no part, nothing outside the process is
    called, and the world is left as it was. *)
Theorem X1_override_takes_precedence env env' dateStr tz tz' w :
  truthy dateStr = true -> host env = host env' ->
  parseDateInTz env dateStr tz w = parseDateInTz env' dateStr tz' w /\
  snd (parseDateInTz env dateStr tz w) = w /\
  exists today, fst (parseDateInTz env dateStr tz w) = Normal today.
Proof.
  intros Ht Hh. unfold parseDateInTz.
  destruct dateStr as [[| ch str] |]; try discriminate.
  rewrite Hh. repeat split. eexists. reflexivity.
Qed.

Lemma X1_override_takes_precedence_witness :
  parseDateInTz deployment (Some "2024-03-09") (Some "Asia/Dubai") initialWorld
    = parseDateInTz deployment (Some "2024-03-09") None initialWorld /\
  snd (parseDateInTz deployment (Some "2024-03-09") (Some "Asia/Dubai") initialWorld)
    = initialWorld.
Proof.
  destruct (X1_override_takes_precedence deployment deployment (Some "2024-03-09")
              (Some "Asia/Dubai") None initialWorld eq_refl eq_refl) as [H1 [H2 _]].
  split; assumption.
Defined.

(** X2: a date written as digits year-month-day, with any zero padding, is
    read back field by field: the resolver returns [new Date(y, m - 1, d)],
    which for a civil date of a year from 100 on is local midnight of that
    date. *)
Theorem X2_written_date_is_read_back env wy wm wd y m d tz w :
  0 <= y -> 0 <= m -> 0 <= d ->
  parseDateInTz env (Some (writtenDate wy wm wd y m d)) tz w
    = (Normal (Date.new (host env) (Num y) (Num (m - 1)) (Num d)), w) /\
  (100 <= y ->
   parseDateInTz env (Some (writtenDate wy wm wd y m d)) tz w
     = (Normal (Date.civil (host env) y m d), w)).
Proof.
  intros Hy Hm Hd.
  assert (E : parseDateInTz env (Some (writtenDate wy wm wd y m d)) tz w
              = (Normal (Date.new (host env) (Num y) (Num (m - 1)) (Num d)), w)).
  { unfold parseDateInTz.
    pose proof (writtenDate_nonempty wy wm wd y m d Hy) as Hne.
    destruct (writtenDate wy wm wd y m d) as [| ch str] eqn:Hs; [discriminate |].
    rewrite <- Hs, writtenDate_numbers by assumption. reflexivity. }
  split; [exact E |].
  intros H100. rewrite E. do 2 f_equal.
  apply (new_civil (host env) y m d). lia.
Qed.

Lemma X2_written_date_is_read_back_witness :
  parseDateInTz deployment (Some (writtenDate 4 2 2 2024 3 9)) None initialWorld
    = (Normal (Date.civil utcHost 2024 3 9), initialWorld).
Proof.
  destruct (X2_written_date_is_read_back deployment 4 2 2 2024 3 9 None initialWorld)
    as [_ H]; try lia.
  apply H. lia.
Defined.

(** X3: the override is not checked against the calendar.  A day number
    past the end of its month (or 0) is counted on from the first of the
    month: as long as the result stays inside the year, the resolver
    returns the [Date] of the civil date with that day index, and the
    metrics are those of that date. *)
Theorem X3_day_overflow_rolls_over env c wy wm wd Y m d tz w :
  fixedOffset (host env) c -> Z.abs c <= ES.msPerDay ->
  yearRange Y -> 100 <= Y -> 1 <= m <= 12 -> 0 <= d ->
  0 <= dayIndex Y m d < ES.DaysInYear Y ->
  exists today,
    parseDateInTz env (Some (writtenDate wy wm wd Y m d)) tz w = (Normal today, w) /\
    dayOfYear (calcDateInfo (host env) today) = Num (dayIndex Y m d + 1) /\
    daysLeft (calcDateInfo (host env) today) = Num (yearLength Y - (dayIndex Y m d + 1)) /\
    (forall m' d', civilDate Y m' d' -> dayIndex Y m' d' = dayIndex Y m d ->
                   today = Date.civil (host env) Y m' d').
Proof.
  intros Hf Hc HY H100 Hm Hd Hk.
  destruct (X2_written_date_is_read_back env wy wm wd Y m d tz w) as [E _]; try lia.
  exists (Num (midnight Y (dayIndex Y m d) c)).
  assert (En : Date.new (host env) (Num Y) (Num (m - 1)) (Num d)
               = Num (midnight Y (dayIndex Y m d) c)).
  { apply new_midnight; try assumption; lia. }
  rewrite E, En. split; [reflexivity |].
  rewrite calcDateInfo_midnight by (assumption || lia).
  split; [reflexivity | split; [reflexivity |]].
  intros m' d' Hciv Hidx. rewrite (civil_midnight (host env) c Y m' d') by assumption.
  rewrite Hidx. reflexivity.
Qed.

Lemma X3_day_overflow_rolls_over_witness :
  exists today,
    parseDateInTz deployment (Some (writtenDate 4 2 2 2024 2 30)) None initialWorld
      = (Normal today, initialWorld) /\
    dayOfYear (calcDateInfo utcHost today) = Num 61 /\
    today = Date.civil utcHost 2024 3 1.
Proof.
  destruct (X3_day_overflow_rolls_over deployment 0 4 2 2 2024 2 30 None initialWorld)
    as (today & H1 & H2 & _ & H4).
  - exact utcHost_fixed.
  - vm_compute. discriminate.
  - unfold yearRange. lia.
  - lia.
  - lia.
  - lia.
  - vm_compute. split; congruence.
  - exists today. split; [exact H1 | split; [exact H2 |]].
    apply H4; [unfold civilDate, daysInMonth; lia | reflexivity].
Defined.

(** X4: with no override, when [Intl] accepts the zone but its parts lack a
    year, a month or a day, the [TypeError] of reading the missing part is
    caught like the rejection of a zone: the resolver returns UTC today. *)
Theorem X4_missing_part_gives_utc_today env dateStr zc zone parts w :
  truthy dateStr = false ->
  intlFormatToParts env (String zc zone) (clock env) = Normal parts ->
  List.find (fun p => String.eqb (fst p) "year") parts = None \/
  List.find (fun p => String.eqb (fst p) "month") parts = None \/
  List.find (fun p => String.eqb (fst p) "day") parts = None ->
  parseDateInTz env dateStr (Some (String zc zone)) w
    = (Normal (utcToday (clock env)), logged w [ReadClock; FormatToParts (String zc zone)]).
Proof.
  intros Hd Hi Hmiss. unfold parseDateInTz.
  assert (Hbody :
    (do _ <- emit ReadClock;
     do early <- tryCatch (do d <- todayInZone env (String zc zone) (clock env); ret (Some d))
                          (fun _ => ret None);
     match early with
     | Some d => ret d
     | None => ret (utcToday (clock env))
     end) w
    = (Normal (utcToday (clock env)), logged w [ReadClock; FormatToParts (String zc zone)])).
  { unfold bind, emit, tryCatch, todayInZone, liftCompletion, ret, get, throw, logged. cbn.
    rewrite Hi, <- app_assoc. cbn.
    destruct (List.find (fun p => String.eqb (fst p) "year") parts) eqn:Ey;
      [| reflexivity].
    destruct (List.find (fun p => String.eqb (fst p) "month") parts) eqn:Em;
      [| reflexivity].
    destruct (List.find (fun p => String.eqb (fst p) "day") parts) eqn:Ed;
      [| reflexivity].
    destruct Hmiss as [H | [H | H]]; discriminate. }
  destruct dateStr as [[| ch str] |]; try discriminate; exact Hbody.
Qed.

Lemma X4_missing_part_gives_utc_today_witness :
  parseDateInTz deploymentWithYearOnly None (Some "Asia/Dubai") initialWorld
  = (Normal (utcToday (clock deploymentWithYearOnly)),
     logged initialWorld [ReadClock; FormatToParts "Asia/Dubai"]).
Proof.
  apply (X4_missing_part_gives_utc_today deploymentWithYearOnly None "A" "sia/Dubai"
           [("year", "2024"); ("literal", "-")] initialWorld).
  - reflexivity.
  - reflexivity.
  - right. left. reflexivity.
Defined.

(** X5: with no override, when [Intl] reports a year, a month and a day for
    the zone, the resolver returns [new Date(year, month - 1, day)] of the
    numbers read from them, after reading the clock and asking [Intl] once;
    for a civil date of a year from 100 on, written in digits, that is
    local midnight (of the host) of the zone's date. *)
Theorem X5_zone_date_is_used env dateStr zc zone parts py pm pd w :
  truthy dateStr = false ->
  intlFormatToParts env (String zc zone) (clock env) = Normal parts ->
  List.find (fun p => String.eqb (fst p) "year") parts = Some py ->
  List.find (fun p => String.eqb (fst p) "month") parts = Some pm ->
  List.find (fun p => String.eqb (fst p) "day") parts = Some pd ->
  parseDateInTz env dateStr (Some (String zc zone)) w
    = (Normal (Date.new (host env) (Number (snd py)) (jsSub (Number (snd pm)) (Num 1))
                 (Number (snd pd))),
       logged w [ReadClock; FormatToParts (String zc zone)]) /\
  (forall wy wm wd Y m d,
     100 <= Y -> 0 <= m -> 0 <= d ->
     snd py = padStart wy "0" (F.stringOfZ Y) ->
     snd pm = padStart wm "0" (F.stringOfZ m) ->
     snd pd = padStart wd "0" (F.stringOfZ d) ->
     fst (parseDateInTz env dateStr (Some (String zc zone)) w)
       = Normal (Date.civil (host env) Y m d)).
Proof.
  intros Hd Hi Ey Em Ed.
  assert (E : parseDateInTz env dateStr (Some (String zc zone)) w
    = (Normal (Date.new (host env) (Number (snd py)) (jsSub (Number (snd pm)) (Num 1))
                 (Number (snd pd))),
       logged w [ReadClock; FormatToParts (String zc zone)])).
  { unfold parseDateInTz.
    destruct dateStr as [[| ch str] |]; try discriminate;
      unfold bind, emit, tryCatch, todayInZone, liftCompletion, ret, get, throw, logged;
      cbn; rewrite Hi, <- app_assoc; cbn; rewrite Ey, Em, Ed; reflexivity. }
  split; [exact E |].
  intros wy wm wd Y m d HY Hm Hdd Sy Sm Sd. rewrite E. cbn [fst].
  rewrite Sy, Sm, Sd.
  destruct (Number_padded wy Y ltac:(lia)) as [-> _].
  destruct (Number_padded wm m Hm) as [-> _].
  destruct (Number_padded wd d Hdd) as [-> _].
  f_equal. apply new_civil. lia.
Qed.

Lemma X5_zone_date_is_used_witness :
  fst (parseDateInTz deployment None (Some "UTC") initialWorld)
    = Normal (Date.civil utcHost 2024 12 31).
Proof.
  assert (Hi : intlFormatToParts deployment "UTC" (clock deployment)
               = Normal (utcParts (clock deployment))) by reflexivity.
  destruct (X5_zone_date_is_used deployment None "U" "TC" (utcParts (clock deployment))
              ("year", "2024") ("month", "12") ("day", "31") initialWorld
              eq_refl Hi eq_refl eq_refl eq_refl) as [_ H].
  apply (H 0%nat 2%nat 2%nat 2024 12 31); (lia || reflexivity).
Defined.

(* ===================================================================== *)
(** ** Day metrics, further                                               *)
(* ===================================================================== *)

(** [calcDateInfo] for a [Date] that is [r] milliseconds after local
    midnight of day [k] of year [Y]: the day of year does not depend on the
    time of day, but [daysLeft] loses a day as soon as [r] is positive. *)
Lemma calcDateInfo_after_midnight host c Y k r :
  fixedOffset host c -> Z.abs c <= ES.msPerDay -> yearRange Y -> ~ (0 <= Y <= 99) ->
  0 <= k < ES.DaysInYear Y -> 0 <= r < ES.msPerDay ->
  Date.getFullYear host (Num (midnight Y k c + r)) = Num Y /\
  dayOfYear (calcDateInfo host (Num (midnight Y k c + r))) = Num (k + 1) /\
  daysLeft (calcDateInfo host (Num (midnight Y k c + r)))
    = Num (yearLength Y - (k + 1) - (if r =? 0 then 0 else 1)).
Proof.
  intros Hf Hc HY H99 Hk Hr.
  assert (Hy : Date.getFullYear host (Num (midnight Y k c + r)) = Num Y).
  { unfold Date.getFullYear, Date.LocalTime, ES.YearFromTime, midnight.
    destruct (Hf ((ES.DayFromYear Y + k) * ES.msPerDay - c + r)) as [-> _].
    replace (ES.Day ((ES.DayFromYear Y + k) * ES.msPerDay - c + r + c))
      with (ES.DayFromYear Y + k)
      by (unfold ES.Day, ES.msPerDay in *; zlia).
    rewrite yearOfDay_within by assumption. reflexivity. }
  split; [exact Hy |].
  unfold calcDateInfo. rewrite Hy.
  rewrite (new_jan1 host c Y Hf Hc HY H99), (new_dec31 host c Y Hf Hc HY H99).
  cbn [dayOfYear daysLeft]. rewrite yearLength_DaysInYear.
  unfold jsAdd, floorDiv, jsSub, midnight, ES.msPerDay in *.
  split; f_equal; destruct (Z.eqb_spec r 0); zlia.
Qed.

(** X6: the date of the UTC fallback is midnight UTC, while [calcDateInfo]
    measures from local midnights of the host.  On a UTC host the default
    request gets the UTC day of year and [dayOfYear + daysLeft] is the
    length of the year; on a host at any other fixed offset the year and
    day of year are those of the host's local date at that instant, and
    [daysLeft] is one day short: [dayOfYear + daysLeft] is the length of the
    year minus one. *)
Theorem X6_utc_fallback_metrics host c now :
  fixedOffset host c -> Z.abs c < ES.msPerDay ->
  ES.msPerDay <= now < ES.TimeFromYear 275760 - ES.msPerDay ->
  exists Y n,
    Date.getFullYear host (utcToday now) = Num Y /\
    1 <= n <= yearLength Y /\
    dayOfYear (calcDateInfo host (utcToday now)) = Num n /\
    daysLeft (calcDateInfo host (utcToday now))
      = Num (yearLength Y - n - (if c =? 0 then 0 else 1)) /\
    Y = ES.YearFromTime (ES.msPerDay * ES.Day now + c) /\
    n = ES.DayWithinYear (ES.msPerDay * ES.Day now + c) + 1.
Proof.
  intros Hf Hc Hn.
  assert (Hmax : ES.TimeFromYear 275760 = 8639977881600000) by reflexivity.
  rewrite Hmax in Hn.
  rewrite utcToday_value by (unfold ES.maxTime, ES.msPerDay in *; lia).
  set (D := ES.Day now) in *.
  set (D' := D + c / ES.msPerDay).
  set (r := c mod ES.msPerDay).
  set (Y := ES.yearOfDay D').
  set (k := D' - ES.DayFromYear Y).
  assert (HD : 1 <= D < 99999744 - 1) by (unfold D, ES.Day, ES.msPerDay in *; zlia).
  assert (HD' : 0 <= D' < 99999744 - 1) by (unfold D', ES.msPerDay in *; zlia).
  assert (Hr : 0 <= r < ES.msPerDay) by (unfold r, ES.msPerDay; zlia).
  pose proof (yearOfDay_spec D') as S. fold Y in S. rewrite DayFromYear_succ in S.
  assert (Hk : 0 <= k < ES.DaysInYear Y) by (unfold k; lia).
  assert (HYlo : 1970 <= Y).
  { destruct (Z.lt_ge_cases Y 1970) as [L | G]; [| exact G].
    pose proof (DayFromYear_mono (Y + 1) 1970 ltac:(lia)) as M.
    rewrite DayFromYear_succ in M. change (ES.DayFromYear 1970) with 0 in M. lia. }
  assert (HYhi : Y <= 275759).
  { destruct (Z.lt_ge_cases 275759 Y) as [G | L]; [| lia].
    pose proof (DayFromYear_mono 275760 Y ltac:(lia)) as M.
    change (ES.DayFromYear 275760) with 99999744 in M. lia. }
  assert (Et : ES.msPerDay * D = midnight Y k c + r).
  { unfold midnight, k, D', r, ES.msPerDay. zlia. }
  assert (Eloc : ES.Day (ES.msPerDay * D + c) = D').
  { unfold D', ES.Day, ES.msPerDay. zlia. }
  destruct (calcDateInfo_after_midnight host c Y k r Hf ltac:(lia)
              ltac:(unfold yearRange; lia) ltac:(lia) Hk Hr) as (Hy & Hd & Hl).
  exists Y, (k + 1). rewrite Et, Hy, Hd, Hl.
  rewrite yearLength_DaysInYear.
  repeat split; try lia.
  - do 2 f_equal. unfold r, ES.msPerDay in *.
    destruct (Z.eqb_spec (c mod 86400000) 0), (Z.eqb_spec c 0); try reflexivity; zlia.
  - unfold ES.YearFromTime. rewrite <- Et, Eloc. reflexivity.
  - unfold ES.DayWithinYear, ES.YearFromTime. rewrite <- Et, Eloc. fold Y. unfold k. lia.
Qed.

Lemma X6_utc_fallback_metrics_witness :
  exists Y n,
    Date.getFullYear utcHost (utcToday (clock deployment)) = Num Y /\
    1 <= n <= yearLength Y /\
    dayOfYear (calcDateInfo utcHost (utcToday (clock deployment))) = Num n /\
    daysLeft (calcDateInfo utcHost (utcToday (clock deployment)))
      = Num (yearLength Y - n - 0).
Proof.
  destruct (X6_utc_fallback_metrics utcHost 0 (clock deployment))
    as (Y & n & H1 & H2 & H3 & H4 & _).
  - exact utcHost_fixed.
  - vm_compute. reflexivity.
  - vm_compute. split; [discriminate | reflexivity].
  - exists Y, n. repeat split; try assumption; lia.
Defined.

Lemma percentOk_table n len :
  len = 365 \/ len = 366 -> 1 <= n <= len -> percentOk n len = true.
Proof.
  intros Hlen Hn.
  assert (T : forallb (fun i => percentOk i 365 && percentOk i 366) (seqZ 1 365) = true)
    by (vm_compute; reflexivity).
  assert (T366 : percentOk 366 366 = true) by (vm_compute; reflexivity).
  destruct (Z.eq_dec n 366) as [-> | Hne].
  - destruct Hlen as [-> | ->]; [lia | exact T366].
  - rewrite forallb_forall in T. specialize (T n).
    rewrite <- list_elem_of_In, elem_of_seqZ, andb_true_iff in T.
    destruct (T ltac:(lia)) as [T5 T6]. destruct Hlen as [-> | ->]; assumption.
Qed.

(** X7: for every civil date (host at a fixed offset, year in range and not
    0..99) the percentage string has the form digits, point, one digit; the
    number it prints is the exact percentage [100 * dayOfYear / daysInYear]
    rounded to the nearest tenth and lies between 0.3 and 100.0; on 31
    December it is 100.0. *)
Theorem X7_percent_is_rounded_to_a_tenth host c Y m d :
  fixedOffset host c -> Z.abs c <= ES.msPerDay ->
  yearRange Y -> ~ (0 <= Y <= 99) -> civilDate Y m d ->
  (exists n t,
     dayOfYear (calcDateInfo host (Date.civil host Y m d)) = Num n /\
     tenthsOf (percent (calcDateInfo host (Date.civil host Y m d))) = Some t /\
     2 * Z.abs (t * yearLength Y - 1000 * n) <= yearLength Y /\
     3 <= t <= 1000) /\
  percent (calcDateInfo host (Date.civil host Y 12 31)) = "100.0".
Proof.
  intros Hf Hc HY H99 Hciv.
  assert (C2 : civilDate Y 12 31) by (unfold civilDate, daysInMonth; lia).
  pose proof (dayIndex_bounds Y m d Hciv) as B.
  pose proof (dayIndex_bounds Y 12 31 C2) as B2.
  rewrite !(civil_midnight host c Y m d), !(civil_midnight host c Y 12 31) by assumption.
  rewrite !calcDateInfo_midnight by assumption.
  cbn [dayOfYear percent].
  assert (Hlen : yearLength Y = 365 \/ yearLength Y = 366)
    by (unfold yearLength; destruct (isLeap (Num Y)); auto).
  split.
  - assert (Hb : 1 <= dayIndex Y m d + 1 <= yearLength Y)
      by (rewrite yearLength_DaysInYear; lia).
    pose proof (percentOk_table (dayIndex Y m d + 1) (yearLength Y) Hlen Hb) as T.
    unfold percentOk in T.
    destruct (tenthsOf _) as [t |]; [| discriminate].
    rewrite !andb_true_iff, !Z.leb_le in T. destruct T as [[T1 T2] T3].
    exists (dayIndex Y m d + 1), t. repeat split; try reflexivity; assumption.
  - assert (E2 : dayIndex Y 12 31 + 1 = yearLength Y).
    { rewrite yearLength_DaysInYear. unfold dayIndex.
      change (12 - 1) with 11. cbn [ES.monthStart].
      pose proof (leapFlag_DaysInYear Y). lia. }
    rewrite E2. destruct Hlen as [-> | ->]; vm_compute; reflexivity.
Qed.

Lemma X7_percent_is_rounded_to_a_tenth_witness :
  (exists n t,
     dayOfYear (calcDateInfo utcHost (Date.civil utcHost 2024 7 1)) = Num n /\
     tenthsOf (percent (calcDateInfo utcHost (Date.civil utcHost 2024 7 1))) = Some t /\
     2 * Z.abs (t * yearLength 2024 - 1000 * n) <= yearLength 2024 /\
     3 <= t <= 1000) /\
  percent (calcDateInfo utcHost (Date.civil utcHost 2024 12 31)) = "100.0".
Proof.
  apply (X7_percent_is_rounded_to_a_tenth utcHost 0 2024 7 1).
  - exact utcHost_fixed.
  - vm_compute. discriminate.
  - unfold yearRange. lia.
  - lia.
  - unfold civilDate, daysInMonth. lia.
Defined.

(* ===================================================================== *)
(** ** The handlers, further                                              *)
(* ===================================================================== *)

(** X8: the font is read at most once per process.  Once a call has
    returned a non-empty font it is cached: every later call returns that
    font and leaves the world as it is, whatever has become of the file.  A
    read that throws leaves the cache empty, so the next call reads again;
    an empty font is never cached as loaded and is read on every call. *)
Theorem X8_font_is_read_once env env' w font w1 :
  WithText.getFontBase64 env w = (Normal font, w1) -> font <> EmptyString ->
  WithText.getFontBase64 env' w1 = (Normal font, w1) /\
  _fontBase64 w1 = Some font /\
  (events w1 = events w \/ events w1 = events w ++ [ReadFont]) /\
  (forall w0 e, truthy (_fontBase64 w0) = false -> fontFile env' = Throw e ->
     WithText.getFontBase64 env' w0 = (Throw e, logged w0 [ReadFont])) /\
  (forall w0, truthy (_fontBase64 w0) = false -> fontFile env' = Normal EmptyString ->
     WithText.getFontBase64 env' w0
       = (Normal EmptyString,
          {| _fontBase64 := Some EmptyString; events := events w0 ++ [ReadFont] |}) /\
     truthy (Some EmptyString) = false).
Proof.
  intros Hg Hne. unfold WithText.getFontBase64 in *.
  assert (Hw1 : _fontBase64 w1 = Some font /\
                (events w1 = events w \/ events w1 = events w ++ [ReadFont])).
  { destruct (_fontBase64 w) as [[| ch cached] |] eqn:Ec; cbv zeta in Hg.
    - destruct (fontFile env); inversion Hg; subst; cbn; auto.
    - inversion Hg; subst. auto.
    - destruct (fontFile env); inversion Hg; subst; cbn; auto. }
  destruct Hw1 as [Ec1 Hev]. rewrite Ec1.
  destruct font as [| ch rest]; [congruence |].
  split; [reflexivity | split; [reflexivity | split; [exact Hev | split]]].
  - intros w0 e Ht He. unfold truthy in Ht. unfold logged.
    destruct (_fontBase64 w0) as [[| c0 s0] |]; try discriminate; rewrite He; reflexivity.
  - intros w0 Ht He. unfold truthy in Ht.
    destruct (_fontBase64 w0) as [[| c0 s0] |]; try discriminate; rewrite He;
      split; reflexivity.
Qed.

Lemma X8_font_is_read_once_witness :
  WithText.getFontBase64 deploymentWithYearOnly
    {| _fontBase64 := Some "T1RUTwAJAIAAAwAQ"; events := [ReadFont] |}
  = (Normal "T1RUTwAJAIAAAwAQ", {| _fontBase64 := Some "T1RUTwAJAIAAAwAQ"; events := [ReadFont] |}).
Proof.
  destruct (X8_font_is_read_once deployment deploymentWithYearOnly initialWorld
              "T1RUTwAJAIAAAwAQ"
              {| _fontBase64 := Some "T1RUTwAJAIAAAwAQ"; events := [ReadFont] |}
              eq_refl ltac:(discriminate)) as [H _].
  exact H.
Defined.

Lemma chosenOverlay_exists env d path :
  chosenOverlay env d = Some path ->
  fileExists env path = true /\ (path = overlayPathFor env d \/ path = day365Path env).
Proof.
  unfold chosenOverlay.
  destruct (fileExists env (overlayPathFor env d)) eqn:E1.
  - intros [= <-]. auto.
  - destruct (fileExists env (day365Path env)) eqn:E2; [| discriminate].
    intros [= <-]. auto.
Qed.

(** X9: the plain handler answers 400 exactly for a model the lookup
    rejects; 200 exactly when the model is accepted, an overlay is found and
    sharp delivers a buffer, and the body is then that buffer with the day
    of year in its header; 500 in the remaining cases, when no overlay is
    found or sharp throws. *)
Theorem X9_plain_status env q w today evs :
  parseDateInTz env (q_date q) (q_tz q) w = (Normal today, logged w evs) ->
  (statusOf (fst (Plain.handler env q w)) = 400
   <-> isFalsy (getProperty (modelOf q)) = true) /\
  (statusOf (fst (Plain.handler env q w)) = 200
   <-> isFalsy (getProperty (modelOf q)) = false /\
       exists path buf,
         chosenOverlay env (getDayOfYear (host env) today) = Some path /\
         sharpToBuffer env (plainPipeline q path) = Normal buf /\
         fst (Plain.handler env q w) = plainImage q (getDayOfYear (host env) today) buf) /\
  (statusOf (fst (Plain.handler env q w)) = 500
   <-> isFalsy (getProperty (modelOf q)) = false /\
       (chosenOverlay env (getDayOfYear (host env) today) = None \/
        exists path e,
          chosenOverlay env (getDayOfYear (host env) today) = Some path /\
          sharpToBuffer env (plainPipeline q path) = Throw e /\
          fst (Plain.handler env q w) = internalError e)).
Proof.
  intros Hp. destruct (isFalsy (getProperty (modelOf q))) eqn:Hm.
  - rewrite (Plain_unknown_model env q w Hm). cbn.
    repeat split; try (intros; reflexivity); try discriminate;
      intros [H _]; discriminate.
  - rewrite (Plain_run env q w today evs Hm Hp).
    destruct (chosenOverlay env (getDayOfYear (host env) today)) as [path |] eqn:Ec.
    + destruct (sharpToBuffer env (plainPipeline q path)) as [buf | e] eqn:Es; cbn.
      * split; [split; discriminate |]. split; split; try discriminate.
        -- intros _. split; [reflexivity |]. exists path, buf. auto.
        -- intros _. reflexivity.
        -- intros [_ [H | (p' & e & H & H' & _)]]; [discriminate |].
           injection H as <-. congruence.
      * split; [split; discriminate |]. split; split; try discriminate.
        -- intros [_ (p' & b & H & H' & _)]. injection H as <-. congruence.
        -- intros _. split; [reflexivity |]. right. exists path, e. auto.
        -- intros _. reflexivity.
    + cbn. split; [split; discriminate |]. split; split; try discriminate.
      * intros [_ (p' & b & H & _)]. discriminate.
      * intros _. split; [reflexivity |]. left. reflexivity.
      * intros _. reflexivity.
Qed.

Lemma X9_plain_status_witness :
  statusOf (fst (Plain.handler deployment (query None (Some "2024-03-09") None None)
                   initialWorld)) = 200
  <-> isFalsy (getProperty (modelOf (query None (Some "2024-03-09") None None))) = false /\
      exists path buf,
        chosenOverlay deployment (getDayOfYear utcHost (Date.civil utcHost 2024 3 9))
          = Some path /\
        sharpToBuffer deployment (plainPipeline (query None (Some "2024-03-09") None None) path)
          = Normal buf /\
        fst (Plain.handler deployment (query None (Some "2024-03-09") None None) initialWorld)
          = plainImage (query None (Some "2024-03-09") None None)
              (getDayOfYear utcHost (Date.civil utcHost 2024 3 9)) buf.
Proof.
  destruct (X9_plain_status deployment (query None (Some "2024-03-09") None None)
              initialWorld (Date.civil utcHost 2024 3 9) []) as [_ [H _]].
  - reflexivity.
  - exact H.
Defined.

(** X10: when the font cannot be read, the handler with the text layer
    answers 500 with the error's message, hands nothing to sharp and leaves
    the cache empty, so that the next request reads the file again.  With
    the font in the cache the file is not read at all: the run consists of
    the resolver's events, the two probes and one sharp run. *)
Theorem X10_font_failure env q w today evs path :
  isFalsy (getProperty (modelOf q)) = false ->
  parseDateInTz env (q_date q) (q_tz q) w = (Normal today, logged w evs) ->
  chosenOverlay env (dayOfYear (calcDateInfo (host env) today)) = Some path ->
  (forall e, truthy (_fontBase64 w) = false -> fontFile env = Throw e ->
     fst (WithText.handler env q w) = internalError e /\
     statusOf (fst (WithText.handler env q w)) = 500 /\
     sharpInputs (snd (WithText.handler env q w)) = sharpInputs w /\
     _fontBase64 (snd (WithText.handler env q w)) = _fontBase64 w) /\
  (forall font, _fontBase64 w = Some font -> font <> EmptyString ->
     WithText.handler env q w =
       (sent (mapCompletion (textImage q (calcDateInfo (host env) today))
                (sharpToBuffer env
                   (textPipeline q (calcDateInfo (host env) today) path font))),
        logged w (evs ++ probes env (dayOfYear (calcDateInfo (host env) today))
                      ++ [SharpToBuffer
                            (textPipeline q (calcDateInfo (host env) today) path font)]))).
Proof.
  intros Hm Hp Hc. rewrite (WithText_run env q w today evs Hm Hp), Hc. split.
  - intros e Ht He.
    assert (Hf : WithText.getFontBase64 env
                   (logged w (evs ++ probes env (dayOfYear (calcDateInfo (host env) today))))
                 = (Throw e,
                    logged (logged w (evs ++ probes env
                                        (dayOfYear (calcDateInfo (host env) today))))
                      [ReadFont])).
    { unfold WithText.getFontBase64, logged. cbn [_fontBase64 events].
      unfold truthy in Ht.
      destruct (_fontBase64 w) as [[| c0 s0] |]; try discriminate; rewrite He; reflexivity. }
    rewrite Hf. cbn [fst snd]. split; [reflexivity | split; [reflexivity | split]].
    + rewrite !sharpInputs_logged. cbn [omap]. rewrite omap_app.
      rewrite (resolver_events_no_sharp _ _ _ _ _ _ Hp). cbn. rewrite !app_nil_r.
      reflexivity.
    + reflexivity.
  - intros font Hf Hne. destruct font as [| ch rest]; [congruence |].
    unfold WithText.getFontBase64. cbn [logged _fontBase64]. rewrite Hf.
    unfold logged. cbn [_fontBase64 events]. rewrite <- !app_assoc. reflexivity.
Qed.

Lemma X10_font_failure_witness :
  fst (WithText.handler deploymentWithoutFont (query None (Some "2024-03-09") None None)
         initialWorld)
  = Json 500 [("error", "Internal server error");
              ("message", "ENOENT: no such file or directory, open SF-Pro-Display-Regular.otf")].
Proof.
  destruct (X10_font_failure deploymentWithoutFont (query None (Some "2024-03-09") None None)
              initialWorld (Date.civil utcHost 2024 3 9) []
              "/var/task/public/overlays/day-069.png"
              eq_refl eq_refl ltac:(vm_compute; reflexivity)) as [H _].
  destruct (H (SystemError "ENOENT: no such file or directory, open SF-Pro-Display-Regular.otf")
              eq_refl eq_refl) as [H1 _].
  exact H1.
Defined.

(** X11: the model reaches the response only through its width and
    height.  Two requests that differ in the model alone get the same
    answer and leave the same trace whenever both models are accepted and
    have the same dimensions: an absent model, default, iphone16pro and
    iphone14pro are one and the same request. *)
Theorem X11_model_only_sets_the_size env q q' w :
  q_date q = q_date q' -> q_format q = q_format q' -> q_tz q = q_tz q' ->
  isFalsy (getProperty (modelOf q)) = false ->
  isFalsy (getProperty (modelOf q')) = false ->
  dimensions (getProperty (modelOf q)) = dimensions (getProperty (modelOf q')) ->
  WithText.handler env q w = WithText.handler env q' w /\
  Plain.handler env q w = Plain.handler env q' w.
Proof.
  intros Hd Hf Ht Hm Hm' Hdim.
  destruct (parseDateInTz_run env (q_date q) (q_tz q) w) as (today & evs & Hp & _).
  assert (Hp' : parseDateInTz env (q_date q') (q_tz q') w = (Normal today, logged w evs))
    by (rewrite <- Hd, <- Ht; exact Hp).
  assert (HF : formatOf q = formatOf q') by (unfold formatOf; rewrite Hf; reflexivity).
  split.
  - rewrite (WithText_run env q w today evs Hm Hp),
            (WithText_run env q' w today evs Hm' Hp').
    unfold textPipeline, textImage. rewrite Hdim, HF. reflexivity.
  - rewrite (Plain_run env q w today evs Hm Hp), (Plain_run env q' w today evs Hm' Hp').
    unfold plainPipeline, plainImage. rewrite Hdim, HF. reflexivity.
Qed.

Lemma X11_model_only_sets_the_size_witness :
  (WithText.handler deployment (query None None (Some "png") None) initialWorld
   = WithText.handler deployment (query (Some "iphone14pro") None (Some "png") None)
       initialWorld /\
   Plain.handler deployment (query None None (Some "png") None) initialWorld
   = Plain.handler deployment (query (Some "iphone14pro") None (Some "png") None)
       initialWorld) /\
  (WithText.handler deployment (query (Some "default") None None None) initialWorld
   = WithText.handler deployment (query (Some "iphone16pro") None None None) initialWorld /\
   Plain.handler deployment (query (Some "default") None None None) initialWorld
   = Plain.handler deployment (query (Some "iphone16pro") None None None) initialWorld).
Proof.
  split.
  - apply (X11_model_only_sets_the_size deployment (query None None (Some "png") None)
             (query (Some "iphone14pro") None (Some "png") None) initialWorld);
      vm_compute; reflexivity.
  - apply (X11_model_only_sets_the_size deployment (query (Some "default") None None None)
             (query (Some "iphone16pro") None None None) initialWorld);
      vm_compute; reflexivity.
Defined.

(** X13: a request runs sharp at most once, and only on a file that
    [existsSync] has just found: the overlay of the day, or day-365.png.
    When the model is rejected, when neither file exists, and in the
    handler with the text layer when the font cannot be read, sharp is not
    run at all; otherwise it is run exactly once, on the file chosen. *)
Theorem X13_sharp_reads_an_existing_overlay env q w today evs :
  parseDateInTz env (q_date q) (q_tz q) w = (Normal today, logged w evs) ->
  (isFalsy (getProperty (modelOf q)) = true ->
   sharpInputs (snd (Plain.handler env q w)) = sharpInputs w /\
   sharpInputs (snd (WithText.handler env q w)) = sharpInputs w) /\
  (chosenOverlay env (getDayOfYear (host env) today) = None ->
   sharpInputs (snd (Plain.handler env q w)) = sharpInputs w /\
   sharpInputs (snd (WithText.handler env q w)) = sharpInputs w) /\
  (forall path,
     isFalsy (getProperty (modelOf q)) = false ->
     chosenOverlay env (getDayOfYear (host env) today) = Some path ->
     fileExists env path = true /\
     (path = overlayPathFor env (getDayOfYear (host env) today) \/
      path = day365Path env) /\
     sharpInputs (snd (Plain.handler env q w)) = sharpInputs w ++ [path] /\
     (fontAvailable env w ->
      sharpInputs (snd (WithText.handler env q w)) = sharpInputs w ++ [path]) /\
     (forall e, truthy (_fontBase64 w) = false -> fontFile env = Throw e ->
                sharpInputs (snd (WithText.handler env q w)) = sharpInputs w)).
Proof.
  intros Hp. pose proof (resolver_events_no_sharp _ _ _ _ _ _ Hp) as Hn.
  assert (Hrej : isFalsy (getProperty (modelOf q)) = true ->
                 sharpInputs (snd (Plain.handler env q w)) = sharpInputs w /\
                 sharpInputs (snd (WithText.handler env q w)) = sharpInputs w).
  { intros Hm.
    rewrite (Plain_unknown_model env q w Hm), (WithText_unknown_model env q w Hm).
    split; reflexivity. }
  split; [exact Hrej | split].
  - intros Hc. destruct (isFalsy (getProperty (modelOf q))) eqn:Hm; [exact (Hrej eq_refl) |].
    rewrite (Plain_run env q w today evs Hm Hp), (WithText_run env q w today evs Hm Hp).
    rewrite <- (getDayOfYear_calcDateInfo (host env) today), Hc. cbn [snd].
    rewrite sharpInputs_logged, !omap_app, Hn. cbn. rewrite app_nil_r.
    split; reflexivity.
  - intros path Hm Hc.
    destruct (chosenOverlay_exists env _ path Hc) as [Hex Hwhich].
    split; [exact Hex | split; [exact Hwhich |]].
    rewrite (Plain_run env q w today evs Hm Hp), (WithText_run env q w today evs Hm Hp).
    rewrite <- (getDayOfYear_calcDateInfo (host env) today), Hc. cbn [snd].
    split; [| split].
    + rewrite sharpInputs_logged, !omap_app, Hn. reflexivity.
    + intros Hav.
      assert (Hav' : fontAvailable env
                       (logged w (evs ++ probes env (getDayOfYear (host env) today))))
        by exact Hav.
      pose proof (getFontBase64_events env
                    (logged w (evs ++ probes env (getDayOfYear (host env) today)))) as Hf.
      destruct (getFontBase64_available env _ Hav') as (font & w3 & Hg).
      rewrite Hg in Hf |- *. cbn [snd] in Hf |- *.
      rewrite sharpInputs_logged, Hf, sharpInputs_logged, !omap_app, Hn.
      cbn. rewrite app_nil_r. reflexivity.
    + intros e Ht He.
      assert (Hg : WithText.getFontBase64 env
                     (logged w (evs ++ probes env (getDayOfYear (host env) today)))
                   = (Throw e,
                      logged (logged w (evs ++ probes env (getDayOfYear (host env) today)))
                        [ReadFont])).
      { unfold WithText.getFontBase64, logged. cbn [_fontBase64 events].
        unfold truthy in Ht.
        destruct (_fontBase64 w) as [[| c0 s0] |]; try discriminate; rewrite He;
          reflexivity. }
      rewrite Hg. cbn [snd]. rewrite !sharpInputs_logged, !omap_app, Hn.
      cbn. rewrite !app_nil_r. reflexivity.
Qed.

Lemma X13_sharp_reads_an_existing_overlay_witness :
  (sharpInputs (snd (Plain.handler deployment (query None (Some "2024-03-09") None None)
                       initialWorld))
   = ["/var/task/public/overlays/day-069.png"] /\
   sharpInputs (snd (WithText.handler deployment (query None (Some "2024-03-09") None None)
                       initialWorld))
   = ["/var/task/public/overlays/day-069.png"]) /\
  (sharpInputs (snd (WithText.handler deploymentWithoutFont
                       (query None (Some "2024-03-09") None None) initialWorld)) = []) /\
  (sharpInputs (snd (Plain.handler deployment
                       (query (Some "unknownmodel") (Some "2024-03-09") None None)
                       initialWorld)) = []).
Proof.
  destruct (X13_sharp_reads_an_existing_overlay deployment
              (query None (Some "2024-03-09") None None) initialWorld
              (Date.civil utcHost 2024 3 9) [] eq_refl) as (_ & _ & H).
  destruct (H "/var/task/public/overlays/day-069.png" eq_refl
              ltac:(vm_compute; reflexivity)) as (_ & _ & H1 & H2 & _).
  destruct (X13_sharp_reads_an_existing_overlay deploymentWithoutFont
              (query None (Some "2024-03-09") None None) initialWorld
              (Date.civil utcHost 2024 3 9) [] eq_refl) as (_ & _ & G).
  destruct (G "/var/task/public/overlays/day-069.png" eq_refl
              ltac:(vm_compute; reflexivity)) as (_ & _ & _ & _ & G1).
  destruct (X13_sharp_reads_an_existing_overlay deployment
              (query (Some "unknownmodel") (Some "2024-03-09") None None) initialWorld
              (Date.civil utcHost 2024 3 9) [] eq_refl) as (R & _).
  split; [split; [exact H1 | apply H2; right; eexists; reflexivity] | split].
  - exact (G1 _ eq_refl eq_refl).
  - exact (proj1 (R eq_refl)).
Defined.

Lemma RESOLUTIONS_lookup_None model :
  RESOLUTIONS !! model = None <-> model ∉ RESOLUTIONS_keys.
Proof.
  unfold RESOLUTIONS, RESOLUTIONS_keys. rewrite <- not_elem_of_list_to_map.
  reflexivity.
Qed.

Lemma getProperty_Undefined model :
  isFalsy (getProperty model) = true <->
  (model ∉ RESOLUTIONS_keys) /\ (model ∉ objectPrototypeKeys).
Proof.
  unfold getProperty. split.
  - destruct (RESOLUTIONS !! model) eqn:E; [discriminate |].
    destruct (bool_decide (model ∈ objectPrototypeKeys)) eqn:B; [discriminate |].
    intros _. split; [apply RESOLUTIONS_lookup_None, E |].
    apply bool_decide_eq_false in B. exact B.
  - intros [H1 H2]. apply RESOLUTIONS_lookup_None in H1. rewrite H1.
    rewrite (bool_decide_eq_false_2 _ H2). reflexivity.
Qed.

(** X14: the answer is 400 exactly when the model is neither one of the
    five names of the table nor a name found on [Object.prototype]; the
    body then names the model and lists the five valid values, and nothing
    else has happened: no clock read, no probe, no font read, no sharp
    run. *)
Theorem X14_rejected_models env q w :
  (statusOf (fst (Plain.handler env q w)) = 400
   <-> (modelOf q ∉ RESOLUTIONS_keys) /\ (modelOf q ∉ objectPrototypeKeys)) /\
  (statusOf (fst (WithText.handler env q w)) = 400
   <-> (modelOf q ∉ RESOLUTIONS_keys) /\ (modelOf q ∉ objectPrototypeKeys)) /\
  (statusOf (fst (Plain.handler env q w)) = 400 ->
   Plain.handler env q w
   = (Json 400 [("error", "Unsupported model: " +:+ modelOf q
                          +:+ ". Valid values: iphone16pro, iphone15, iphone14pro, iphone13, default")],
      w)) /\
  (statusOf (fst (WithText.handler env q w)) = 400 ->
   WithText.handler env q w
   = (Json 400 [("error", "Unsupported model: " +:+ modelOf q
                          +:+ ". Valid values: iphone16pro, iphone15, iphone14pro, iphone13, default")],
      w)).
Proof.
  rewrite <- getProperty_Undefined.
  destruct (isFalsy (getProperty (modelOf q))) eqn:Hm.
  - rewrite (Plain_unknown_model env q w Hm), (WithText_unknown_model env q w Hm).
    cbn [fst]. repeat split; intros; reflexivity.
  - destruct (accepted_model_status env q w Hm) as [[H1 | H1] [H2 | H2]];
      rewrite H1, H2; repeat split; intros; discriminate.
Qed.

(* ===================================================================== *)
(** ** The generators, further                                            *)
(* ===================================================================== *)




Lemma count_below_seqZ (f : Z) (n : nat) :
  length (List.filter (fun i => i <? f) (seqZ 0 (Z.of_nat n)))
  = Z.to_nat (Z.min (Z.max 0 f) (Z.of_nat n)).
Proof.
  induction n as [| n IH].
  { change (seqZ 0 (Z.of_nat 0)) with (@nil Z). cbn [List.filter length]. lia. }
  replace (Z.of_nat (S n)) with (Z.of_nat n + 1) by lia.
  rewrite seqZ_app by lia. rewrite List.filter_app, length_app, IH.
  change (seqZ (0 + Z.of_nat n) 1) with [0 + Z.of_nat n]. cbn [List.filter].
  destruct (0 + Z.of_nat n <? f) eqn:E; cbn [length].
  - apply Z.ltb_lt in E. lia.
  - apply Z.ltb_ge in E. lia.
Qed.

Lemma isFilledCircle_circle (d : Dot) : isFilledCircle (circle d) = isFilled d.
Proof.
  unfold isFilledCircle, isFilled.
  destruct (circle_attrs d) as (_ & _ & _ & -> & ->).
  destruct (opacity d); [rewrite andb_false_r | rewrite andb_true_r]; reflexivity.
Qed.

Lemma filledCircles_fmap (g : Z -> Dot) (f : Z) (l : list Z) :
  (forall i, isFilled (g i) = (i <? f)) ->
  length (List.filter isFilledCircle (circle <$> (g <$> l)))
  = length (List.filter (fun i => i <? f) l).
Proof.
  intros Hg. induction l as [| i l IH]; [reflexivity |].
  cbn [fmap list_fmap List.filter]. rewrite isFilledCircle_circle, Hg.
  destruct (i <? f); cbn [length]; [f_equal |]; exact IH.
Qed.

Lemma emptyCircles_fmap (g : Z -> Dot) (f : Z) (l : list Z) :
  (forall i, isEmptyCircle (circle (g i)) = negb (i <? f)) ->
  length (List.filter isEmptyCircle (circle <$> (g <$> l)))
  = (length l - length (List.filter (fun i => (i <? f)%Z) l))%nat.
Proof.
  intros Hg. induction l as [| i l IH]; [reflexivity |].
  cbn [fmap list_fmap List.filter]. rewrite Hg.
  pose proof (List.filter_length_le (fun i => i <? f) l) as Hle.
  destruct (i <? f); cbn [negb length]; rewrite IH; lia.
Qed.

(** X15: the document built for [f] has exactly [f] circles drawn filled
    (fill #1C1C1E and no opacity), none for a negative [f] and all 365 for a
    larger one, and the other circles of the 365 are drawn empty, in both
    generators; so the overlay of day [n] shows [n] filled dots. *)
Theorem X15_number_of_filled_dots f :
  filledCircles (OverBackground.buildDotGridSVG f) = Z.to_nat (Z.min (Z.max 0 f) 365) /\
  filledCircles (OnWhite.buildDotGridSVG f) = Z.to_nat (Z.min (Z.max 0 f) 365) /\
  emptyCircles (OverBackground.buildDotGridSVG f)
    = (365 - Z.to_nat (Z.min (Z.max 0 f) 365))%nat /\
  emptyCircles (OnWhite.buildDotGridSVG f)
    = (365 - Z.to_nat (Z.min (Z.max 0 f) 365))%nat /\
  length (circlesOf (OverBackground.buildDotGridSVG f)) = 365%nat /\
  length (circlesOf (OnWhite.buildDotGridSVG f)) = 365%nat.
Proof.
  unfold filledCircles, emptyCircles.
  rewrite !OverBackground_circles, !OnWhite_circles.
  unfold OverBackground.dots, OnWhite.dots, OverBackground.TOTAL_DOTS, OnWhite.TOTAL_DOTS.
  pose proof (count_below_seqZ f 365) as C.
  change (Z.of_nat 365) with 365 in C.
  split; [| split; [| split; [| split; [| split]]]].
  - rewrite (filledCircles_fmap _ f); [exact C |].
    intros i. unfold OverBackground.dot. destruct (i <? f); reflexivity.
  - rewrite (filledCircles_fmap _ f); [exact C |].
    intros i. unfold OnWhite.dot. destruct (i <? f); reflexivity.
  - rewrite (emptyCircles_fmap _ f), C, length_seqZ; [reflexivity |].
    intros i. unfold OverBackground.dot. destruct (i <? f); reflexivity.
  - rewrite (emptyCircles_fmap _ f), C, length_seqZ; [reflexivity |].
    intros i. unfold OnWhite.dot. destruct (i <? f); reflexivity.
  - rewrite !length_fmap, length_seqZ. reflexivity.
  - rewrite !length_fmap, length_seqZ. reflexivity.
Qed.

Lemma dayEvents_cons jobFor progress total day rest :
  dayEvents jobFor progress total (day :: rest)
  = ToFile (jobFor day)
    :: (if reportsProgress day total then [StdoutWrite (progress day)] else [])
    ++ dayEvents jobFor progress total rest.
Proof. reflexivity. Qed.

Lemma dayEvents_app jobFor progress total pre post :
  dayEvents jobFor progress total (pre ++ post)
  = dayEvents jobFor progress total pre ++ dayEvents jobFor progress total post.
Proof. unfold dayEvents. apply bind_app. Qed.

Lemma renderDays_succeeds genv jobFor progress total days evs :
  Forall (fun day => sharpToFile genv (jobFor day) = Normal tt) days ->
  renderDays genv jobFor progress total days evs
  = (Normal tt, evs ++ dayEvents jobFor progress total days).
Proof.
  intros H. revert evs. induction H as [| day rest Hd _ IH]; intros evs.
  - cbn. rewrite app_nil_r. reflexivity.
  - cbn [renderDays]. rewrite Hd, IH, dayEvents_cons.
    destruct (reportsProgress day total); rewrite <- ?app_assoc; reflexivity.
Qed.

Lemma renderDays_fails genv jobFor progress total pre k post e evs :
  Forall (fun day => sharpToFile genv (jobFor day) = Normal tt) pre ->
  sharpToFile genv (jobFor k) = Throw e ->
  renderDays genv jobFor progress total (pre ++ k :: post) evs
  = (Throw e, evs ++ dayEvents jobFor progress total pre ++ [ToFile (jobFor k)]).
Proof.
  intros H Hk. revert evs. induction H as [| day rest Hd _ IH]; intros evs.
  - cbn. rewrite Hk. reflexivity.
  - cbn [renderDays app]. rewrite Hd, IH, dayEvents_cons.
    destruct (reportsProgress day total); rewrite <- ?app_assoc; reflexivity.
Qed.

Lemma jobsOf_dayEvents jobFor progress total days :
  jobsOf (dayEvents jobFor progress total days) = jobFor <$> days.
Proof.
  induction days as [| day rest IH]; [reflexivity |].
  rewrite dayEvents_cons. unfold jobsOf in *. cbn [omap list_omap]. rewrite omap_app, IH.
  destruct (reportsProgress day total); reflexivity.
Qed.

Lemma progressOf_dayEvents jobFor progress total days :
  progressOf (dayEvents jobFor progress total days)
  = progress <$> List.filter (fun day => reportsProgress day total) days.
Proof.
  induction days as [| day rest IH]; [reflexivity |].
  rewrite dayEvents_cons. unfold progressOf in *. cbn [omap list_omap List.filter].
  rewrite omap_app, IH.
  destruct (reportsProgress day total); reflexivity.
Qed.

Lemma dayEvents_elem jobFor progress total days ev :
  ev ∈ dayEvents jobFor progress total days ->
  (exists day, ev = ToFile (jobFor day)) \/ (exists day, ev = StdoutWrite (progress day)).
Proof.
  induction days as [| day rest IH]; [intros H; inversion H |].
  rewrite dayEvents_cons. intros H. apply elem_of_cons in H as [-> | H]; [eauto |].
  apply elem_of_app in H as [H | H]; [| exact (IH H)].
  destruct (reportsProgress day total); [| inversion H].
  apply list_elem_of_singleton in H as ->. eauto.
Qed.

Lemma string_length_app (s t : string) :
  String.length (s +:+ t) = (String.length s + String.length t)%nat.
Proof. induction s as [| c s IH]; [reflexivity |]. rewrite append_cons. cbn. rewrite IH. reflexivity. Qed.

Lemma string_app_inv_tail (s s' t : string) : s +:+ t = s' +:+ t -> s = s'.
Proof.
  revert s'. induction s as [| c s IH]; intros [| c' s'] H.
  - reflexivity.
  - apply (f_equal String.length) in H. rewrite append_cons in H.
    change (String.length (EmptyString +:+ t)) with (String.length t) in H.
    cbn [String.length] in H. rewrite string_length_app in H. lia.
  - apply (f_equal String.length) in H. rewrite append_cons in H.
    change (String.length (EmptyString +:+ t)) with (String.length t) in H.
    cbn [String.length] in H. rewrite string_length_app in H. lia.
  - rewrite !append_cons in H. injection H as -> H. f_equal. exact (IH _ H).
Qed.

Lemma pathJoin_inj dir a b : pathJoin dir a = pathJoin dir b -> a = b.
Proof.
  unfold pathJoin. intros H. apply (inj (String.app dir)) in H.
  rewrite !append_cons in H. injection H as H. exact H.
Qed.

(** The file name of a day is that of day [m] only for [m] itself: a
    negative day has a sign in its name, and NaN has letters. *)
Lemma dayFileName_inj d m : 0 <= m -> dayFileName d = dayFileName (Num m) -> d = Num m.
Proof.
  intros Hm H. unfold dayFileName in H.
  apply (inj (String.app "day-")) in H. apply string_app_inv_tail in H.
  destruct (Number_padded 3 m Hm) as [Hn Hd]. cbn [String_] in H.
  destruct d as [n |].
  - cbn [String_] in H. destruct (Z_lt_le_dec n 0) as [Hneg | Hpos].
    + exfalso. rewrite <- H in Hd. unfold padStart in Hd.
      rewrite allDigits_app, (stringOfZ_negative n Hneg), andb_false_r in Hd.
      discriminate.
    + destruct (Number_padded 3 n Hpos) as [Hn' _]. rewrite H, Hn in Hn'.
      symmetry. exact Hn'.
  - exfalso. rewrite <- H in Hd. vm_compute in Hd. discriminate.
Qed.

Lemma generatedOverlays_NoDup dir : NoDup (generatedOverlays dir).
Proof.
  unfold generatedOverlays. apply NoDup_fmap_2_strong; [| apply NoDup_seqZ].
  intros a b Ha Hb H. apply elem_of_seqZ in Hb.
  apply pathJoin_inj, dayFileName_inj in H; [| lia]. congruence.
Qed.

Ltac not_among :=
  let H := fresh in
  intros H;
  cbv [app OverBackgroundMain.banner generationFailed] in H;
  repeat (apply elem_of_cons in H as [H | H]);
  try discriminate;
  try (injection H; cbv [String.append pathJoin]; discriminate);
  inversion H.

Lemma writesAllOverlays_intro genv jobFor progress before :
  (forall day, outFile (jobFor day) = pathJoin (outDirOf genv) (dayFileName (Num day))) ->
  jobsOf before = [] -> progressOf before = [] ->
  (forall code, ProcessExit code ∉ before) ->
  writesAllOverlays genv jobFor progress
    ((before ++ dayEvents jobFor progress 365 (seqZ 1 365))
     ++ [ConsoleTimeEnd "total";
         ConsoleLog "Done. All overlays written to public/overlays/"]).
Proof.
  intros Hout Hj Hp Hx.
  assert (J : jobsOf ((before ++ dayEvents jobFor progress 365 (seqZ 1 365))
                      ++ [ConsoleTimeEnd "total";
                          ConsoleLog "Done. All overlays written to public/overlays/"])
              = jobFor <$> seqZ 1 365).
  { unfold jobsOf in *. rewrite !omap_app, Hj.
    change (omap _ (dayEvents jobFor progress 365 (seqZ 1 365)))
      with (jobsOf (dayEvents jobFor progress 365 (seqZ 1 365))).
    rewrite jobsOf_dayEvents. cbn [omap list_omap app]. apply app_nil_r. }
  assert (O : outFile <$> (jobFor <$> seqZ 1 365) = generatedOverlays (outDirOf genv)).
  { rewrite <- list_fmap_compose. unfold generatedOverlays.
    apply list_fmap_ext. intros _ day _. apply Hout. }
  unfold writesAllOverlays. rewrite J, O.
  split; [reflexivity | split; [reflexivity | split; [apply generatedOverlays_NoDup |]]].
  split; [| split].
  - unfold progressOf in *. rewrite !omap_app, Hp.
    change (omap _ (dayEvents jobFor progress 365 (seqZ 1 365)))
      with (progressOf (dayEvents jobFor progress 365 (seqZ 1 365))).
    rewrite progressOf_dayEvents. cbn [omap list_omap app]. rewrite app_nil_r.
    f_equal; try (vm_compute; reflexivity).
  - intros code H. apply elem_of_app in H as [H | H].
    + apply elem_of_app in H as [H | H]; [exact (Hx code H) |].
      apply dayEvents_elem in H as [[day H] | [day H]]; discriminate.
    + revert H. not_among.
  - eexists. reflexivity.
Qed.

Lemma seqZ_split_at (k n : Z) :
  1 <= k <= n -> seqZ 1 n = seqZ 1 (k - 1) ++ k :: seqZ (k + 1) (n - k).
Proof.
  intros H. replace n with ((k - 1) + (1 + (n - k))) at 1 by lia.
  rewrite seqZ_app by lia. f_equal.
  rewrite (seqZ_app _ 1 (n - k)) by lia.
  replace (1 + (k - 1)) with k by lia. reflexivity.
Qed.

Lemma stopsAtDay_intro jobFor progress before k e :
  1 <= k -> jobsOf before = [] ->
  (ConsoleLog "Done. All overlays written to public/overlays/" ∉ before) ->
  stopsAtDay jobFor k e
    ((before ++ dayEvents jobFor progress 365 (seqZ 1 (k - 1)) ++ [ToFile (jobFor k)])
     ++ generationFailed e).
Proof.
  intros Hk Hj Hd. unfold stopsAtDay. split; [| split].
  - unfold jobsOf in *. rewrite !omap_app, Hj.
    change (omap _ (dayEvents jobFor progress 365 (seqZ 1 (k - 1))))
      with (jobsOf (dayEvents jobFor progress 365 (seqZ 1 (k - 1)))).
    rewrite jobsOf_dayEvents. cbn [omap list_omap app generationFailed].
    rewrite app_nil_r.
    replace k with ((k - 1) + 1) at 3 by lia. rewrite seqZ_app, fmap_app by lia.
    replace (1 + (k - 1)) with k by lia. reflexivity.
  - intros H. apply elem_of_app in H as [H | H].
    + apply elem_of_app in H as [H | H]; [exact (Hd H) |].
      apply elem_of_app in H as [H | H].
      * apply dayEvents_elem in H as [[day H] | [day H]]; discriminate.
      * apply list_elem_of_singleton in H. discriminate.
    + revert H. unfold generationFailed. not_among.
  - exists (before ++ dayEvents jobFor progress 365 (seqZ 1 (k - 1))).
    rewrite <- !app_assoc. reflexivity.
Qed.

(** X16: when the background is there, the directory can be made and
    sharp writes every file, [main] renders the days 1 to 365 in order,
    each to its own file day-001.png ... day-365.png of public/overlays
    (the names the handlers look for), the job of day [n] carrying the grid
    built for [n]; it reports progress after days 50, 100, ..., 350 and 365
    and ends with the Done line, without an exit.  The same holds of
    scripts/generate-overlays.js, which needs no background. *)
Theorem X16_main_writes_every_overlay genv :
  mkdirOutDir genv = Normal tt ->
  (backgroundExists genv = true ->
   (forall day, 1 <= day <= 365 ->
                sharpToFile genv (OverBackgroundMain.jobFor genv day) = Normal tt) ->
   writesAllOverlays genv (OverBackgroundMain.jobFor genv) OverBackgroundMain.progress
     (OverBackgroundMain.main genv) /\
   forall job, job ∈ jobsOf (OverBackgroundMain.main genv) ->
     exists day, 1 <= day <= 365 /\ background job = Some (bgPathOf genv) /\
                 layer job = OverBackground.buildDotGridSVG day /\ pngLevel job = 6 /\
                 outFile job = pathJoin (outDirOf genv) (dayFileName (Num day))) /\
  ((forall day, 1 <= day <= 365 ->
                sharpToFile genv (OnWhiteMain.jobFor genv day) = Normal tt) ->
   writesAllOverlays genv (OnWhiteMain.jobFor genv) OnWhiteMain.progress
     (OnWhiteMain.main genv) /\
   forall job, job ∈ jobsOf (OnWhiteMain.main genv) ->
     exists day, 1 <= day <= 365 /\ background job = None /\
                 layer job = OnWhite.buildDotGridSVG day /\ pngLevel job = 6 /\
                 outFile job = pathJoin (outDirOf genv) (dayFileName (Num day))).
Proof.
  intros Hmk. split.
  - intros Hbg Hok.
    assert (W : writesAllOverlays genv (OverBackgroundMain.jobFor genv)
                  OverBackgroundMain.progress (OverBackgroundMain.main genv)).
    { unfold OverBackgroundMain.main. rewrite Hbg, Hmk. cbn [negb].
      change OverBackground.TOTAL_DOTS with 365.
      rewrite renderDays_succeeds.
      - apply writesAllOverlays_intro; try reflexivity. intros code. not_among.
      - apply Forall_forall. intros day Hd. apply elem_of_seqZ in Hd. apply Hok. lia. }
    split; [exact W |]. destruct W as [J _]. rewrite J. intros job Hjob.
    apply list_elem_of_fmap in Hjob as (day & -> & Hd). apply elem_of_seqZ in Hd.
    exists day. repeat split; lia.
  - intros Hok.
    assert (W : writesAllOverlays genv (OnWhiteMain.jobFor genv) OnWhiteMain.progress
                  (OnWhiteMain.main genv)).
    { unfold OnWhiteMain.main. rewrite Hmk. change OnWhiteMain.total with 365.
      rewrite renderDays_succeeds.
      - apply writesAllOverlays_intro; try reflexivity. intros code. not_among.
      - apply Forall_forall. intros day Hd. apply elem_of_seqZ in Hd. apply Hok. lia. }
    split; [exact W |]. destruct W as [J _]. rewrite J. intros job Hjob.
    apply list_elem_of_fmap in Hjob as (day & -> & Hd). apply elem_of_seqZ in Hd.
    exists day. repeat split; lia.
Qed.

Lemma X16_main_writes_every_overlay_witness :
  writesAllOverlays workstation (OverBackgroundMain.jobFor workstation)
    OverBackgroundMain.progress (OverBackgroundMain.main workstation) /\
  writesAllOverlays workstation (OnWhiteMain.jobFor workstation)
    OnWhiteMain.progress (OnWhiteMain.main workstation).
Proof.
  destruct (X16_main_writes_every_overlay workstation eq_refl) as [H1 H2].
  split.
  - apply H1; [reflexivity | intros day _; reflexivity].
  - apply H2. intros day _. reflexivity.
Defined.

(** X17: how [main] fails.  Without public/background.png the generator
    over the background probes for it, reports it and exits with code 1,
    making no directory and rendering nothing.  When sharp rejects day [k]
    after the days before it were written, the days 1 to [k] have been
    attempted and none after it, the Done line is not printed, and the run
    ends with Generation failed and exit code 1, in both generators.  A
    directory that cannot be made fails the run before any rendering. *)
Theorem X17_main_stops_at_the_first_failure genv k e :
  1 <= k <= 365 ->
  (backgroundExists genv = false ->
   OverBackgroundMain.main genv
   = [GenExistsSync (bgPathOf genv);
      ConsoleError ("Background image not found: " +:+ bgPathOf genv) None;
      ProcessExit 1]) /\
  (mkdirOutDir genv = Throw e ->
   jobsOf (OnWhiteMain.main genv) = [] /\
   OnWhiteMain.main genv = [MkdirSync (outDirOf genv)] ++ generationFailed e /\
   (backgroundExists genv = true ->
    jobsOf (OverBackgroundMain.main genv) = [] /\
    OverBackgroundMain.main genv
    = [GenExistsSync (bgPathOf genv); MkdirSync (outDirOf genv)] ++ generationFailed e)) /\
  (mkdirOutDir genv = Normal tt ->
   (backgroundExists genv = true ->
    (forall day, 1 <= day < k ->
                 sharpToFile genv (OverBackgroundMain.jobFor genv day) = Normal tt) ->
    sharpToFile genv (OverBackgroundMain.jobFor genv k) = Throw e ->
    stopsAtDay (OverBackgroundMain.jobFor genv) k e (OverBackgroundMain.main genv)) /\
   ((forall day, 1 <= day < k ->
                 sharpToFile genv (OnWhiteMain.jobFor genv day) = Normal tt) ->
    sharpToFile genv (OnWhiteMain.jobFor genv k) = Throw e ->
    stopsAtDay (OnWhiteMain.jobFor genv) k e (OnWhiteMain.main genv))).
Proof.
  intros Hk. split; [| split].
  - intros Hbg. unfold OverBackgroundMain.main. rewrite Hbg. reflexivity.
  - intros Hmk. unfold OnWhiteMain.main, OverBackgroundMain.main. rewrite Hmk.
    split; [reflexivity | split; [reflexivity |]].
    intros Hbg. rewrite Hbg. split; reflexivity.
  - intros Hmk. split.
    + intros Hbg Hok Hfail. unfold OverBackgroundMain.main. rewrite Hbg, Hmk. cbn [negb].
      change OverBackground.TOTAL_DOTS with 365.
      rewrite (seqZ_split_at k 365 Hk), (renderDays_fails _ _ _ _ _ _ _ e).
      * apply stopsAtDay_intro; [lia | reflexivity | not_among].
      * apply Forall_forall. intros day Hd. apply elem_of_seqZ in Hd. apply Hok. lia.
      * exact Hfail.
    + intros Hok Hfail. unfold OnWhiteMain.main. rewrite Hmk.
      change OnWhiteMain.total with 365.
      rewrite (seqZ_split_at k 365 Hk), (renderDays_fails _ _ _ _ _ _ _ e).
      * apply stopsAtDay_intro; [lia | reflexivity | not_among].
      * apply Forall_forall. intros day Hd. apply elem_of_seqZ in Hd. apply Hok. lia.
      * exact Hfail.
Qed.

Lemma diskFullAt101_before day :
  1 <= day < 101 ->
  String.eqb (pathJoin (outDirOf diskFullAt101) (dayFileName (Num day)))
    "/home/dev/wallpaperpush/public/overlays/day-101.png" = false.
Proof.
  intros Hd. apply String.eqb_neq. intros H.
  change "/home/dev/wallpaperpush/public/overlays/day-101.png"
    with (pathJoin (outDirOf diskFullAt101) (dayFileName (Num 101))) in H.
  apply pathJoin_inj, dayFileName_inj in H; [| lia]. injection H as H. lia.
Qed.

Lemma X17_main_stops_at_the_first_failure_witness :
  stopsAtDay (OverBackgroundMain.jobFor diskFullAt101) 101
    (SystemError "ENOSPC: no space left on device") (OverBackgroundMain.main diskFullAt101) /\
  stopsAtDay (OnWhiteMain.jobFor diskFullAt101) 101
    (SystemError "ENOSPC: no space left on device") (OnWhiteMain.main diskFullAt101).
Proof.
  destruct (X17_main_stops_at_the_first_failure diskFullAt101 101
              (SystemError "ENOSPC: no space left on device") ltac:(lia))
    as (_ & _ & H).
  destruct (H eq_refl) as [H1 H2]. split.
  - apply H1; [reflexivity | | reflexivity].
    intros day Hd. unfold diskFullAt101 at 1. cbn [sharpToFile OverBackgroundMain.jobFor outFile].
    rewrite (diskFullAt101_before day Hd). reflexivity.
  - apply H2; [| reflexivity].
    intros day Hd. unfold diskFullAt101 at 1. cbn [sharpToFile OnWhiteMain.jobFor outFile].
    rewrite (diskFullAt101_before day Hd). reflexivity.
Defined.

Lemma overlay_of_other_day env d :
  overlaysAsGenerated env ->
  fileExists env (overlayPathFor env d) = true ->
  exists n, 1 <= n <= 365 /\ d = Num n.
Proof.
  intros Hg H. apply Hg in H as (n & Hn & H). exists n. split; [exact Hn |].
  unfold overlayPathFor in H. apply pathJoin_inj, dayFileName_inj in H; [exact H | lia].
Qed.

(** X18: the generator and the handlers fit together.  When the overlay
    directory holds what [main] writes, day-001.png to day-365.png, the
    selection finds an overlay for every day of year the date arithmetic can
    produce: the file of that day for 1 to 365, and day-365.png for
    anything else (366 in a leap year, a day below 1, NaN); so neither
    handler answers that no overlay was found. *)
Theorem X18_generated_overlays_are_served env d w :
  overlaysAsGenerated env ->
  fst (selectOverlay env d w) = Normal (Some (overlayPathFor env (Num (servedDay d)))) /\
  (forall q, statusOf (fst (Plain.handler env q w)) = 500 ->
             fst (Plain.handler env q w) <> noOverlayPlain) /\
  (forall q, statusOf (fst (WithText.handler env q w)) = 500 ->
             fst (WithText.handler env q w) <> noOverlayWithText).
Proof.
  intros Hg.
  assert (Hc : forall d', chosenOverlay env d'
                          = Some (overlayPathFor env (Num (servedDay d')))).
  { intros d'. unfold chosenOverlay.
    destruct (fileExists env (overlayPathFor env d')) eqn:E.
    - destruct (overlay_of_other_day env d' Hg E) as (n & Hn & ->).
      unfold servedDay. replace ((1 <=? n) && (n <=? 365)) with true by lia.
      reflexivity.
    - assert (H365 : fileExists env (day365Path env) = true)
        by (apply Hg; exists 365; split; [lia | reflexivity]).
      rewrite H365. f_equal.
      assert (Hs : servedDay d' = 365).
      { unfold servedDay. destruct d' as [n |]; [| reflexivity].
        destruct ((1 <=? n) && (n <=? 365)) eqn:B; [| reflexivity].
        assert (Hx : fileExists env (overlayPathFor env (Num n)) = true)
          by (apply Hg; exists n; split; [lia | reflexivity]).
        congruence. }
      rewrite Hs. reflexivity. }
  split; [rewrite selectOverlay_run, Hc; reflexivity |].
  split; intros q Hs Hr.
  - destruct (isFalsy (getProperty (modelOf q))) eqn:Hm.
    + rewrite (Plain_unknown_model env q w Hm) in Hs. discriminate.
    + destruct (parseDateInTz_run env (q_date q) (q_tz q) w) as (today & evs & Hp & _).
      rewrite (Plain_run env q w today evs Hm Hp), Hc in Hr. cbn [fst] in Hr.
      destruct (sharpToBuffer env _); discriminate.
  - destruct (isFalsy (getProperty (modelOf q))) eqn:Hm.
    + rewrite (WithText_unknown_model env q w Hm) in Hs. discriminate.
    + destruct (parseDateInTz_run env (q_date q) (q_tz q) w) as (today & evs & Hp & _).
      rewrite (WithText_run env q w today evs Hm Hp), Hc in Hr.
      destruct (WithText.getFontBase64 env _) as [[font | e] w3]; cbn [fst] in Hr.
      * destruct (sharpToBuffer env _); discriminate.
      * discriminate.
Qed.

Lemma deployment_overlaysAsGenerated : overlaysAsGenerated deployment.
Proof.
  intros p.
  change (fileExists deployment p)
    with (existsb (String.eqb p) (generatedOverlays "/var/task/public/overlays")).
  rewrite existsb_exists. unfold overlayPathFor.
  change (OVERLAYS_DIR deployment) with "/var/task/public/overlays".
  unfold generatedOverlays. split.
  - intros (x & Hx & He). apply String.eqb_eq in He. subst x.
    apply list_elem_of_In, list_elem_of_fmap in Hx as (n & -> & Hn).
    apply elem_of_seqZ in Hn. exists n. split; [lia | reflexivity].
  - intros (n & Hn & ->). eexists. split; [| apply String.eqb_refl].
    apply list_elem_of_In, list_elem_of_fmap. exists n. split; [reflexivity |].
    apply elem_of_seqZ. lia.
Qed.

Lemma X18_generated_overlays_are_served_witness :
  fst (selectOverlay deployment (Num 366) initialWorld)
  = Normal (Some (overlayPathFor deployment (Num 365))).
Proof.
  destruct (X18_generated_overlays_are_served deployment (Num 366) initialWorld
              deployment_overlaysAsGenerated) as [H _].
  exact H.
Defined.

(* ===================================================================== *)
(** ** The two handlers side by side, and requests that are off the path  *)
(* ===================================================================== *)

(** X19: the two handlers agree on a request.  When both answer with an
    image, the headers of the handler with the text layer are those of the
    plain handler followed by X-Days-Left and X-Year-Percent; the overlay
    file, the size and the encoder they hand to sharp are the same. *)
Theorem X19_handlers_agree env q w hs b hs' b' :
  fst (Plain.handler env q w) = Image 200 hs b ->
  fst (WithText.handler env q w) = Image 200 hs' b' ->
  (exists left pct, hs' = hs ++ [("X-Days-Left", left); ("X-Year-Percent", pct)]) /\
  header "X-Day-Of-Year" (Image 200 hs b) = header "X-Day-Of-Year" (Image 200 hs' b') /\
  header "Content-Type" (Image 200 hs b) = header "Content-Type" (Image 200 hs' b') /\
  exists p p',
    sharpToBuffer env p = Normal b /\ sharpToBuffer env p' = Normal b' /\
    SharpToBuffer p ∈ events (snd (Plain.handler env q w)) /\
    SharpToBuffer p' ∈ events (snd (WithText.handler env q w)) /\
    input p = input p' /\ resizeWidth p = resizeWidth p' /\
    resizeHeight p = resizeHeight p' /\ encoder p = encoder p' /\
    composite p = [] /\ length (composite p') = 1%nat.
Proof.
  destruct (isFalsy (getProperty (modelOf q))) eqn:Hm.
  { rewrite (Plain_unknown_model env q w Hm). discriminate. }
  destruct (parseDateInTz_run env (q_date q) (q_tz q) w) as (today & evs & Hp & _).
  rewrite (Plain_run env q w today evs Hm Hp), (WithText_run env q w today evs Hm Hp).
  rewrite <- (getDayOfYear_calcDateInfo (host env) today).
  destruct (chosenOverlay env (getDayOfYear (host env) today)) as [path |];
    [| discriminate].
  destruct (WithText.getFontBase64 env _) as [[font | e] w3]; [| discriminate].
  cbn [fst snd].
  destruct (sharpToBuffer env (plainPipeline q path)) as [buf | e] eqn:E1; [| discriminate].
  destruct (sharpToBuffer env (textPipeline q (calcDateInfo (host env) today) path font))
    as [buf' | e] eqn:E2; [| discriminate].
  cbn [sent mapCompletion]. unfold plainImage, textImage.
  intros [= <- <-] [= <- <-]. split; [eexists _, _; reflexivity |].
  split; [reflexivity | split; [reflexivity |]].
  exists (plainPipeline q path), (textPipeline q (calcDateInfo (host env) today) path font).
  split; [exact E1 | split; [exact E2 |]].
  split; [| split].
  - unfold logged. cbn [events]. repeat (apply elem_of_app; right).
    apply list_elem_of_singleton. reflexivity.
  - unfold logged. cbn [events]. repeat (apply elem_of_app; right).
    apply list_elem_of_singleton. reflexivity.
  - repeat split; reflexivity.
Qed.

Lemma X19_handlers_agree_witness :
  exists left pct,
    [("Content-Type", "image/jpeg");
     ("Cache-Control", "no-store, no-cache, must-revalidate");
     ("X-Day-Of-Year", "69"); ("X-Days-Left", "297"); ("X-Year-Percent", "18.9")]
    = [("Content-Type", "image/jpeg");
       ("Cache-Control", "no-store, no-cache, must-revalidate");
       ("X-Day-Of-Year", "69")]
      ++ [("X-Days-Left", left); ("X-Year-Percent", pct)].
Proof.
  destruct (X19_handlers_agree deployment (query None (Some "2024-03-09") None None)
              initialWorld
              [("Content-Type", "image/jpeg");
               ("Cache-Control", "no-store, no-cache, must-revalidate");
               ("X-Day-Of-Year", "69")]
              "image of /var/task/public/overlays/day-069.png"
              [("Content-Type", "image/jpeg");
               ("Cache-Control", "no-store, no-cache, must-revalidate");
               ("X-Day-Of-Year", "69"); ("X-Days-Left", "297"); ("X-Year-Percent", "18.9")]
              "image of /var/task/public/overlays/day-069.png"
              ltac:(vm_compute; reflexivity) ltac:(vm_compute; reflexivity)) as [H _].
  exact H.
Defined.

Lemma calcDateInfo_invalid host : calcDateInfo host NaN = invalidDateInfo.
Proof. reflexivity. Qed.

(** X20: a date override with fewer than three fields is not rejected.
    The missing fields are [undefined], the date built from them is
    invalid, and so are its metrics: day of year and days left are NaN and
    the percentage is the string NaN, the file looked for is day-NaN.png.
    With the generated overlays in place the plain handler then answers 200
    with the overlay of day 365 and the header X-Day-Of-Year: NaN. *)
Theorem X20_incomplete_date_is_served_as_nan env str tz w :
  str <> EmptyString -> (length (split "-" str) < 3)%nat ->
  parseDateInTz env (Some str) tz w = (Normal NaN, w) /\
  calcDateInfo (host env) NaN = invalidDateInfo /\
  getDayOfYear (host env) NaN = NaN /\
  dayFileName NaN = "day-NaN.png" /\
  (forall q buf,
     q_date q = Some str -> q_tz q = tz ->
     isFalsy (getProperty (modelOf q)) = false ->
     overlaysAsGenerated env ->
     sharpToBuffer env (plainPipeline q (day365Path env)) = Normal buf ->
     fst (Plain.handler env q w)
     = Image 200 [("Content-Type", contentTypeFor (formatOf q));
                  ("Cache-Control", "no-store, no-cache, must-revalidate");
                  ("X-Day-Of-Year", "NaN")] buf).
Proof.
  intros Hne Hlen.
  assert (Hp : parseDateInTz env (Some str) tz w = (Normal NaN, w)).
  { unfold parseDateInTz. destruct str as [| c s]; [congruence |].
    destruct (split "-" (String c s)) as [| a [| b [| x l]]]; cbn in Hlen; try lia;
      cbn [List.map nthNum nth jsSub]; unfold Date.new;
      repeat match goal with |- context [Number ?s] => destruct (Number s) end;
      reflexivity. }
  split; [exact Hp |]. split; [reflexivity |]. split; [reflexivity |].
  split; [reflexivity |].
  intros q buf Hd Htz Hm Hg Hs.
  assert (Hrun : parseDateInTz env (q_date q) (q_tz q) w = (Normal NaN, logged w []))
    by (rewrite Hd, Htz, Hp; unfold logged; rewrite app_nil_r; destruct w; reflexivity).
  rewrite (Plain_run env q w NaN [] Hm Hrun).
  change (getDayOfYear (host env) NaN) with NaN.
  assert (Hc : chosenOverlay env NaN = Some (day365Path env)).
  { unfold chosenOverlay.
    destruct (fileExists env (overlayPathFor env NaN)) eqn:E.
    - destruct (overlay_of_other_day env NaN Hg E) as (n & _ & H). discriminate.
    - assert (H365 : fileExists env (day365Path env) = true)
        by (apply Hg; exists 365; split; [lia | reflexivity]).
      rewrite H365. reflexivity. }
  rewrite Hc. cbn [fst]. rewrite Hs. reflexivity.
Qed.

Lemma X20_incomplete_date_is_served_as_nan_witness :
  parseDateInTz deployment (Some "2024-03") None initialWorld = (Normal NaN, initialWorld) /\
  fst (Plain.handler deployment (query None (Some "2024-03") None None) initialWorld)
  = Image 200 [("Content-Type", "image/jpeg");
               ("Cache-Control", "no-store, no-cache, must-revalidate");
               ("X-Day-Of-Year", "NaN")]
      "image of /var/task/public/overlays/day-365.png".
Proof.
  destruct (X20_incomplete_date_is_served_as_nan deployment "2024-03" None initialWorld
              ltac:(discriminate) ltac:(vm_compute; lia)) as (H1 & _ & _ & _ & H2).
  split; [exact H1 |].
  exact (H2 (query None (Some "2024-03") None None)
            "image of /var/task/public/overlays/day-365.png"
            eq_refl eq_refl eq_refl deployment_overlaysAsGenerated eq_refl).
Defined.


